(** * PrepareNow: the geofence service (src/services/GeofenceService.ts)

    A shallow embedding of the zone-transition engine: the alert composer,
    the haversine containment test, the persisted occupancy state and event
    log, the background geofence task, the one-shot initial check, the
    foreground watch handler and the start/stop controller.

    Numbers are JavaScript Numbers, that is IEEE 754 binary64: Rocq's
    primitive floats.  The functions of the JavaScript [Math] object that the
    language leaves implementation-approximated are taken as a parameter
    ([MathObject]).  Asynchronous functions are run to completion one after
    the other: an [async] function is a state transformer over [World]. *)

From Stdlib Require Import Floats.
From stdpp Require Import base option list sorting strings pretty.

Local Open Scope string_scope.

(* A decimal literal denotes the nearest binary64 value, in JavaScript as
   here. *)
Set Warnings "-inexact-float".

(* [naive_solver] tries to clear hypotheses that are already gone. *)
Set Warnings "-clear-no-such-hyp".

(** ** Data model *)

(** [DisasterType] *)
Inductive DisasterType := FLOOD | FIRE | EVACUATION | STORM | EARTHQUAKE.

(** [SeverityLevel] *)
Inductive SeverityLevel := INFO | WARNING | HIGH | CRITICAL.

#[global] Instance DisasterType_eq_dec : EqDecision DisasterType.
Proof. solve_decision. Defined.

#[global] Instance SeverityLevel_eq_dec : EqDecision SeverityLevel.
Proof. solve_decision. Defined.

Definition all_DisasterType : list DisasterType :=
  [FLOOD; FIRE; EVACUATION; STORM; EARTHQUAKE].

Definition all_SeverityLevel : list SeverityLevel :=
  [INFO; WARNING; HIGH; CRITICAL].


Module AndroidNotificationPriority.
(** Modelled from the spec: the priority enumeration of the notification
    library (expo-notifications) is declared outside src/.  The spec gives
    the delivery priority as one of default, high, max, and max as the
    maximum. *)
Inductive t := DEFAULT | HIGH | MAX.


#[global] Instance eq_dec : EqDecision t.
Proof. solve_decision. Defined.
End AndroidNotificationPriority.

Module GeofencingEventType.
(** Modelled from the spec: the enumeration of the positioning library
    (expo-location) is declared outside src/; a transition callback
    carries the direction enter or exit.  Both values are truthy. *)
Inductive t := Enter | Exit.

#[global] Instance eq_dec : EqDecision t.
Proof. solve_decision. Defined.
End GeofencingEventType.

Module DisasterGeofence.
Record t := {
  identifier : string;
  type : DisasterType;
  severity : SeverityLevel;
  latitude : float;
  longitude : float;
  radius : float;
  notifyOnEnter : bool;
  notifyOnExit : bool;
  description : string;
}.
End DisasterGeofence.

Module LocationRegion.
(** The fields of [Location.LocationRegion] the service writes or reads;
    [identifier] and the two flags are optional there. *)
Record t := {
  identifier : option string;
  latitude : float;
  longitude : float;
  radius : float;
  notifyOnEnter : option bool;
  notifyOnExit : option bool;
}.
End LocationRegion.

Module Coords.
(** [location.coords], and the [location] field of a logged event. *)
Record t := { latitude : float; longitude : float }.
End Coords.

Inductive EventKind := ENTER | EXIT.

#[global] Instance EventKind_eq_dec : EqDecision EventKind.
Proof. solve_decision. Defined.

Module GeofenceEvent.
Record t := {
  type : EventKind;
  timestamp : string;
  region : option LocationRegion.t;
  location : option Coords.t;
  disasterType : option DisasterType;
  severity : option SeverityLevel;
  zoneName : option string;
}.
End GeofenceEvent.

Module GeofenceTaskData.
Record t := {
  eventType : option GeofencingEventType.t;
  region : option LocationRegion.t;
}.
End GeofenceTaskData.

Module AlertContent.
Record t := {
  title : string;
  body : string;
  actionText : string;
  sound : bool;
  priority : AndroidNotificationPriority.t;
}.

#[global] Instance eq_dec : EqDecision t.
Proof. solve_decision. Defined.
End AlertContent.

Module ZoneState.
Record t := { insideZones : list string; lastUpdated : string }.
End ZoneState.

(** The [data] payload every alert of the service carries. *)
Module AlertData.
Record t := {
  type : DisasterType;
  severity : SeverityLevel;
  action : string;
  zoneName : string;
  event : EventKind;
  geofenceId : string;
  timestamp : string;
  source : string;
}.
End AlertData.

(** The argument of [sendAlertNotification]. *)
Module AlertArgs.
Record t := {
  title : string;
  body : string;
  sound : bool;
  priority : AndroidNotificationPriority.t;
  data : AlertData.t;
}.
End AlertArgs.

(** The [content] handed to [Notifications.scheduleNotificationAsync]
    (always with [trigger: null], an immediate delivery). *)
Module NotificationContent.
Record t := {
  title : string;
  body : string;
  sound : bool;
  priority : AndroidNotificationPriority.t;
  channelId : option string;
  data : AlertData.t;
}.
End NotificationContent.


(** ** The zone catalog *)

Local Open Scope float_scope.

Definition TEST_GEOFENCES : list DisasterGeofence.t :=
  [ {| DisasterGeofence.identifier := "flood-derby-center";
       DisasterGeofence.type := FLOOD;
       DisasterGeofence.severity := HIGH;
       DisasterGeofence.latitude := 52.9225;
       DisasterGeofence.longitude := -1.4746;
       DisasterGeofence.radius := 1000;
       DisasterGeofence.notifyOnEnter := true;
       DisasterGeofence.notifyOnExit := true;
       DisasterGeofence.description := "Derby City Centre - High Flood Risk Zone" |};
    {| DisasterGeofence.identifier := "evacuation-zone-north";
       DisasterGeofence.type := EVACUATION;
       DisasterGeofence.severity := CRITICAL;
       DisasterGeofence.latitude := 52.93;
       DisasterGeofence.longitude := -1.48;
       DisasterGeofence.radius := 800;
       DisasterGeofence.notifyOnEnter := true;
       DisasterGeofence.notifyOnExit := true;
       DisasterGeofence.description := "North Derby - Mandatory Evacuation Zone" |};
    {| DisasterGeofence.identifier := "fire-risk-west";
       DisasterGeofence.type := FIRE;
       DisasterGeofence.severity := WARNING;
       DisasterGeofence.latitude := 52.918;
       DisasterGeofence.longitude := -1.49;
       DisasterGeofence.radius := 800;
       DisasterGeofence.notifyOnEnter := true;
       DisasterGeofence.notifyOnExit := true;
       DisasterGeofence.description := "West Derby - Wildfire Risk Area" |};
    {| DisasterGeofence.identifier := "storm-warning-east";
       DisasterGeofence.type := STORM;
       DisasterGeofence.severity := WARNING;
       DisasterGeofence.latitude := 52.925;
       DisasterGeofence.longitude := -1.46;
       DisasterGeofence.radius := 1000;
       DisasterGeofence.notifyOnEnter := true;
       DisasterGeofence.notifyOnExit := true;
       DisasterGeofence.description := "East Derby - Severe Storm Warning" |} ].

Local Close Scope float_scope.

(** ** The notification composer *)

(** [getDisasterAlertContent]: the shared exit template when [isEntering]
    is false, and [alerts[type][severity]] otherwise. *)
Definition getDisasterAlertContent
    (type : DisasterType) (severity : SeverityLevel) (isEntering : bool)
    : AlertContent.t :=
  if negb isEntering then
    {| AlertContent.title := "Safe Zone";
       AlertContent.body :=
         "You have exited the emergency zone. Stay alert and monitor updates.";
       AlertContent.actionText := "You are now in a safer area";
       AlertContent.sound := true;
       AlertContent.priority := AndroidNotificationPriority.DEFAULT |}
  else
  match type, severity with
  | FLOOD, INFO =>
      {| AlertContent.title := "Flood Information";
         AlertContent.body :=
           "You are entering a flood watch area. Monitor weather conditions.";
         AlertContent.actionText := "Stay informed about weather updates";
         AlertContent.sound := true;
         AlertContent.priority := AndroidNotificationPriority.DEFAULT |}
  | FLOOD, WARNING =>
      {| AlertContent.title := "Flood Warning";
         AlertContent.body :=
           "FLOOD WARNING: Avoid low-lying areas. Do not drive through water.";
         AlertContent.actionText := "Move to higher ground if needed";
         AlertContent.sound := true;
         AlertContent.priority := AndroidNotificationPriority.HIGH |}
  | FLOOD, HIGH =>
      {| AlertContent.title := "HIGH FLOOD RISK";
         AlertContent.body :=
           "DANGER: High flood risk zone. Move to higher ground immediately. Avoid water.";
         AlertContent.actionText := "Evacuate to higher ground NOW";
         AlertContent.sound := true;
         AlertContent.priority := AndroidNotificationPriority.MAX |}
  | FLOOD, CRITICAL =>
      {| AlertContent.title := "CRITICAL FLOOD DANGER";
         AlertContent.body :=
           "LIFE-THREATENING FLOODING. Evacuate immediately to high ground. Call 999 if trapped.";
         AlertContent.actionText := "EVACUATE NOW - Life threatening";
         AlertContent.sound := true;
         AlertContent.priority := AndroidNotificationPriority.MAX |}
  | FIRE, INFO =>
      {| AlertContent.title := "Fire Watch";
         AlertContent.body :=
           "Fire watch area. Be aware of smoke and follow local guidance.";
         AlertContent.actionText := "Monitor air quality";
         AlertContent.sound := true;
         AlertContent.priority := AndroidNotificationPriority.DEFAULT |}
  | FIRE, WARNING =>
      {| AlertContent.title := "Fire Warning";
         AlertContent.body :=
           "WILDFIRE WARNING: Stay indoors. Close windows. Prepare to evacuate.";
         AlertContent.actionText := "Prepare evacuation kit";
         AlertContent.sound := true;
         AlertContent.priority := AndroidNotificationPriority.HIGH |}
  | FIRE, HIGH =>
      {| AlertContent.title := "HIGH FIRE DANGER";
         AlertContent.body :=
           "EXTREME FIRE RISK: Evacuate if ordered. Have go-bag ready. Close all windows.";
         AlertContent.actionText := "Be ready to evacuate";
         AlertContent.sound := true;
         AlertContent.priority := AndroidNotificationPriority.MAX |}
  | FIRE, CRITICAL =>
      {| AlertContent.title := "FIRE EVACUATION";
         AlertContent.body :=
           "IMMEDIATE EVACUATION REQUIRED. Leave now. Do not return. Call 999 for help.";
         AlertContent.actionText := "LEAVE IMMEDIATELY";
         AlertContent.sound := true;
         AlertContent.priority := AndroidNotificationPriority.MAX |}
  | EVACUATION, INFO =>
      {| AlertContent.title := "Evacuation Notice";
         AlertContent.body :=
           "Evacuation may be required. Stay informed and prepare essentials.";
         AlertContent.actionText := "Prepare evacuation plan";
         AlertContent.sound := true;
         AlertContent.priority := AndroidNotificationPriority.DEFAULT |}
  | EVACUATION, WARNING =>
      {| AlertContent.title := "Evacuation Warning";
         AlertContent.body :=
           "EVACUATION LIKELY: Pack essentials. Identify evacuation routes. Stand by.";
         AlertContent.actionText := "Prepare to leave soon";
         AlertContent.sound := true;
         AlertContent.priority := AndroidNotificationPriority.HIGH |}
  | EVACUATION, HIGH =>
      {| AlertContent.title := "Evacuation Order";
         AlertContent.body :=
           "MANDATORY EVACUATION: Leave immediately. Take essentials only. Follow official routes.";
         AlertContent.actionText := "EVACUATE NOW";
         AlertContent.sound := true;
         AlertContent.priority := AndroidNotificationPriority.MAX |}
  | EVACUATION, CRITICAL =>
      {| AlertContent.title := "IMMEDIATE EVACUATION";
         AlertContent.body :=
           "LIFE-THREATENING SITUATION. Leave NOW. Do not delay. Call 999 if unable to evacuate.";
         AlertContent.actionText := "LEAVE IMMEDIATELY - Critical";
         AlertContent.sound := true;
         AlertContent.priority := AndroidNotificationPriority.MAX |}
  | STORM, INFO =>
      {| AlertContent.title := "Storm Watch";
         AlertContent.body :=
           "Storm conditions possible. Secure loose objects. Stay updated.";
         AlertContent.actionText := "Prepare for storm";
         AlertContent.sound := true;
         AlertContent.priority := AndroidNotificationPriority.DEFAULT |}
  | STORM, WARNING =>
      {| AlertContent.title := "Storm Warning";
         AlertContent.body :=
           "SEVERE STORM: Stay indoors. Avoid windows. Secure outdoor items.";
         AlertContent.actionText := "Take shelter indoors";
         AlertContent.sound := true;
         AlertContent.priority := AndroidNotificationPriority.HIGH |}
  | STORM, HIGH =>
      {| AlertContent.title := "SEVERE STORM";
         AlertContent.body :=
           "DANGEROUS STORM: Move to interior room. Stay away from windows. Avoid travel.";
         AlertContent.actionText := "Shelter in safe location";
         AlertContent.sound := true;
         AlertContent.priority := AndroidNotificationPriority.MAX |}
  | STORM, CRITICAL =>
      {| AlertContent.title := "EXTREME STORM";
         AlertContent.body :=
           "LIFE-THREATENING STORM. Take shelter immediately in basement or interior room. Call 999 for emergencies.";
         AlertContent.actionText := "TAKE SHELTER NOW";
         AlertContent.sound := true;
         AlertContent.priority := AndroidNotificationPriority.MAX |}
  | EARTHQUAKE, INFO =>
      {| AlertContent.title := "Earthquake Information";
         AlertContent.body :=
           "Recent seismic activity detected. Review earthquake safety procedures.";
         AlertContent.actionText := "Review safety procedures";
         AlertContent.sound := true;
         AlertContent.priority := AndroidNotificationPriority.DEFAULT |}
  | EARTHQUAKE, WARNING =>
      {| AlertContent.title := "Earthquake Alert";
         AlertContent.body :=
           "EARTHQUAKE RISK: Secure heavy objects. Know safe spots. Drop, Cover, Hold On.";
         AlertContent.actionText := "Be prepared to take cover";
         AlertContent.sound := true;
         AlertContent.priority := AndroidNotificationPriority.HIGH |}
  | EARTHQUAKE, HIGH =>
      {| AlertContent.title := "Earthquake Zone";
         AlertContent.body :=
           "HIGH EARTHQUAKE RISK: Identify safe areas. Prepare for aftershocks. Stay alert.";
         AlertContent.actionText := "Drop, Cover, Hold On if shaking";
         AlertContent.sound := true;
         AlertContent.priority := AndroidNotificationPriority.MAX |}
  | EARTHQUAKE, CRITICAL =>
      {| AlertContent.title := "EARTHQUAKE EMERGENCY";
         AlertContent.body :=
           "MAJOR EARTHQUAKE: Drop, Cover, Hold On. Stay away from buildings. Expect aftershocks.";
         AlertContent.actionText := "TAKE COVER - Stay safe";
         AlertContent.sound := true;
         AlertContent.priority := AndroidNotificationPriority.MAX |}
  end.

(** [getGeofenceDetails]: [Array.prototype.find], the first zone of the
    catalog with that identifier. *)
Definition getGeofenceDetails (catalog : list DisasterGeofence.t)
    (identifier : string) : option DisasterGeofence.t :=
  List.find (fun g => bool_decide (DisasterGeofence.identifier g = identifier))
    catalog.

(** [getSeverityColor] *)
Definition getSeverityColor (severity : SeverityLevel) : string :=
  match severity with
  | INFO => "#2196F3"
  | WARNING => "#FF9800"
  | HIGH => "#FF5722"
  | CRITICAL => "#D32F2F"
  end.

(** ** Distance and containment *)

(** The members of the JavaScript [Math] object that [calculateDistance]
    uses, and the exponentiation operator.  ECMAScript fixes [Math.PI] and
    leaves the others implementation-approximated, so they are parameters
    of the development. *)
Record MathObject := {
  Math_PI : float;
  Math_sin : float -> float;
  Math_cos : float -> float;
  Math_sqrt : float -> float;
  Math_atan2 : float -> float -> float;
  Number_exponentiate : float -> float -> float;
}.

Section Distance.
Context (Math : MathObject).
Local Open Scope float_scope.

Local Notation "x ** y" := (Number_exponentiate Math x y)
  (at level 30, right associativity).

(** [calculateDistance]: the haversine formula on a sphere of radius
    6371e3 metres. *)
Definition calculateDistance (lat1 lon1 lat2 lon2 : float) : float :=
  let R := 6371e3 in
  let toRad := fun d : float => (d * Math_PI Math) / 180 in
  let phi1 := toRad lat1 in
  let phi2 := toRad lat2 in
  let dphi := toRad (lat2 - lat1) in
  let dlambda := toRad (lon2 - lon1) in
  let a :=
    Math_sin Math (dphi / 2) ** 2 +
    Math_cos Math phi1 * Math_cos Math phi2 * Math_sin Math (dlambda / 2) ** 2 in
  R * 2 * Math_atan2 Math (Math_sqrt Math a) (Math_sqrt Math (1 - a)).

(** The test [distance <= geofence.radius] that the initial check and the
    foreground handler make for a zone, with the arguments in the order of
    the source: the observed point first, the centre of the zone second. *)
Definition isInside (location : Coords.t) (geofence : DisasterGeofence.t)
    : bool :=
  let distance :=
    calculateDistance
      (Coords.latitude location) (Coords.longitude location)
      (DisasterGeofence.latitude geofence)
      (DisasterGeofence.longitude geofence) in
  distance <=? DisasterGeofence.radius geofence.

End Distance.

(** ** The world of the service *)

(** What the positioning collaborator answers to a current-point query. *)
Inductive PositionResult :=
  | PositionOk (location : Coords.t)
  | PositionError (message : string).

(** The permission status a request resolves to. *)
Inductive PermissionStatus := granted | denied | undetermined.

#[global] Instance PermissionStatus_eq_dec : EqDecision PermissionStatus.
Proof. solve_decision. Defined.

(** The diagnostics of the service: its [console.warn] and [console.error]
    lines (first argument only).  The informational [console.log] lines are
    not part of the model. *)
Inductive ConsoleLevel := Warn | Error.

(** Everything the service reads or writes outside its local variables.
    - [storedZoneState], [storedLogs]: the values kept under
      [ZONE_STATE_KEY] and [LOGS_STORAGE_KEY] of [AsyncStorage]; each key
      holds the JSON text of one type and only this module writes it, so
      the model keeps the parsed value, [None] when the key is absent.
    - [scheduled]: the contents given to the notification collaborator,
      oldest first.
    - [console]: the diagnostics, oldest first.
    - [geofencingTask]: the regions the background watch [GEOFENCE_TASK]
      is registered with, [None] when it is not registered.
    - [locationSubscription]: whether the module variable of that name
      holds a foreground subscription.
    - [androidChannel]: whether the notification channel was set up.
    - [dateCalls]: how many times [new Date()] was evaluated.
    The collaborators are taken to answer: storage, notification and
    registration calls do not reject.  A rejected current-point query and
    an errored or incomplete background callback are inputs of the
    functions below. *)
Record World := {
  storedZoneState : option ZoneState.t;
  storedLogs : option (list GeofenceEvent.t);
  scheduled : list NotificationContent.t;
  console : list (ConsoleLevel * string);
  geofencingTask : option (list LocationRegion.t);
  locationSubscription : bool;
  androidChannel : bool;
  dateCalls : nat;
}.

Definition initialWorld : World :=
  {| storedZoneState := None; storedLogs := None; scheduled := [];
     console := []; geofencingTask := None; locationSubscription := false;
     androidChannel := false; dateCalls := 0 |}.

Definition set_storedZoneState (v : option ZoneState.t) (w : World) : World :=
  {| storedZoneState := v; storedLogs := storedLogs w;
     scheduled := scheduled w; console := console w;
     geofencingTask := geofencingTask w;
     locationSubscription := locationSubscription w;
     androidChannel := androidChannel w; dateCalls := dateCalls w |}.

Definition set_storedLogs (v : option (list GeofenceEvent.t)) (w : World)
    : World :=
  {| storedZoneState := storedZoneState w; storedLogs := v;
     scheduled := scheduled w; console := console w;
     geofencingTask := geofencingTask w;
     locationSubscription := locationSubscription w;
     androidChannel := androidChannel w; dateCalls := dateCalls w |}.

Definition set_scheduled (v : list NotificationContent.t) (w : World)
    : World :=
  {| storedZoneState := storedZoneState w; storedLogs := storedLogs w;
     scheduled := v; console := console w;
     geofencingTask := geofencingTask w;
     locationSubscription := locationSubscription w;
     androidChannel := androidChannel w; dateCalls := dateCalls w |}.

Definition set_console (v : list (ConsoleLevel * string)) (w : World)
    : World :=
  {| storedZoneState := storedZoneState w; storedLogs := storedLogs w;
     scheduled := scheduled w; console := v;
     geofencingTask := geofencingTask w;
     locationSubscription := locationSubscription w;
     androidChannel := androidChannel w; dateCalls := dateCalls w |}.

Definition set_geofencingTask (v : option (list LocationRegion.t))
    (w : World) : World :=
  {| storedZoneState := storedZoneState w; storedLogs := storedLogs w;
     scheduled := scheduled w; console := console w;
     geofencingTask := v;
     locationSubscription := locationSubscription w;
     androidChannel := androidChannel w; dateCalls := dateCalls w |}.

Definition set_locationSubscription (v : bool) (w : World) : World :=
  {| storedZoneState := storedZoneState w; storedLogs := storedLogs w;
     scheduled := scheduled w; console := console w;
     geofencingTask := geofencingTask w;
     locationSubscription := v;
     androidChannel := androidChannel w; dateCalls := dateCalls w |}.

Definition set_androidChannel (v : bool) (w : World) : World :=
  {| storedZoneState := storedZoneState w; storedLogs := storedLogs w;
     scheduled := scheduled w; console := console w;
     geofencingTask := geofencingTask w;
     locationSubscription := locationSubscription w;
     androidChannel := v; dateCalls := dateCalls w |}.

Definition set_dateCalls (v : nat) (w : World) : World :=
  {| storedZoneState := storedZoneState w; storedLogs := storedLogs w;
     scheduled := scheduled w; console := console w;
     geofencingTask := geofencingTask w;
     locationSubscription := locationSubscription w;
     androidChannel := androidChannel w; dateCalls := v |}.

(** An [async] function returning [A]: a state transformer. *)
Definition Async (A : Type) : Type := World -> A * World.

#[global] Instance Async_ret : MRet Async := fun A x w => (x, w).

#[global] Instance Async_bind : MBind Async :=
  fun A B f m w => let (x, w') := m w in f x w'.

Definition modify (f : World -> World) : Async unit := fun w => (tt, f w).

Definition gets {A} (f : World -> A) : Async A := fun w => (f w, w).

(** The world an [async] function leaves. *)
Definition exec {A} (m : Async A) (w : World) : World := snd (m w).

(** The value it resolves to. *)
Definition eval {A} (m : Async A) (w : World) : A := fst (m w).

(** [for (const x of xs) { ... }], the local variables that the body
    assigns threaded as [s]. *)
Fixpoint for_of {A S} (xs : list A) (body : A -> S -> Async S) (s : S)
    : Async S :=
  match xs with
  | [] => mret s
  | x :: xs' => s' ← body x s; for_of xs' body s'
  end.

Definition console_warn (message : string) : Async unit :=
  modify (fun w => set_console (console w ++ [(Warn, message)]) w).

Definition console_error (message : string) : Async unit :=
  modify (fun w => set_console (console w ++ [(Error, message)]) w).

(** ** JavaScript arrays and strings *)

(** The three decorations of titles and diagnostics, as the source file
    spells them. *)
Definition WARNING_SIGN : string := "‚ö†Ô∏è".
Definition CHECK_MARK : string := "‚úÖ".
Definition CROSS_MARK : string := "‚ùå".

(** The string of one double quote (character 34). *)
Definition DOUBLE_QUOTE : string :=
  String (Ascii.ascii_of_nat 34) EmptyString.

(** [Array.prototype.includes] *)
Definition includes (xs : list string) (x : string) : bool :=
  bool_decide (x ∈ xs).

(** [Array.prototype.push] *)
Definition push {A} (xs : list A) (x : A) : list A := xs ++ [x].

(** [Array.prototype.unshift] *)
Definition unshift {A} (x : A) (xs : list A) : list A := x :: xs.

(** [Array.prototype.pop]: the array without its last element. *)
Definition pop {A} (xs : list A) : list A := removelast xs.

(** [Array.prototype.indexOf]: [None] stands for -1. *)
Fixpoint indexOf (xs : list string) (x : string) : option nat :=
  match xs with
  | [] => None
  | y :: xs' =>
      if bool_decide (y = x) then Some 0
      else match indexOf xs' x with Some i => Some (S i) | None => None end
  end.

(** [xs.splice(index, 1)]: the array without the element at [index]. *)
Definition splice1 {A} (index : nat) (xs : list A) : list A :=
  delete index xs.

(** [Array.prototype.sort] without a comparison function orders strings
    by their UTF-16 code units.  A text is here the string of the bytes of
    its UTF-8 encoding.  On those the order of the code units is the
    order of the bytes, but for one exchange: a character of U+E000 to
    U+FFFF (one code unit above the surrogates; its first byte is EE or
    EF) comes after a character above U+FFFF (a surrogate pair, D800 to
    DBFF first; its first byte is F0 to F4).  [codeUnitRank] ranks the
    bytes accordingly: EE and EF above F0 to FF, the others as they are.
    [codeUnitCompare_utf16] shows that the comparison so defined is the
    comparison of the code units. *)
Definition codeUnitRank (c : Ascii.ascii) : N :=
  let b := Ascii.N_of_ascii c in
  if (b <? 238)%N then b else if (b <? 240)%N then (b + 16)%N else (b - 2)%N.

Fixpoint codeUnitCompare (s t : string) : comparison :=
  match s, t with
  | EmptyString, EmptyString => Eq
  | EmptyString, String _ _ => Lt
  | String _ _, EmptyString => Gt
  | String x s', String y t' =>
      match N.compare (codeUnitRank x) (codeUnitRank y) with
      | Eq => codeUnitCompare s' t'
      | Lt => Lt
      | Gt => Gt
      end
  end.

Definition codeUnitLeb (s t : string) : bool :=
  match codeUnitCompare s t with Gt => false | _ => true end.

Fixpoint sort_insert (x : string) (xs : list string) : list string :=
  match xs with
  | [] => [x]
  | y :: xs' =>
      if codeUnitLeb x y then x :: y :: xs' else y :: sort_insert x xs'
  end.

Definition sort (xs : list string) : list string :=
  foldr sort_insert [] xs.

(** The two encodings of a character (a Unicode scalar value), from the
    Unicode standard, sections 3.9 and 3.10: they are not in the source,
    and serve to state what [codeUnitCompare] compares. *)
Definition scalar (c : N) : Prop :=
  (c < 0xD800 \/ 0xE000 <= c < 0x110000)%N.

Definition utf8 (c : N) : list N :=
  (if c <? 0x80 then [c]
   else if c <? 0x800 then [0xC0 + c / 64; 0x80 + c mod 64]
   else if c <? 0x10000 then
     [0xE0 + c / 4096; 0x80 + (c / 64) mod 64; 0x80 + c mod 64]
   else
     [0xF0 + c / 262144; 0x80 + (c / 4096) mod 64; 0x80 + (c / 64) mod 64;
      0x80 + c mod 64])%N.

Definition utf16 (c : N) : list N :=
  (if c <? 0x10000 then [c]
   else [0xD800 + (c - 0x10000) / 1024; 0xDC00 + (c - 0x10000) mod 1024])%N.

(** The text of a list of characters, as the strings of this file hold
    it: the bytes of the UTF-8 encoding. *)
Definition stringOfBytes (bytes : list N) : string :=
  foldr (fun b s => String (Ascii.ascii_of_N b) s) EmptyString bytes.

Definition textOf (characters : list N) : string :=
  stringOfBytes (characters ≫= utf8).

(** The code units of the JavaScript string of a list of characters. *)
Definition codeUnitsOf (characters : list N) : list N :=
  characters ≫= utf16.

(** The comparison of two sequences of code units: at the first
    difference, and a proper prefix first. *)
Fixpoint lexCompare (u v : list N) : comparison :=
  match u, v with
  | [], [] => Eq
  | [], _ :: _ => Lt
  | _ :: _, [] => Gt
  | a :: u', b :: v' =>
      match N.compare a b with
      | Eq => lexCompare u' v'
      | Lt => Lt
      | Gt => Gt
      end
  end.

(** ** The service *)

Module TaskError.
(** The [error] a background callback may carry. *)
Record t := { message : string }.
End TaskError.

Definition ANDROID_CHANNEL_ID : string := "geofence-alerts".

Module Closest.
(** The result of [getClosestGeofence]: [{ geofence, distance }]. *)
Record t := { geofence : DisasterGeofence.t; distance : float }.
End Closest.

(** The string of one line feed (character 10). *)
Definition LINE_FEED : string :=
  String (Ascii.ascii_of_nat 10) EmptyString.

(** The values of the three string unions, as a template literal prints
    them. *)
Definition EventKind_toString (kind : EventKind) : string :=
  match kind with ENTER => "ENTER" | EXIT => "EXIT" end.

Definition DisasterType_toString (type : DisasterType) : string :=
  match type with
  | FLOOD => "FLOOD"
  | FIRE => "FIRE"
  | EVACUATION => "EVACUATION"
  | STORM => "STORM"
  | EARTHQUAKE => "EARTHQUAKE"
  end.

Definition SeverityLevel_toString (severity : SeverityLevel) : string :=
  match severity with
  | INFO => "INFO"
  | WARNING => "WARNING"
  | HIGH => "HIGH"
  | CRITICAL => "CRITICAL"
  end.

(** [x ?? 'N/A'] for an optional field. *)
Definition orNA {A} (toString : A -> string) (x : option A) : string :=
  match x with Some v => toString v | None => "N/A" end.

Section Service.

(** The implementation-approximated part of [Math]. *)
Context (Math : MathObject).

(** The clock: [isoTime n] is the ISO text of the [n]-th [new Date()] of
    the run (counted from 0). *)
Context (isoTime : nat -> string).

(** [Platform.OS] *)
Context (Platform_OS : string).

(** The zone catalog.  The source reads the module constant
    [TEST_GEOFENCES]; the functions below take the catalog as a variable
    so that statements about every zone are not confined to the four test
    zones, and [TEST_GEOFENCES] is the value shipped. *)
Context (catalog : list DisasterGeofence.t).

(** [new Date()] *)
Definition Date_new : Async nat :=
  fun w => (dateCalls w, set_dateCalls (S (dateCalls w)) w).

(** [new Date().toISOString()] *)
Definition Date_toISOString : Async string :=
  n ← Date_new; mret (isoTime n).

(** [ensureAndroidChannel] *)
Definition ensureAndroidChannel : Async unit :=
  if bool_decide (Platform_OS ≠ "android") then mret tt
  else modify (set_androidChannel true).

(** [logEvent] *)
Definition logEvent (event : GeofenceEvent.t) : Async unit :=
  existingLogs ← gets storedLogs;
  let logs := match existingLogs with Some l => l | None => [] end in
  let logs := unshift event logs in
  let logs := if bool_decide (50 < length logs) then pop logs else logs in
  modify (set_storedLogs (Some logs)).

(** [sendAlertNotification] *)
Definition sendAlertNotification (args : AlertArgs.t) : Async unit :=
  ensureAndroidChannel;;
  modify (fun w =>
    set_scheduled
      (scheduled w ++
       [ {| NotificationContent.title := AlertArgs.title args;
            NotificationContent.body := AlertArgs.body args;
            NotificationContent.sound := AlertArgs.sound args;
            NotificationContent.priority := AlertArgs.priority args;
            NotificationContent.channelId :=
              if bool_decide (Platform_OS = "android")
              then Some ANDROID_CHANNEL_ID else None;
            NotificationContent.data := AlertArgs.data args |} ]) w).

(** [getZoneState] *)
Definition getZoneState : Async ZoneState.t :=
  state ← gets storedZoneState;
  match state with
  | Some state => mret state
  | None =>
      now ← Date_toISOString;
      mret {| ZoneState.insideZones := []; ZoneState.lastUpdated := now |}
  end.

(** [setZoneState] *)
Definition setZoneState (state : ZoneState.t) : Async unit :=
  modify (set_storedZoneState (Some state)).

(** [addToInsideZones] *)
Definition addToInsideZones (zoneId : string) : Async unit :=
  state ← getZoneState;
  if negb (includes (ZoneState.insideZones state) zoneId) then
    let insideZones := push (ZoneState.insideZones state) zoneId in
    now ← Date_toISOString;
    setZoneState
      {| ZoneState.insideZones := insideZones; ZoneState.lastUpdated := now |}
  else mret tt.

(** [removeFromInsideZones] *)
Definition removeFromInsideZones (zoneId : string) : Async unit :=
  state ← getZoneState;
  match indexOf (ZoneState.insideZones state) zoneId with
  | Some index =>
      let insideZones := splice1 index (ZoneState.insideZones state) in
      now ← Date_toISOString;
      setZoneState
        {| ZoneState.insideZones := insideZones;
           ZoneState.lastUpdated := now |}
  | None => mret tt
  end.

(** [isInsideZone] *)
Definition isInsideZone (zoneId : string) : Async bool :=
  state ← getZoneState;
  mret (includes (ZoneState.insideZones state) zoneId).

(** [clearZoneState] *)
Definition clearZoneState : Async unit :=
  modify (set_storedZoneState None).

(** [getCurrentZoneState] *)
Definition getCurrentZoneState : Async ZoneState.t := getZoneState.

(** [getLogs] *)
Definition getLogs : Async (list GeofenceEvent.t) :=
  logs ← gets storedLogs;
  mret (match logs with Some l => l | None => [] end).

(** [clearLogs] *)
Definition clearLogs : Async unit := modify (set_storedLogs None).

(** The task defined for [GEOFENCE_TASK]: the background transition
    callback, with its argument [{ data, error }]. *)
Definition GEOFENCE_TASK_handler
    (data : option GeofenceTaskData.t) (error : option TaskError.t)
    : Async unit :=
  Date_new;;
  match error with
  | Some error =>
      console_error "Geofence task error:";;
      now ← Date_toISOString;
      logEvent
        {| GeofenceEvent.type := ENTER;
           GeofenceEvent.timestamp := now;
           GeofenceEvent.region := None;
           GeofenceEvent.location := None;
           GeofenceEvent.disasterType := None;
           GeofenceEvent.severity := None;
           GeofenceEvent.zoneName := Some ("ERROR: " ++ TaskError.message error) |}
  | None =>
  let eventType := data ≫= GeofenceTaskData.eventType in
  let region := data ≫= GeofenceTaskData.region in
  match eventType, region with
  | Some eventType, Some region =>
  match LocationRegion.identifier region with
  | None | Some EmptyString =>
      console_warn (WARNING_SIGN ++ " Geofence region had no identifier")
  | Some identifier =>
  match getGeofenceDetails catalog identifier with
  | None => console_warn "Unknown geofence identifier:"
  | Some geofence =>
      timestamp ← Date_toISOString;
      let isEntering := bool_decide (eventType = GeofencingEventType.Enter) in
      Date_new;;
      let alertContent :=
        getDisasterAlertContent (DisasterGeofence.type geofence)
          (DisasterGeofence.severity geofence) isEntering in
      (if isEntering then addToInsideZones identifier
       else removeFromInsideZones identifier);;
      sendAlertNotification
        {| AlertArgs.title :=
             if isEntering
             then WARNING_SIGN ++ " " ++ AlertContent.title alertContent
             else CHECK_MARK ++ " " ++ AlertContent.title alertContent;
           AlertArgs.body :=
             if isEntering then AlertContent.body alertContent
             else "You have left " ++ DisasterGeofence.description geofence
                  ++ ". " ++ AlertContent.body alertContent;
           AlertArgs.sound := AlertContent.sound alertContent;
           AlertArgs.priority :=
             if isEntering then AlertContent.priority alertContent
             else AndroidNotificationPriority.DEFAULT;
           AlertArgs.data :=
             {| AlertData.type := DisasterGeofence.type geofence;
                AlertData.severity := DisasterGeofence.severity geofence;
                AlertData.action := AlertContent.actionText alertContent;
                AlertData.zoneName := DisasterGeofence.description geofence;
                AlertData.event := if isEntering then ENTER else EXIT;
                AlertData.geofenceId := DisasterGeofence.identifier geofence;
                AlertData.timestamp := timestamp;
                AlertData.source := "background_geofence" |} |};;
      logEvent
        {| GeofenceEvent.type := if isEntering then ENTER else EXIT;
           GeofenceEvent.timestamp := timestamp;
           GeofenceEvent.region := Some region;
           GeofenceEvent.location := None;
           GeofenceEvent.disasterType := Some (DisasterGeofence.type geofence);
           GeofenceEvent.severity := Some (DisasterGeofence.severity geofence);
           GeofenceEvent.zoneName :=
             Some (DisasterGeofence.description geofence) |}
  end
  end
  | _, _ => console_warn "Missing event type or region"
  end
  end.

(** The body of the loop of [checkInitialPosition] over the catalog;
    [currentlyInside] is the local array the loop pushes to. *)
Definition checkInitialPosition_body
    (location : Coords.t) (currentState : ZoneState.t)
    (geofence : DisasterGeofence.t) (currentlyInside : list string)
    : Async (list string) :=
  if isInside Math location geofence then
    let currentlyInside :=
      push currentlyInside (DisasterGeofence.identifier geofence) in
    if negb (includes (ZoneState.insideZones currentState)
               (DisasterGeofence.identifier geofence)) then
      let alertContent :=
        getDisasterAlertContent (DisasterGeofence.type geofence)
          (DisasterGeofence.severity geofence) true in
      now ← Date_toISOString;
      sendAlertNotification
        {| AlertArgs.title :=
             WARNING_SIGN ++ " " ++ AlertContent.title alertContent;
           AlertArgs.body := AlertContent.body alertContent;
           AlertArgs.sound := AlertContent.sound alertContent;
           AlertArgs.priority := AlertContent.priority alertContent;
           AlertArgs.data :=
             {| AlertData.type := DisasterGeofence.type geofence;
                AlertData.severity := DisasterGeofence.severity geofence;
                AlertData.action := AlertContent.actionText alertContent;
                AlertData.zoneName := DisasterGeofence.description geofence;
                AlertData.event := ENTER;
                AlertData.geofenceId := DisasterGeofence.identifier geofence;
                AlertData.timestamp := now;
                AlertData.source := "initial_check" |} |};;
      now ← Date_toISOString;
      logEvent
        {| GeofenceEvent.type := ENTER;
           GeofenceEvent.timestamp := now;
           GeofenceEvent.region := None;
           GeofenceEvent.location := Some location;
           GeofenceEvent.disasterType := Some (DisasterGeofence.type geofence);
           GeofenceEvent.severity := Some (DisasterGeofence.severity geofence);
           GeofenceEvent.zoneName :=
             Some (DisasterGeofence.description geofence) |};;
      mret currentlyInside
    else mret currentlyInside
  else
    if includes (ZoneState.insideZones currentState)
         (DisasterGeofence.identifier geofence) then
      let alertContent :=
        getDisasterAlertContent (DisasterGeofence.type geofence)
          (DisasterGeofence.severity geofence) false in
      now ← Date_toISOString;
      sendAlertNotification
        {| AlertArgs.title :=
             CHECK_MARK ++ " " ++ AlertContent.title alertContent;
           AlertArgs.body :=
             "You have left " ++ DisasterGeofence.description geofence
             ++ ". " ++ AlertContent.body alertContent;
           AlertArgs.sound := AlertContent.sound alertContent;
           AlertArgs.priority := AlertContent.priority alertContent;
           AlertArgs.data :=
             {| AlertData.type := DisasterGeofence.type geofence;
                AlertData.severity := DisasterGeofence.severity geofence;
                AlertData.action := AlertContent.actionText alertContent;
                AlertData.zoneName := DisasterGeofence.description geofence;
                AlertData.event := EXIT;
                AlertData.geofenceId := DisasterGeofence.identifier geofence;
                AlertData.timestamp := now;
                AlertData.source := "initial_check" |} |};;
      now ← Date_toISOString;
      logEvent
        {| GeofenceEvent.type := EXIT;
           GeofenceEvent.timestamp := now;
           GeofenceEvent.region := None;
           GeofenceEvent.location := Some location;
           GeofenceEvent.disasterType := Some (DisasterGeofence.type geofence);
           GeofenceEvent.severity := Some (DisasterGeofence.severity geofence);
           GeofenceEvent.zoneName :=
             Some (DisasterGeofence.description geofence) |};;
      mret currentlyInside
    else mret currentlyInside.

(** [checkInitialPosition]; [position] is what
    [Location.getCurrentPositionAsync] answers, and a rejection lands in
    the [catch] of the function. *)
Definition checkInitialPosition (position : PositionResult) : Async unit :=
  match position with
  | PositionError _ =>
      console_error (CROSS_MARK ++ " Error checking initial position:")
  | PositionOk location =>
      currentState ← getZoneState;
      currentlyInside ←
        for_of catalog (checkInitialPosition_body location currentState) [];
      now ← Date_toISOString;
      setZoneState
        {| ZoneState.insideZones := currentlyInside;
           ZoneState.lastUpdated := now |}
  end.

(** The body of the loop of [handleLocationUpdate] over the catalog. *)
Definition handleLocationUpdate_body
    (location : Coords.t) (currentState : ZoneState.t)
    (geofence : DisasterGeofence.t) (newInsideZones : list string)
    : Async (list string) :=
  if isInside Math location geofence then
    let newInsideZones :=
      push newInsideZones (DisasterGeofence.identifier geofence) in
    if negb (includes (ZoneState.insideZones currentState)
               (DisasterGeofence.identifier geofence)) then
      let alertContent :=
        getDisasterAlertContent (DisasterGeofence.type geofence)
          (DisasterGeofence.severity geofence) true in
      now ← Date_toISOString;
      sendAlertNotification
        {| AlertArgs.title :=
             WARNING_SIGN ++ " " ++ AlertContent.title alertContent;
           AlertArgs.body := AlertContent.body alertContent;
           AlertArgs.sound := AlertContent.sound alertContent;
           AlertArgs.priority := AlertContent.priority alertContent;
           AlertArgs.data :=
             {| AlertData.type := DisasterGeofence.type geofence;
                AlertData.severity := DisasterGeofence.severity geofence;
                AlertData.action := AlertContent.actionText alertContent;
                AlertData.zoneName := DisasterGeofence.description geofence;
                AlertData.event := ENTER;
                AlertData.geofenceId := DisasterGeofence.identifier geofence;
                AlertData.timestamp := now;
                AlertData.source := "foreground_watch" |} |};;
      now ← Date_toISOString;
      logEvent
        {| GeofenceEvent.type := ENTER;
           GeofenceEvent.timestamp := now;
           GeofenceEvent.region := None;
           GeofenceEvent.location := Some location;
           GeofenceEvent.disasterType := Some (DisasterGeofence.type geofence);
           GeofenceEvent.severity := Some (DisasterGeofence.severity geofence);
           GeofenceEvent.zoneName :=
             Some (DisasterGeofence.description geofence) |};;
      mret newInsideZones
    else mret newInsideZones
  else
    if includes (ZoneState.insideZones currentState)
         (DisasterGeofence.identifier geofence) then
      let alertContent :=
        getDisasterAlertContent (DisasterGeofence.type geofence)
          (DisasterGeofence.severity geofence) false in
      now ← Date_toISOString;
      sendAlertNotification
        {| AlertArgs.title :=
             CHECK_MARK ++ " " ++ AlertContent.title alertContent;
           AlertArgs.body :=
             "You have left " ++ DisasterGeofence.description geofence
             ++ ". " ++ AlertContent.body alertContent;
           AlertArgs.sound := AlertContent.sound alertContent;
           AlertArgs.priority := AlertContent.priority alertContent;
           AlertArgs.data :=
             {| AlertData.type := DisasterGeofence.type geofence;
                AlertData.severity := DisasterGeofence.severity geofence;
                AlertData.action := AlertContent.actionText alertContent;
                AlertData.zoneName := DisasterGeofence.description geofence;
                AlertData.event := EXIT;
                AlertData.geofenceId := DisasterGeofence.identifier geofence;
                AlertData.timestamp := now;
                AlertData.source := "foreground_watch" |} |};;
      now ← Date_toISOString;
      logEvent
        {| GeofenceEvent.type := EXIT;
           GeofenceEvent.timestamp := now;
           GeofenceEvent.region := None;
           GeofenceEvent.location := Some location;
           GeofenceEvent.disasterType := Some (DisasterGeofence.type geofence);
           GeofenceEvent.severity := Some (DisasterGeofence.severity geofence);
           GeofenceEvent.zoneName :=
             Some (DisasterGeofence.description geofence) |};;
      mret newInsideZones
    else mret newInsideZones.

(** [handleLocationUpdate].  [sort] sorts the array in place and returns
    it: the array written is the sorted one, and the sorted copy of the
    state that was read is local, not persisted. *)
Definition handleLocationUpdate (location : Coords.t) : Async unit :=
  currentState ← getZoneState;
  newInsideZones ←
    for_of catalog (handleLocationUpdate_body location currentState) [];
  let newInsideZones := sort newInsideZones in
  let currentState_insideZones := sort (ZoneState.insideZones currentState) in
  if bool_decide (newInsideZones ≠ currentState_insideZones) then
    now ← Date_toISOString;
    setZoneState
      {| ZoneState.insideZones := newInsideZones;
         ZoneState.lastUpdated := now |}
  else mret tt.

(** [startLocationWatching]: the subscription calls
    [handleLocationUpdate] for every point the platform delivers later. *)
Definition startLocationWatching : Async unit :=
  subscription ← gets locationSubscription;
  (if subscription : bool then modify (set_locationSubscription false)
   else mret tt);;
  modify (set_locationSubscription true).

(** [stopLocationWatching] *)
Definition stopLocationWatching : Async unit :=
  subscription ← gets locationSubscription;
  if subscription : bool then modify (set_locationSubscription false)
  else mret tt.

(** [TaskManager.isTaskRegisteredAsync(GEOFENCE_TASK)] *)
Definition isTaskRegisteredAsync : Async bool :=
  task ← gets geofencingTask;
  mret (bool_decide (is_Some task)).

(** [Location.stopGeofencingAsync(GEOFENCE_TASK)] *)
Definition stopGeofencingAsync : Async unit :=
  modify (set_geofencingTask None).

(** [Location.startGeofencingAsync(GEOFENCE_TASK, regions)] *)
Definition startGeofencingAsync (regions : list LocationRegion.t)
    : Async unit :=
  modify (set_geofencingTask (Some regions)).

(** The regions [startGeofencing] prepares from the catalog. *)
Definition regions_of_catalog : list LocationRegion.t :=
  map (fun g =>
    {| LocationRegion.identifier := Some (DisasterGeofence.identifier g);
       LocationRegion.latitude := DisasterGeofence.latitude g;
       LocationRegion.longitude := DisasterGeofence.longitude g;
       LocationRegion.radius := DisasterGeofence.radius g;
       LocationRegion.notifyOnEnter := Some (DisasterGeofence.notifyOnEnter g);
       LocationRegion.notifyOnExit := Some (DisasterGeofence.notifyOnExit g) |})
    catalog.

(** [startGeofencing].  [fg], [bg] and [notif] are the statuses the three
    permission requests resolve to, [debugPosition] and [initialPosition]
    the answers to the current-point queries of step 9 and of the initial
    check.  The result is [Some message] when the function rejects with
    [Error(message)], after its [catch] has logged the error. *)
Definition startGeofencing
    (fg bg notif : PermissionStatus)
    (debugPosition initialPosition : PositionResult)
    : Async (option string) :=
  if bool_decide (fg ≠ granted) then
    console_error "ERROR STARTING GEOFENCING:";;
    mret (Some "Foreground location permission denied")
  else if bool_decide (bg ≠ granted) then
    console_error "ERROR STARTING GEOFENCING:";;
    mret (Some ("Background location permission denied. Enable "
                ++ DOUBLE_QUOTE ++ "Always Allow" ++ DOUBLE_QUOTE
                ++ " in device settings."))
  else if bool_decide (notif ≠ granted) then
    console_error "ERROR STARTING GEOFENCING:";;
    mret (Some "Notification permission denied")
  else
    ensureAndroidChannel;;
    alreadyRunning ← isTaskRegisteredAsync;
    (if alreadyRunning : bool then stopGeofencingAsync else mret tt);;
    let regions := regions_of_catalog in
    startGeofencingAsync regions;;
    isTaskRegisteredAsync;;
    match debugPosition with
    | PositionOk _ => (mret tt : Async unit)
    | PositionError _ =>
        console_warn (WARNING_SIGN ++ " Could not get current location:")
    end;;
    checkInitialPosition initialPosition;;
    startLocationWatching;;
    mret None.

(** [stopGeofencing] *)
Definition stopGeofencing : Async unit :=
  stopLocationWatching;;
  registered ← isTaskRegisteredAsync;
  if negb registered then mret tt
  else
    stopGeofencingAsync;;
    clearZoneState.


(** [getClosestGeofence]: the loop keeps the first zone, and replaces the
    zone kept when the distance of the next one is strictly below. *)
Definition getClosestGeofence (latitude longitude : float)
    : option Closest.t :=
  foldl (fun (closest : option Closest.t) geofence =>
    let distance :=
      calculateDistance Math latitude longitude
        (DisasterGeofence.latitude geofence)
        (DisasterGeofence.longitude geofence) in
    match closest with
    | None =>
        Some {| Closest.geofence := geofence; Closest.distance := distance |}
    | Some c =>
        if (distance <? Closest.distance c)%float
        then Some {| Closest.geofence := geofence;
                     Closest.distance := distance |}
        else closest
    end) None catalog.

(** The distance [getClosestGeofence] computes for a zone. *)
Definition distanceTo (latitude longitude : float) (g : DisasterGeofence.t)
    : float :=
  calculateDistance Math latitude longitude
    (DisasterGeofence.latitude g) (DisasterGeofence.longitude g).

(** One turn of the loop of [getClosestGeofence]. *)
Definition closestStep (latitude longitude : float)
    (closest : option Closest.t) (geofence : DisasterGeofence.t)
    : option Closest.t :=
  let distance := distanceTo latitude longitude geofence in
  match closest with
  | None =>
      Some {| Closest.geofence := geofence; Closest.distance := distance |}
  | Some c =>
      if (distance <? Closest.distance c)%float
      then Some {| Closest.geofence := geofence;
                   Closest.distance := distance |}
      else closest
  end.

(** [new Date(timestamp).toLocaleDateString()] and [.toLocaleTimeString()]
    as functions of the timestamp text: they depend on the locale of the
    device. *)
Context (toLocaleDateString toLocaleTimeString : string -> string).

Definition CSV_HEADER : string :=
  "Type,Timestamp,Date,Time,Disaster Type,Severity,Zone Name" ++ LINE_FEED.

(** The line [exportLogsAsCSV] appends for one entry of the log. *)
Definition csvRow (log : GeofenceEvent.t) : string :=
  EventKind_toString (GeofenceEvent.type log) ++ ","
  ++ GeofenceEvent.timestamp log ++ ","
  ++ toLocaleDateString (GeofenceEvent.timestamp log) ++ ","
  ++ toLocaleTimeString (GeofenceEvent.timestamp log) ++ ","
  ++ orNA DisasterType_toString (GeofenceEvent.disasterType log) ++ ","
  ++ orNA SeverityLevel_toString (GeofenceEvent.severity log) ++ ","
  ++ orNA id (GeofenceEvent.zoneName log) ++ LINE_FEED.

(** [exportLogsAsCSV] *)
Definition exportLogsAsCSV : Async string :=
  logs ← getLogs;
  for_of logs (fun log csv => mret (csv ++ csvRow log)) CSV_HEADER.

(** ** Observations and the reconciliation seen as a diff

    The definitions below are not in the source: they name what the
    statements talk about. *)

(** The occupancy set on record: the [insideZones] that [getZoneState]
    would read. *)
Definition occupancy (w : World) : list string :=
  match storedZoneState w with
  | Some state => ZoneState.insideZones state
  | None => []
  end.

(** The event log on record, most recent entry first: what [getLogs]
    would read. *)
Definition logs_of (w : World) : list GeofenceEvent.t :=
  match storedLogs w with Some l => l | None => [] end.

(** The number of occurrences of a character in a text. *)
Fixpoint occurrences (c : Ascii.ascii) (s : string) : nat :=
  match s with
  | EmptyString => 0
  | String x s' =>
      if Ascii.eqb c x then S (occurrences c s') else occurrences c s'
  end.

(** The two separators of the exported text: the comma (character 44)
    and the line feed (character 10). *)
Definition COMMA : Ascii.ascii := Eval cbv in Ascii.ascii_of_nat 44.
Definition LF : Ascii.ascii := Eval cbv in Ascii.ascii_of_nat 10.

(** A text without separator. *)
Definition plainText (s : string) : bool :=
  bool_decide (occurrences COMMA s = 0 /\ occurrences LF s = 0).

(** An entry of the log whose texts, as [exportLogsAsCSV] prints them,
    hold no separator. *)
Definition plainEntry (log : GeofenceEvent.t) : bool :=
  plainText (GeofenceEvent.timestamp log)
  && plainText (toLocaleDateString (GeofenceEvent.timestamp log))
  && plainText (toLocaleTimeString (GeofenceEvent.timestamp log))
  && plainText (orNA id (GeofenceEvent.zoneName log)).

(** What one call of [logEvent] makes of the log. *)
Definition log_push (event : GeofenceEvent.t) (logs : list GeofenceEvent.t)
    : list GeofenceEvent.t :=
  let logs := unshift event logs in
  if bool_decide (50 < length logs) then pop logs else logs.

(** A run of [logEvent] calls, in the order of [events]. *)
Definition logEvents (events : list GeofenceEvent.t) : Async unit :=
  for_of events (fun event _ => logEvent event) tt.

(** The identifiers of the zones of the catalog that contain the point,
    in catalog order: the array a point-based pass builds. *)
Definition currentlyInside (location : Coords.t) : list string :=
  map DisasterGeofence.identifier
    (filter (fun g => isInside Math location g = true) catalog).

(** The transition of one zone against the occupancy that was read. *)
Definition transition (previouslyInside : list string) (location : Coords.t)
    (geofence : DisasterGeofence.t) : option EventKind :=
  if isInside Math location geofence then
    if negb (includes previouslyInside (DisasterGeofence.identifier geofence))
    then Some ENTER else None
  else
    if includes previouslyInside (DisasterGeofence.identifier geofence)
    then Some EXIT else None.

(** The transitions of a pass, in catalog order. *)
Definition transitions (previouslyInside : list string)
    (location : Coords.t) : list (EventKind * DisasterGeofence.t) :=
  omap (fun g => (fun k => (k, g)) <$> transition previouslyInside location g)
    catalog.

(** The alert of a point-based pass for one transition. *)
Definition pointAlert (source : string) (kind : EventKind)
    (geofence : DisasterGeofence.t) (now : string) : AlertArgs.t :=
  let alertContent :=
    getDisasterAlertContent (DisasterGeofence.type geofence)
      (DisasterGeofence.severity geofence)
      (bool_decide (kind = ENTER)) in
  {| AlertArgs.title :=
       match kind with
       | ENTER => WARNING_SIGN ++ " " ++ AlertContent.title alertContent
       | EXIT => CHECK_MARK ++ " " ++ AlertContent.title alertContent
       end;
     AlertArgs.body :=
       match kind with
       | ENTER => AlertContent.body alertContent
       | EXIT => "You have left " ++ DisasterGeofence.description geofence
                 ++ ". " ++ AlertContent.body alertContent
       end;
     AlertArgs.sound := AlertContent.sound alertContent;
     AlertArgs.priority := AlertContent.priority alertContent;
     AlertArgs.data :=
       {| AlertData.type := DisasterGeofence.type geofence;
          AlertData.severity := DisasterGeofence.severity geofence;
          AlertData.action := AlertContent.actionText alertContent;
          AlertData.zoneName := DisasterGeofence.description geofence;
          AlertData.event := kind;
          AlertData.geofenceId := DisasterGeofence.identifier geofence;
          AlertData.timestamp := now;
          AlertData.source := source |} |}.

(** The log entry of a point-based pass for one transition. *)
Definition pointEvent (location : Coords.t) (kind : EventKind)
    (geofence : DisasterGeofence.t) (now : string) : GeofenceEvent.t :=
  {| GeofenceEvent.type := kind;
     GeofenceEvent.timestamp := now;
     GeofenceEvent.region := None;
     GeofenceEvent.location := Some location;
     GeofenceEvent.disasterType := Some (DisasterGeofence.type geofence);
     GeofenceEvent.severity := Some (DisasterGeofence.severity geofence);
     GeofenceEvent.zoneName := Some (DisasterGeofence.description geofence) |}.

(** The alert of the background callback for a zone and a direction. *)
Definition signalAlert (isEntering : bool) (geofence : DisasterGeofence.t)
    (timestamp : string) : AlertArgs.t :=
  let alertContent :=
    getDisasterAlertContent (DisasterGeofence.type geofence)
      (DisasterGeofence.severity geofence) isEntering in
  {| AlertArgs.title :=
       if isEntering
       then WARNING_SIGN ++ " " ++ AlertContent.title alertContent
       else CHECK_MARK ++ " " ++ AlertContent.title alertContent;
     AlertArgs.body :=
       if isEntering then AlertContent.body alertContent
       else "You have left " ++ DisasterGeofence.description geofence
            ++ ". " ++ AlertContent.body alertContent;
     AlertArgs.sound := AlertContent.sound alertContent;
     AlertArgs.priority :=
       if isEntering then AlertContent.priority alertContent
       else AndroidNotificationPriority.DEFAULT;
     AlertArgs.data :=
       {| AlertData.type := DisasterGeofence.type geofence;
          AlertData.severity := DisasterGeofence.severity geofence;
          AlertData.action := AlertContent.actionText alertContent;
          AlertData.zoneName := DisasterGeofence.description geofence;
          AlertData.event := if isEntering then ENTER else EXIT;
          AlertData.geofenceId := DisasterGeofence.identifier geofence;
          AlertData.timestamp := timestamp;
          AlertData.source := "background_geofence" |} |}.

(** The log entry of the background callback. *)
Definition signalEvent (isEntering : bool) (region : LocationRegion.t)
    (geofence : DisasterGeofence.t) (timestamp : string) : GeofenceEvent.t :=
  {| GeofenceEvent.type := if isEntering then ENTER else EXIT;
     GeofenceEvent.timestamp := timestamp;
     GeofenceEvent.region := Some region;
     GeofenceEvent.location := None;
     GeofenceEvent.disasterType := Some (DisasterGeofence.type geofence);
     GeofenceEvent.severity := Some (DisasterGeofence.severity geofence);
     GeofenceEvent.zoneName := Some (DisasterGeofence.description geofence) |}.

(** What [sendAlertNotification] hands to the notification collaborator. *)
Definition contentOf (args : AlertArgs.t) : NotificationContent.t :=
  {| NotificationContent.title := AlertArgs.title args;
     NotificationContent.body := AlertArgs.body args;
     NotificationContent.sound := AlertArgs.sound args;
     NotificationContent.priority := AlertArgs.priority args;
     NotificationContent.channelId :=
       if bool_decide (Platform_OS = "android")
       then Some ANDROID_CHANNEL_ID else None;
     NotificationContent.data := AlertArgs.data args |}.

(** An alert handed to the notification collaborator is the alert of a
    zone: its data name the zone and carry its category, severity and
    description; its action text, priority and sound are those the
    composer gives for the zone and the direction of the alert; its
    channel is the one of the platform; its source is one of the three
    call sites. *)
Definition alertFor (geofence : DisasterGeofence.t)
    (n : NotificationContent.t) : Prop :=
  let data := NotificationContent.data n in
  let composed :=
    getDisasterAlertContent (DisasterGeofence.type geofence)
      (DisasterGeofence.severity geofence)
      (bool_decide (AlertData.event data = ENTER)) in
  AlertData.geofenceId data = DisasterGeofence.identifier geofence
  /\ AlertData.type data = DisasterGeofence.type geofence
  /\ AlertData.severity data = DisasterGeofence.severity geofence
  /\ AlertData.zoneName data = DisasterGeofence.description geofence
  /\ AlertData.action data = AlertContent.actionText composed
  /\ NotificationContent.priority n = AlertContent.priority composed
  /\ NotificationContent.sound n = true
  /\ NotificationContent.channelId n
     = (if bool_decide (Platform_OS = "android")
        then Some ANDROID_CHANNEL_ID else None)
  /\ AlertData.source data
     ∈ ["initial_check"; "foreground_watch"; "background_geofence"].

(** The alert and the log entry of one transition, as the two loops make
    them: the clock is read for the alert, and again for the log entry. *)
Definition emit (source : string) (location : Coords.t)
    (t : EventKind * DisasterGeofence.t) : Async unit :=
  now ← Date_toISOString;
  sendAlertNotification (pointAlert source t.1 t.2 now);;
  now ← Date_toISOString;
  logEvent (pointEvent location t.1 t.2 now).

(** What a loop body over the catalog does for one zone: the alert and
    the log entry of the transition of the zone, if it makes one, and the
    identifier pushed if the zone contains the point. *)
Definition reconcile_zone (source : string) (location : Coords.t)
    (previouslyInside : list string) (geofence : DisasterGeofence.t)
    (acc : list string) : Async (list string) :=
  match transition previouslyInside location geofence with
  | Some kind => emit source location (kind, geofence)
  | None => mret tt
  end;;
  mret (if isInside Math location geofence
        then push acc (DisasterGeofence.identifier geofence) else acc).

(** The alerts and log entries of a list of transitions, in its order. *)
Definition emitAll (source : string) (location : Coords.t)
    (ts : list (EventKind * DisasterGeofence.t)) : Async unit :=
  for_of ts (fun t _ => emit source location t) tt.

(** The count of clock readings once [getZoneState] has answered: it
    reads the clock for the state it makes up when none is stored. *)
Definition clockAfterRead (w : World) : nat :=
  match storedZoneState w with
  | Some _ => dateCalls w
  | None => S (dateCalls w)
  end.

(** The direction and the zone identifier an alert carries. *)
Definition alertKey (n : NotificationContent.t) : EventKind * string :=
  (AlertData.event (NotificationContent.data n),
   AlertData.geofenceId (NotificationContent.data n)).

(** The identifiers of the alerts of one direction, in dispatch order. *)
Definition alertedZones (kind : EventKind)
    (ns : list NotificationContent.t) : list string :=
  map (fun n => AlertData.geofenceId (NotificationContent.data n))
    (filter (fun n => AlertData.event (NotificationContent.data n) = kind) ns).

(** The alerts and the log entries a pass makes for its transitions: the
    [i]-th transition reads the clock twice. *)
Definition passAlerts (source : string) (clock : nat)
    (ts : list (EventKind * DisasterGeofence.t))
    : list NotificationContent.t :=
  imap (fun i t =>
    contentOf (pointAlert source t.1 t.2 (isoTime (clock + 2 * i)))) ts.

Definition passEvents (location : Coords.t) (clock : nat)
    (ts : list (EventKind * DisasterGeofence.t)) : list GeofenceEvent.t :=
  imap (fun i t =>
    pointEvent location t.1 t.2 (isoTime (clock + 2 * i + 1))) ts.

(** A log entry records the transition of an alert: the same direction,
    the category, severity and description of the same zone, and the
    observed point. *)
Definition logsTransitionOf (location : Coords.t)
    (n : NotificationContent.t) (e : GeofenceEvent.t) : Prop :=
  GeofenceEvent.type e = AlertData.event (NotificationContent.data n)
  /\ GeofenceEvent.disasterType e
     = Some (AlertData.type (NotificationContent.data n))
  /\ GeofenceEvent.severity e
     = Some (AlertData.severity (NotificationContent.data n))
  /\ GeofenceEvent.zoneName e
     = Some (AlertData.zoneName (NotificationContent.data n))
  /\ GeofenceEvent.location e = Some location.

(** The two call sites of the point-based reconciliation. *)
Inductive CallSite := InitialCheck | ForegroundWatch.

Definition sourceOf (site : CallSite) : string :=
  match site with
  | InitialCheck => "initial_check"
  | ForegroundWatch => "foreground_watch"
  end.

(** A point-based pass on an observed point, at either call site. *)
Definition pointPass (site : CallSite) (location : Coords.t) : Async unit :=
  match site with
  | InitialCheck => checkInitialPosition (PositionOk location)
  | ForegroundWatch => handleLocationUpdate location
  end.

(** Two zones that differ at most in their notify-on-enter and
    notify-on-exit flags. *)
Definition sameButFlags (g g' : DisasterGeofence.t) : Prop :=
  DisasterGeofence.identifier g = DisasterGeofence.identifier g'
  /\ DisasterGeofence.type g = DisasterGeofence.type g'
  /\ DisasterGeofence.severity g = DisasterGeofence.severity g'
  /\ DisasterGeofence.latitude g = DisasterGeofence.latitude g'
  /\ DisasterGeofence.longitude g = DisasterGeofence.longitude g'
  /\ DisasterGeofence.radius g = DisasterGeofence.radius g'
  /\ DisasterGeofence.description g = DisasterGeofence.description g'.

(** What can happen to the service: a call of its interface by the
    presentation layer, a background callback, or a point delivered to
    the foreground subscription. *)
Inductive Call :=
  | CallStart (fg bg notif : PermissionStatus)
      (debugPosition initialPosition : PositionResult)
  | CallStop
  | CallInitialCheck (position : PositionResult)
  | CallBackground (data : option GeofenceTaskData.t)
      (error : option TaskError.t)
  | CallLocation (location : Coords.t)
  | CallClearLogs.

Definition run (c : Call) : Async unit :=
  match c with
  | CallStart fg bg notif debugPosition initialPosition =>
      startGeofencing fg bg notif debugPosition initialPosition;; mret tt
  | CallStop => stopGeofencing
  | CallInitialCheck position => checkInitialPosition position
  | CallBackground data error => GEOFENCE_TASK_handler data error
  | CallLocation location => handleLocationUpdate location
  | CallClearLogs => clearLogs
  end.

(** The world after a history of calls, from the first installation. *)
Definition runAll (calls : list Call) : World :=
  foldl (fun w c => exec (run c) w) initialWorld calls.

(** What holds of the stored data in every world the service reaches: the
    occupancy names zones of the catalog, each once, and the event log is
    within its bound. *)
Definition serviceInvariant (w : World) : Prop :=
  NoDup (occupancy w)
  /\ (forall x, x ∈ occupancy w -> x ∈ DisasterGeofence.identifier <$> catalog)
  /\ length (logs_of w) <= 50.

(** The zone identifier a background callback names, when there is one. *)
Definition signalIdentifier (data : option GeofenceTaskData.t)
    : option string :=
  (data ≫= GeofenceTaskData.region) ≫= LocationRegion.identifier.

(** Whether the data of a background callback lack an event type, a
    region or an identifier. *)
Definition incomplete (data : option GeofenceTaskData.t) : bool :=
  match data ≫= GeofenceTaskData.eventType, signalIdentifier data with
  | Some _, Some identifier => bool_decide (identifier = "")
  | _, _ => true
  end.

End Service.

(** ** A sample [Math] object

    One admissible [Math] for running the service on concrete points:
    Maclaurin polynomials for sine and cosine (accurate on the range of a
    latitude in radians, no argument reduction), the arctangent by two
    half-angle steps and its series, the correctly rounded square root, and
    [x ** y] for the one exponent the service uses.  The theorems below
    hold for every [Math]; this one only feeds the examples. *)
Module SampleMath.
Local Open Scope float_scope.

Definition PI : float := 3.141592653589793.

(** [x - x^3/3! + x^5/5! - ... + x^17/17!] *)
Definition sin (x : float) : float :=
  let x2 := x * x in
  x * (1 - x2 / 6 * (1 - x2 / 20 * (1 - x2 / 42 * (1 - x2 / 72 *
      (1 - x2 / 110 * (1 - x2 / 156 * (1 - x2 / 210 * (1 - x2 / 272)))))))).

(** [1 - x^2/2! + x^4/4! - ... + x^16/16!] *)
Definition cos (x : float) : float :=
  let x2 := x * x in
  1 - x2 / 2 * (1 - x2 / 12 * (1 - x2 / 30 * (1 - x2 / 56 *
      (1 - x2 / 90 * (1 - x2 / 132 * (1 - x2 / 182 * (1 - x2 / 240))))))).

(** [t - t^3/3 + t^5/5 - ... + t^25/25], for a small [t]. *)
Definition atan_series (t : float) : float :=
  let t2 := t * t in
  t * (1 - t2 * (1/3 - t2 * (1/5 - t2 * (1/7 - t2 * (1/9 - t2 * (1/11 -
      t2 * (1/13 - t2 * (1/15 - t2 * (1/17 - t2 * (1/19 - t2 * (1/21 -
      t2 * (1/23 - t2 * (1/25))))))))))))).

(** [atan t = 2 atan (t / (1 + sqrt (1 + t^2)))] *)
Definition half_angle (t : float) : float := t / (1 + sqrt (1 + t * t)).

(** The arctangent of [t] for [|t| <= 1]. *)
Definition atan_unit (t : float) : float :=
  4 * atan_series (half_angle (half_angle t)).

Definition atan (t : float) : float :=
  if abs t <=? 1 then atan_unit t
  else if 0 <? t then PI / 2 - atan_unit (1 / t)
  else - (PI / 2) - atan_unit (1 / t).

Definition atan2 (y x : float) : float :=
  if 0 <? x then atan (y / x)
  else if x <? 0 then
    if y <? 0 then atan (y / x) - PI else atan (y / x) + PI
  else if 0 <? y then PI / 2
  else if y <? 0 then - (PI / 2)
  else x + y.

Definition exponentiate (x y : float) : float :=
  if y =? 2 then x * x else nan.

Definition Math : MathObject :=
  {| Math_PI := PI; Math_sin := sin; Math_cos := cos; Math_sqrt := sqrt;
     Math_atan2 := atan2; Number_exponentiate := exponentiate |}.

End SampleMath.

(** ** Sample runs

    Points around Derby, a clock and an Android device, on which the
    service is run with the catalog shipped and the sample [Math]. *)
Module Scenario.
Local Open Scope float_scope.

(** The centre of the flood zone: inside that zone only. *)
Definition centre : Coords.t :=
  {| Coords.latitude := 52.9225; Coords.longitude := -1.4746 |}.

(** About 500 m south of the centre of the flood zone, whose radius is
    1000 m: inside that zone only. *)
Definition south500 : Coords.t :=
  {| Coords.latitude := 52.918; Coords.longitude := -1.4746 |}.

(** Inside the flood zone and the evacuation zone. *)
Definition northWest : Coords.t :=
  {| Coords.latitude := 52.927; Coords.longitude := -1.478 |}.

(** Inside the flood zone and the fire zone. *)
Definition southWest : Coords.t :=
  {| Coords.latitude := 52.921; Coords.longitude := -1.483 |}.

(** Far from every zone. *)
Definition london : Coords.t :=
  {| Coords.latitude := 51.5074; Coords.longitude := -0.1278 |}.

Local Close Scope float_scope.

Definition clock (n : nat) : string := "T" ++ pretty n.

Definition OS : string := "android".

(** The world after an initial check made at [northWest] on a fresh
    installation: the occupancy holds the flood and evacuation zones, and
    the background watch is not registered. *)
Definition afterCheckNorthWest : World :=
  exec (checkInitialPosition SampleMath.Math clock OS TEST_GEOFENCES
          (PositionOk northWest)) initialWorld.

(** The catalog shipped, with every notify flag off. *)
Definition quietCatalog : list DisasterGeofence.t :=
  map (fun g =>
    {| DisasterGeofence.identifier := DisasterGeofence.identifier g;
       DisasterGeofence.type := DisasterGeofence.type g;
       DisasterGeofence.severity := DisasterGeofence.severity g;
       DisasterGeofence.latitude := DisasterGeofence.latitude g;
       DisasterGeofence.longitude := DisasterGeofence.longitude g;
       DisasterGeofence.radius := DisasterGeofence.radius g;
       DisasterGeofence.notifyOnEnter := false;
       DisasterGeofence.notifyOnExit := false;
       DisasterGeofence.description := DisasterGeofence.description g |})
    TEST_GEOFENCES.

(** 51 events, told apart by their timestamps. *)
Definition events51 : list GeofenceEvent.t :=
  map (fun n =>
    {| GeofenceEvent.type := ENTER;
       GeofenceEvent.timestamp := clock n;
       GeofenceEvent.region := None;
       GeofenceEvent.location := None;
       GeofenceEvent.disasterType := None;
       GeofenceEvent.severity := None;
       GeofenceEvent.zoneName := None |}) (seq 0 51).

(** A callback that tells the entry into the fire zone. *)
Definition enterFire : option GeofenceTaskData.t :=
  Some {| GeofenceTaskData.eventType := Some GeofencingEventType.Enter;
          GeofenceTaskData.region :=
            Some {| LocationRegion.identifier := Some "fire-risk-west";
                    LocationRegion.latitude := 52.918%float;
                    LocationRegion.longitude := (-1.49)%float;
                    LocationRegion.radius := 800%float;
                    LocationRegion.notifyOnEnter := Some true;
                    LocationRegion.notifyOnExit := Some true |} |}.

(** A callback without a region. *)
Definition noRegion : option GeofenceTaskData.t :=
  Some {| GeofenceTaskData.eventType := Some GeofencingEventType.Enter;
          GeofenceTaskData.region := None |}.

(** The flood zone and the fire zone of the catalog shipped. *)
Definition floodZone : DisasterGeofence.t :=
  {| DisasterGeofence.identifier := "flood-derby-center";
     DisasterGeofence.type := FLOOD;
     DisasterGeofence.severity := HIGH;
     DisasterGeofence.latitude := 52.9225%float;
     DisasterGeofence.longitude := (-1.4746)%float;
     DisasterGeofence.radius := 1000%float;
     DisasterGeofence.notifyOnEnter := true;
     DisasterGeofence.notifyOnExit := true;
     DisasterGeofence.description :=
       "Derby City Centre - High Flood Risk Zone" |}.

Definition fireZone : DisasterGeofence.t :=
  {| DisasterGeofence.identifier := "fire-risk-west";
     DisasterGeofence.type := FIRE;
     DisasterGeofence.severity := WARNING;
     DisasterGeofence.latitude := 52.918%float;
     DisasterGeofence.longitude := (-1.49)%float;
     DisasterGeofence.radius := 800%float;
     DisasterGeofence.notifyOnEnter := true;
     DisasterGeofence.notifyOnExit := true;
     DisasterGeofence.description := "West Derby - Wildfire Risk Area" |}.

(** The flood zone with a radius that is not a number. *)
Definition floodZoneNaN : DisasterGeofence.t :=
  {| DisasterGeofence.identifier := "flood-derby-center";
     DisasterGeofence.type := FLOOD;
     DisasterGeofence.severity := HIGH;
     DisasterGeofence.latitude := 52.9225%float;
     DisasterGeofence.longitude := (-1.4746)%float;
     DisasterGeofence.radius := PrimFloat.nan;
     DisasterGeofence.notifyOnEnter := true;
     DisasterGeofence.notifyOnExit := true;
     DisasterGeofence.description :=
       "Derby City Centre - High Flood Risk Zone" |}.

(** The region of a zone, as the platform hands it to the callback. *)
Definition regionOf (identifier : string) (g : DisasterGeofence.t)
    : LocationRegion.t :=
  {| LocationRegion.identifier := Some identifier;
     LocationRegion.latitude := DisasterGeofence.latitude g;
     LocationRegion.longitude := DisasterGeofence.longitude g;
     LocationRegion.radius := DisasterGeofence.radius g;
     LocationRegion.notifyOnEnter := Some true;
     LocationRegion.notifyOnExit := Some true |}.

(** A world whose occupancy names a zone that is not in the catalog. *)
Definition staleWorld : World :=
  set_storedZoneState
    (Some {| ZoneState.insideZones := ["retired-zone"];
             ZoneState.lastUpdated := clock 0 |})
    initialWorld.

(** A rendering of the date and of the time of a timestamp. *)
Definition localeDate (timestamp : string) : string :=
  "date of " ++ timestamp.

Definition localeTime (timestamp : string) : string :=
  "time of " ++ timestamp.

End Scenario.

(** * Properties *)

Local Open Scope list_scope.

(** ** The notification composer *)

Lemma all_DisasterType_complete (type : DisasterType) :
  type ∈ all_DisasterType.
Proof. destruct type; unfold all_DisasterType; repeat constructor. Qed.

Lemma all_SeverityLevel_complete (severity : SeverityLevel) :
  severity ∈ all_SeverityLevel.
Proof. destruct severity; unfold all_SeverityLevel; repeat constructor. Qed.

(** Two entry templates are equal only for the same category and the same
    severity, decided by running the composer on the 400 pairs. *)
Lemma entry_templates_decide type severity type' severity' :
  bool_decide (getDisasterAlertContent type severity true
               = getDisasterAlertContent type' severity' true)
  = bool_decide ((type, severity) = (type', severity')).
Proof. destruct type, severity, type', severity'; vm_compute; reflexivity. Qed.

(** C6. The composer is defined on each of the 5 categories and 4
    severities (the two enumerations list every value, without
    repetition); for an entry, two different (category, severity) pairs
    get different templates, and title, body and action text of every
    entry template are non-empty; for an exit the result is one template,
    the same for every category and severity, with the default priority. *)
Theorem getDisasterAlertContent_total_distinct_entry_uniform_exit :
  (forall type severity,
     type ∈ all_DisasterType /\ severity ∈ all_SeverityLevel)
  /\ length all_DisasterType = 5 /\ NoDup all_DisasterType
  /\ length all_SeverityLevel = 4 /\ NoDup all_SeverityLevel
  /\ (forall type severity type' severity',
        getDisasterAlertContent type severity true
        = getDisasterAlertContent type' severity' true ->
        type = type' /\ severity = severity')
  /\ (forall type severity,
        AlertContent.title (getDisasterAlertContent type severity true) <> ""
        /\ AlertContent.body (getDisasterAlertContent type severity true) <> ""
        /\ AlertContent.actionText
             (getDisasterAlertContent type severity true) <> "")
  /\ (forall type severity type' severity',
        getDisasterAlertContent type severity false
        = getDisasterAlertContent type' severity' false)
  /\ (forall type severity,
        AlertContent.priority (getDisasterAlertContent type severity false)
        = AndroidNotificationPriority.DEFAULT).
Proof.
  split; [intros; split;
          [apply all_DisasterType_complete | apply all_SeverityLevel_complete] |].
  split; [reflexivity |].
  split; [apply (bool_decide_unpack _); vm_compute; reflexivity |].
  split; [reflexivity |].
  split; [apply (bool_decide_unpack _); vm_compute; reflexivity |].
  split.
  { intros type severity type' severity' Heq.
    pose proof (entry_templates_decide type severity type' severity') as Hdec.
    rewrite (bool_decide_eq_true_2 _ Heq) in Hdec. symmetry in Hdec.
    apply bool_decide_eq_true_1 in Hdec. by inversion Hdec. }
  split.
  { intros type severity; destruct type, severity; cbn; repeat split; discriminate. }
  split; reflexivity.
Qed.

(** The witness of C6: the flood entry templates of INFO and of itself. *)
Lemma getDisasterAlertContent_distinct_witness :
  FLOOD = FLOOD /\ INFO = INFO.
Proof.
  apply (proj1 (proj2 (proj2 (proj2 (proj2 (proj2
    getDisasterAlertContent_total_distinct_entry_uniform_exit)))))
    FLOOD INFO FLOOD INFO).
  reflexivity.
Defined.



(** The priority is strictly higher from INFO to WARNING and from WARNING
    to HIGH; HIGH and CRITICAL share the priority max. *)
Lemma entry_priority_steps (type : DisasterType) :
  AlertContent.priority (getDisasterAlertContent type INFO true)
  = AndroidNotificationPriority.DEFAULT
  /\ AlertContent.priority (getDisasterAlertContent type WARNING true)
     = AndroidNotificationPriority.HIGH
  /\ AlertContent.priority (getDisasterAlertContent type HIGH true)
     = AndroidNotificationPriority.MAX
  /\ AlertContent.priority (getDisasterAlertContent type CRITICAL true)
     = AndroidNotificationPriority.MAX.
Proof. destruct type; repeat split. Qed.

(** ** The event log *)

Section EventLog.

Lemma logEvent_exec (event : GeofenceEvent.t) (w : World) :
  exec (logEvent event) w
  = set_storedLogs (Some (log_push event (logs_of w))) w.
Proof. reflexivity. Qed.

Lemma logs_of_logEvent (event : GeofenceEvent.t) (w : World) :
  logs_of (exec (logEvent event) w) = log_push event (logs_of w).
Proof. reflexivity. Qed.

Lemma logs_of_logEvents (events : list GeofenceEvent.t) (w : World) :
  logs_of (exec (logEvents events) w)
  = foldl (fun logs event => log_push event logs) (logs_of w) events.
Proof.
  revert w; induction events as [|event events IH]; intros w; [reflexivity |].
  cbn [foldl]. rewrite <- logs_of_logEvent, <- IH. reflexivity.
Qed.

(** On a log within the bound, [unshift] followed by the conditional
    [pop] keeps the 50 first entries of the extended log. *)
Lemma log_push_take (event : GeofenceEvent.t) (logs : list GeofenceEvent.t) :
  length logs <= 50 -> log_push event logs = take 50 (event :: logs).
Proof.
  intros Hlen. unfold log_push, unshift, pop. case_bool_decide as Hfull.
  - cbn [length] in Hfull.
    rewrite removelast_firstn_len. cbn [length Init.Nat.pred].
    replace (length logs) with 50 by lia. reflexivity.
  - cbn [length] in Hfull. rewrite take_ge; [reflexivity | cbn [length]; lia].
Qed.

Lemma take_app_take {A} (n : nat) (l k : list A) :
  take n (l ++ take n k) = take n (l ++ k).
Proof.
  rewrite !take_app. f_equal. rewrite take_take. f_equal. lia.
Qed.

Lemma foldl_log_push (events logs : list GeofenceEvent.t) :
  length logs <= 50 ->
  foldl (fun logs event => log_push event logs) logs events
  = take 50 (reverse events ++ logs).
Proof.
  revert logs; induction events as [|event events IH]; intros logs Hlen.
  - cbn. rewrite take_ge; [reflexivity | lia].
  - cbn [foldl]. rewrite log_push_take by done.
    rewrite IH by (rewrite length_take; lia).
    rewrite take_app_take, reverse_cons, <- app_assoc. reflexivity.
Qed.

(** C5. From a log within the bound (the log is absent at first, and only
    [logEvent] writes it), after any run of [logEvent] calls the log is
    the 50 first entries of the events in reverse order of their logging
    followed by the former log: it holds at most 50 entries, the most
    recent first.  One call puts its event in front of the 49 most recent
    former entries, so on a log of 50 entries it drops exactly the last
    one, the oldest. *)
Theorem logEvent_bounded_most_recent_first
    (events : list GeofenceEvent.t) (w : World) :
  length (logs_of w) <= 50 ->
  logs_of (exec (logEvents events) w) = take 50 (reverse events ++ logs_of w)
  /\ length (logs_of (exec (logEvents events) w)) <= 50
  /\ (forall event,
        logs_of (exec (logEvent event) w) = event :: take 49 (logs_of w))
  /\ (forall event oldest older,
        logs_of w = older ++ [oldest] -> length older = 49 ->
        logs_of (exec (logEvent event) w) = event :: older).
Proof.
  intros Hlen.
  assert (Hone : forall event,
    logs_of (exec (logEvent event) w) = event :: take 49 (logs_of w)).
  { intros event. rewrite logs_of_logEvent, log_push_take by done.
    reflexivity. }
  split; [| split; [| split]].
  - rewrite logs_of_logEvents. by apply foldl_log_push.
  - rewrite logs_of_logEvents, foldl_log_push by done.
    rewrite length_take. lia.
  - exact Hone.
  - intros event oldest older Hlogs Holder. rewrite Hone, Hlogs.
    rewrite take_app_length' by done. reflexivity.
Qed.

End EventLog.

(** ** The point-based reconciliation *)

Section Reconciliation.

Context (Math : MathObject) (isoTime : nat -> string) (Platform_OS : string).

Implicit Types (w : World) (location : Coords.t) (g : DisasterGeofence.t).
Implicit Types (zones : list DisasterGeofence.t) (prev acc : list string).
Implicit Types (ts : list (EventKind * DisasterGeofence.t)).

Lemma checkInitialPosition_body_reconcile location state g acc w :
  checkInitialPosition_body Math isoTime Platform_OS location state g acc w
  = reconcile_zone Math isoTime Platform_OS "initial_check" location
      (ZoneState.insideZones state) g acc w.
Proof.
  unfold checkInitialPosition_body, reconcile_zone, transition.
  unfold emit, sendAlertNotification, ensureAndroidChannel.
  destruct (isInside Math location g);
    destruct (includes (ZoneState.insideZones state)
                (DisasterGeofence.identifier g));
    destruct (bool_decide (Platform_OS ≠ "android")); reflexivity.
Qed.

Lemma handleLocationUpdate_body_reconcile location state g acc w :
  handleLocationUpdate_body Math isoTime Platform_OS location state g acc w
  = reconcile_zone Math isoTime Platform_OS "foreground_watch" location
      (ZoneState.insideZones state) g acc w.
Proof.
  unfold handleLocationUpdate_body, reconcile_zone, transition.
  unfold emit, sendAlertNotification, ensureAndroidChannel.
  destruct (isInside Math location g);
    destruct (includes (ZoneState.insideZones state)
                (DisasterGeofence.identifier g));
    destruct (bool_decide (Platform_OS ≠ "android")); reflexivity.
Qed.

Lemma for_of_ext {A S} (xs : list A) (body body' : A -> S -> Async S) :
  (forall x s w, body x s w = body' x s w) ->
  forall s w, for_of xs body s w = for_of xs body' s w.
Proof.
  intros Hbody. induction xs as [|x xs IH]; intros s w; [reflexivity |].
  cbn. unfold mbind, Async_bind. rewrite Hbody.
  destruct (body' x s w) as [s' w']. apply IH.
Qed.

Lemma currentlyInside_cons location g zones :
  currentlyInside Math (g :: zones) location
  = if isInside Math location g
    then DisasterGeofence.identifier g :: currentlyInside Math zones location
    else currentlyInside Math zones location.
Proof.
  unfold currentlyInside. rewrite filter_cons.
  destruct (isInside Math location g); case_decide; done.
Qed.

Lemma transitions_cons prev location g zones :
  transitions Math (g :: zones) prev location
  = match transition Math prev location g with
    | Some kind => (kind, g) :: transitions Math zones prev location
    | None => transitions Math zones prev location
    end.
Proof.
  unfold transitions. cbn [omap list_omap].
  by destruct (transition Math prev location g).
Qed.

Lemma emitAll_cons source location t ts w :
  exec (emitAll isoTime Platform_OS source location (t :: ts)) w
  = exec (emitAll isoTime Platform_OS source location ts)
      (exec (emit isoTime Platform_OS source location t) w).
Proof.
  unfold emitAll, exec. cbn [for_of]. unfold mbind, Async_bind.
  by destruct (emit isoTime Platform_OS source location t w) as [[] w1].
Qed.

(** The loop over the zones: the identifiers of the zones that contain
    the point are pushed in order, and the world is the one the
    transitions of the zones leave. *)
Lemma for_of_reconcile_zone source location prev zones acc w :
  for_of zones (reconcile_zone Math isoTime Platform_OS source location prev)
    acc w
  = (acc ++ currentlyInside Math zones location,
     exec (emitAll isoTime Platform_OS source location
             (transitions Math zones prev location)) w).
Proof.
  revert acc w; induction zones as [|g zones IH]; intros acc w.
  - cbn. by rewrite app_nil_r.
  - rewrite currentlyInside_cons, transitions_cons.
    cbn [for_of]. unfold mbind at 1, Async_bind at 1.
    unfold reconcile_zone at 1. unfold mbind at 1, Async_bind at 1.
    destruct (transition Math prev location g) as [kind|].
    + rewrite emitAll_cons. unfold exec at 2.
      destruct (emit isoTime Platform_OS source location (kind, g) w)
        as [[] w1].
      cbn [mret Async_ret snd]. rewrite IH. f_equal.
      destruct (isInside Math location g); unfold push;
        [by rewrite <- app_assoc | done].
    + cbn [mret Async_ret]. rewrite IH. f_equal.
      destruct (isInside Math location g); unfold push;
        [by rewrite <- app_assoc | done].
Qed.

(** One transition: what it leaves of each part of the world. *)
Lemma emit_exec source location t w :
  let w' := exec (emit isoTime Platform_OS source location t) w in
  storedZoneState w' = storedZoneState w
  /\ console w' = console w
  /\ geofencingTask w' = geofencingTask w
  /\ locationSubscription w' = locationSubscription w
  /\ dateCalls w' = S (S (dateCalls w))
  /\ scheduled w'
     = scheduled w
       ++ [contentOf Platform_OS
             (pointAlert source t.1 t.2 (isoTime (dateCalls w)))]
  /\ logs_of w'
     = log_push (pointEvent location t.1 t.2 (isoTime (S (dateCalls w))))
         (logs_of w).
Proof.
  unfold emit, sendAlertNotification, ensureAndroidChannel.
  destruct (bool_decide (Platform_OS ≠ "android")); repeat split.
Qed.

Lemma passAlerts_cons source clock t ts :
  passAlerts isoTime Platform_OS source clock (t :: ts)
  = contentOf Platform_OS (pointAlert source t.1 t.2 (isoTime clock))
    :: passAlerts isoTime Platform_OS source (S (S clock)) ts.
Proof.
  unfold passAlerts. rewrite imap_cons. f_equal.
  - do 3 f_equal. lia.
  - apply imap_ext. intros i t' _. cbn. do 3 f_equal. lia.
Qed.

Lemma passEvents_cons location clock t ts :
  passEvents isoTime location clock (t :: ts)
  = pointEvent location t.1 t.2 (isoTime (S clock))
    :: passEvents isoTime location (S (S clock)) ts.
Proof.
  unfold passEvents. rewrite imap_cons. f_equal.
  - do 2 f_equal. lia.
  - apply imap_ext. intros i t' _. cbn. do 2 f_equal. lia.
Qed.

(** The transitions of a pass: what they leave of each part of the
    world.  The alerts are appended in order, each transition logs one
    entry, and nothing else changes but the clock count and the
    notification channel. *)
Lemma emitAll_exec source location ts w :
  let w' := exec (emitAll isoTime Platform_OS source location ts) w in
  storedZoneState w' = storedZoneState w
  /\ console w' = console w
  /\ geofencingTask w' = geofencingTask w
  /\ locationSubscription w' = locationSubscription w
  /\ dateCalls w' = dateCalls w + 2 * length ts
  /\ scheduled w'
     = scheduled w ++ passAlerts isoTime Platform_OS source (dateCalls w) ts
  /\ logs_of w'
     = foldl (fun logs event => log_push event logs) (logs_of w)
         (passEvents isoTime location (dateCalls w) ts).
Proof.
  revert w; induction ts as [|t ts IH]; intros w; cbn zeta.
  - cbn. rewrite app_nil_r. repeat split; lia.
  - rewrite emitAll_cons, passAlerts_cons, passEvents_cons.
    destruct (emit_exec source location t w)
      as (Hz & Hc & Hg & Hl & Hd & Hs & Hlog).
    destruct (IH (exec (emit isoTime Platform_OS source location t) w))
      as (Hz' & Hc' & Hg' & Hl' & Hd' & Hs' & Hlog').
    rewrite Hz', Hc', Hg', Hl', Hd', Hs', Hlog', Hz, Hc, Hg, Hl, Hd, Hs, Hlog.
    cbn [foldl length]. rewrite <- app_assoc. repeat split; lia.
Qed.

(** [getZoneState] answers the occupancy on record and changes nothing
    but the clock count. *)
Lemma getZoneState_spec w state w1 :
  getZoneState isoTime w = (state, w1) ->
  ZoneState.insideZones state = occupancy w
  /\ storedZoneState w1 = storedZoneState w
  /\ storedLogs w1 = storedLogs w
  /\ scheduled w1 = scheduled w
  /\ console w1 = console w
  /\ geofencingTask w1 = geofencingTask w
  /\ locationSubscription w1 = locationSubscription w
  /\ dateCalls w1 = clockAfterRead w.
Proof.
  unfold getZoneState, occupancy, clockAfterRead, gets, mbind, Async_bind.
  destruct (storedZoneState w) as [state0|] eqn:Hstored; cbn;
    intros [= <- <-]; cbn; rewrite ?Hstored; repeat split.
Qed.

Context (catalog : list DisasterGeofence.t).

(** The foreground handler as a diff: its alerts and log entries are
    those of the transitions of the catalog against the occupancy on
    record, and it writes the sorted new occupancy unless that equals the
    sorted former one. *)
Lemma handleLocationUpdate_exec location w :
  let prev := occupancy w in
  let ts := transitions Math catalog prev location in
  let w' :=
    exec (handleLocationUpdate Math isoTime Platform_OS catalog location) w in
  scheduled w'
  = scheduled w
    ++ passAlerts isoTime Platform_OS "foreground_watch" (clockAfterRead w) ts
  /\ logs_of w'
     = foldl (fun logs event => log_push event logs) (logs_of w)
         (passEvents isoTime location (clockAfterRead w) ts)
  /\ occupancy w'
     = (if bool_decide (sort (currentlyInside Math catalog location)
                        ≠ sort prev)
        then sort (currentlyInside Math catalog location) else prev)
  /\ console w' = console w
  /\ geofencingTask w' = geofencingTask w
  /\ locationSubscription w' = locationSubscription w.
Proof.
  cbn zeta. unfold handleLocationUpdate, exec, mbind, Async_bind.
  destruct (getZoneState isoTime w) as [state w1] eqn:Hget.
  apply getZoneState_spec in Hget
    as (Hprev & Hz1 & Hl1 & Hs1 & Hc1 & Hg1 & Hsub1 & Hd1).
  rewrite (for_of_ext _ _ _ (handleLocationUpdate_body_reconcile location state)).
  rewrite for_of_reconcile_zone, Hprev. cbn [app].
  destruct (emitAll_exec "foreground_watch" location
              (transitions Math catalog (occupancy w) location) w1)
    as (Hz & Hc & Hg & Hsub & Hd & Hs & Hlog).
  cbn zeta in *.
  set (w2 := exec (emitAll isoTime Platform_OS "foreground_watch" location
                     (transitions Math catalog (occupancy w) location)) w1) in *.
  assert (Hlogs1 : logs_of w1 = logs_of w) by (unfold logs_of; by rewrite Hl1).
  assert (Hocc2 : occupancy w2 = occupancy w)
    by (unfold occupancy; by rewrite Hz, Hz1).
  rewrite Hs1, Hd1, Hlogs1 in *.
  case_bool_decide;
    unfold Date_toISOString, Date_new, setZoneState, modify, mbind, Async_bind;
    cbn; rewrite ?Hs, ?Hlog, ?Hc, ?Hg, ?Hsub, ?Hc1, ?Hg1, ?Hsub1;
    repeat split; done.
Qed.

(** The initial check as a diff: the same alerts and log entries, and the
    new occupancy written in catalog order. *)
Lemma checkInitialPosition_exec location w :
  let prev := occupancy w in
  let ts := transitions Math catalog prev location in
  let w' :=
    exec (checkInitialPosition Math isoTime Platform_OS catalog
            (PositionOk location)) w in
  scheduled w'
  = scheduled w
    ++ passAlerts isoTime Platform_OS "initial_check" (clockAfterRead w) ts
  /\ logs_of w'
     = foldl (fun logs event => log_push event logs) (logs_of w)
         (passEvents isoTime location (clockAfterRead w) ts)
  /\ occupancy w' = currentlyInside Math catalog location
  /\ console w' = console w
  /\ geofencingTask w' = geofencingTask w
  /\ locationSubscription w' = locationSubscription w.
Proof.
  cbn zeta. unfold checkInitialPosition, exec, mbind, Async_bind.
  destruct (getZoneState isoTime w) as [state w1] eqn:Hget.
  apply getZoneState_spec in Hget
    as (Hprev & Hz1 & Hl1 & Hs1 & Hc1 & Hg1 & Hsub1 & Hd1).
  rewrite (for_of_ext _ _ _ (checkInitialPosition_body_reconcile location state)).
  rewrite for_of_reconcile_zone, Hprev. cbn [app].
  destruct (emitAll_exec "initial_check" location
              (transitions Math catalog (occupancy w) location) w1)
    as (Hz & Hc & Hg & Hsub & Hd & Hs & Hlog).
  cbn zeta in *.
  set (w2 := exec (emitAll isoTime Platform_OS "initial_check" location
                     (transitions Math catalog (occupancy w) location)) w1) in *.
  assert (Hlogs1 : logs_of w1 = logs_of w) by (unfold logs_of; by rewrite Hl1).
  rewrite Hs1, Hd1, Hlogs1 in *.
  unfold Date_toISOString, Date_new, setZoneState, modify, mbind, Async_bind.
  cbn. rewrite ?Hs, ?Hlog, ?Hc, ?Hg, ?Hsub, ?Hc1, ?Hg1, ?Hsub1.
  repeat split; done.
Qed.

(** *** The transitions of a pass are the diff of the two occupancies *)

Lemma sort_insert_perm (x : string) (xs : list string) :
  sort_insert x xs ≡ₚ x :: xs.
Proof.
  induction xs as [|y xs IH]; [done |]. cbn.
  destruct (codeUnitLeb x y); [done |].
  rewrite IH. apply Permutation_swap.
Qed.

Lemma sort_perm (xs : list string) : sort xs ≡ₚ xs.
Proof.
  induction xs as [|x xs IH]; [done |].
  cbn. rewrite sort_insert_perm. by rewrite IH.
Qed.

Lemma NoDup_fmap_elem_eq {A B} (f : A -> B) (l : list A) (x y : A) :
  NoDup (f <$> l) -> x ∈ l -> y ∈ l -> f x = f y -> x = y.
Proof.
  induction l as [|z l IH]; [by intros _ ?%elem_of_nil |].
  rewrite fmap_cons, NoDup_cons.
  intros [Hz Hdup] [->|Hx]%elem_of_cons [->|Hy]%elem_of_cons Heq.
  - done.
  - destruct Hz. rewrite Heq. by apply list_elem_of_fmap_2.
  - destruct Hz. rewrite <- Heq. by apply list_elem_of_fmap_2.
  - by apply IH.
Qed.

Lemma alertedZones_passAlerts kind source clock ts :
  alertedZones kind (passAlerts isoTime Platform_OS source clock ts)
  = map (fun t => DisasterGeofence.identifier t.2)
      (filter (fun t => t.1 = kind) ts).
Proof.
  revert clock; induction ts as [|t ts IH]; intros clock; [done |].
  rewrite passAlerts_cons. unfold alertedZones in *.
  rewrite !filter_cons. cbn [contentOf pointAlert AlertData.event
    NotificationContent.data AlertArgs.data].
  destruct (decide (t.1 = kind)); cbn; by rewrite IH.
Qed.

Lemma currentlyInside_elem_of zones location (x : string) :
  x ∈ currentlyInside Math zones location
  <-> exists g, g ∈ zones /\ DisasterGeofence.identifier g = x
                /\ isInside Math location g = true.
Proof.
  unfold currentlyInside. rewrite list_elem_of_fmap. split.
  - intros (g & -> & [Hin Hg]%list_elem_of_filter). eauto.
  - intros (g & Hg & <- & Hin). exists g. split; [done |].
    by apply list_elem_of_filter.
Qed.

Lemma currentlyInside_NoDup zones location :
  NoDup (DisasterGeofence.identifier <$> zones) ->
  NoDup (currentlyInside Math zones location).
Proof.
  intros Hdup. apply (sublist_NoDup _ _ Hdup).
  unfold currentlyInside. apply fmap_sublist, sublist_filter.
Qed.

(** The zones an ENTER transition is made for: the new occupancy without
    the former one, in catalog order. *)
Lemma entered_transitions zones prev location :
  map (fun t => DisasterGeofence.identifier t.2)
    (filter (fun t => t.1 = ENTER) (transitions Math zones prev location))
  = list_difference (currentlyInside Math zones location) prev.
Proof.
  induction zones as [|g zones IH]; [done |].
  rewrite transitions_cons, currentlyInside_cons. unfold transition, includes.
  destruct (isInside Math location g); case_bool_decide as Hprev;
    cbn [negb list_difference]; unfold decide_rel.
  - case_match; [done | contradiction].
  - case_match; [contradiction |]. rewrite filter_cons_True by done.
    cbn [map snd]. by f_equal.
  - by rewrite filter_cons_False.
  - done.
Qed.

(** The zones an EXIT transition is made for: the zones of the catalog
    that do not contain the point and whose identifier is in the former
    occupancy. *)
Lemma exited_transitions zones prev location :
  map (fun t => DisasterGeofence.identifier t.2)
    (filter (fun t => t.1 = EXIT) (transitions Math zones prev location))
  = map DisasterGeofence.identifier
      (filter (fun g => isInside Math location g = false
                        /\ DisasterGeofence.identifier g ∈ prev) zones).
Proof.
  induction zones as [|g zones IH]; [done |].
  rewrite transitions_cons. unfold transition, includes.
  destruct (isInside Math location g) eqn:Hin; case_bool_decide as Hprev;
    cbn [negb].
  - rewrite (filter_cons_False _ g) by (intros [? _]; congruence). exact IH.
  - rewrite filter_cons_False by done.
    rewrite (filter_cons_False _ g) by (intros [? _]; congruence). exact IH.
  - rewrite filter_cons_True, (filter_cons_True _ g) by done.
    cbn [map snd]. by f_equal.
  - rewrite (filter_cons_False _ g) by (intros [_ ?]; done). exact IH.
Qed.

Lemma exited_transitions_elem_of zones prev location (x : string) :
  NoDup (DisasterGeofence.identifier <$> zones) ->
  x ∈ map (fun t => DisasterGeofence.identifier t.2)
        (filter (fun t => t.1 = EXIT) (transitions Math zones prev location))
  <-> x ∈ list_difference prev (currentlyInside Math zones location)
      /\ x ∈ DisasterGeofence.identifier <$> zones.
Proof.
  intros Hdup. rewrite exited_transitions, list_elem_of_difference.
  split.
  - intros (g & -> & [[Hout Hprev] Hg]%list_elem_of_filter)%list_elem_of_fmap.
    split; [split; [done |] | by apply list_elem_of_fmap_2].
    intros (g' & Hg' & Heq & Hin)%currentlyInside_elem_of.
    assert (g' = g) as -> by eauto using NoDup_fmap_elem_eq.
    congruence.
  - intros [[Hprev Hcur] (g & -> & Hg)%list_elem_of_fmap].
    apply list_elem_of_fmap. exists g. split; [done |].
    apply list_elem_of_filter. split; [| done]. split; [| done].
    destruct (isInside Math location g) eqn:Hin; [| done].
    destruct Hcur. apply currentlyInside_elem_of. eauto.
Qed.

Lemma exited_transitions_NoDup zones prev location :
  NoDup (DisasterGeofence.identifier <$> zones) ->
  NoDup (map (fun t => DisasterGeofence.identifier t.2)
           (filter (fun t => t.1 = EXIT)
              (transitions Math zones prev location))).
Proof.
  intros Hdup. rewrite exited_transitions. apply (sublist_NoDup _ _ Hdup).
  apply fmap_sublist, sublist_filter.
Qed.

(** No zone makes a transition when the occupancy on record has the
    members of the occupancy of the point. *)
Lemma transitions_nil zones prev location :
  NoDup (DisasterGeofence.identifier <$> zones) ->
  (forall x, x ∈ prev <-> x ∈ currentlyInside Math zones location) ->
  transitions Math zones prev location = [].
Proof.
  intros Hdup Hsame.
  assert (Hnone : forall g, g ∈ zones -> transition Math prev location g = None).
  { intros g Hg. unfold transition, includes.
    destruct (isInside Math location g) eqn:Hin; case_bool_decide as Hprev;
      try done; cbn.
    - destruct Hprev. apply Hsame, currentlyInside_elem_of. eauto.
    - apply Hsame, currentlyInside_elem_of in Hprev as (g' & Hg' & Heq & Hin').
      assert (g' = g) as -> by eauto using NoDup_fmap_elem_eq.
      congruence. }
  unfold transitions. clear Hdup Hsame.
  induction zones as [|g zones IH]; [done |].
  cbn [omap list_omap]. rewrite Hnone by left. cbn.
  apply IH. intros g' Hg'. apply Hnone. by right.
Qed.

(** A pass at either call site, as a diff. *)
Lemma pointPass_exec site location w :
  let prev := occupancy w in
  let ts := transitions Math catalog prev location in
  let w' := exec (pointPass Math isoTime Platform_OS catalog site location) w in
  scheduled w'
  = scheduled w
    ++ passAlerts isoTime Platform_OS (sourceOf site) (clockAfterRead w) ts
  /\ logs_of w'
     = foldl (fun logs event => log_push event logs) (logs_of w)
         (passEvents isoTime location (clockAfterRead w) ts)
  /\ occupancy w' ≡ₚ currentlyInside Math catalog location
  /\ console w' = console w
  /\ geofencingTask w' = geofencingTask w
  /\ locationSubscription w' = locationSubscription w.
Proof.
  destruct site; cbn zeta; cbn [pointPass sourceOf].
  - destruct (checkInitialPosition_exec location w)
      as (Hs & Hl & Ho & Hc & Hg & Hsub).
    rewrite Ho. by repeat split.
  - destruct (handleLocationUpdate_exec location w)
      as (Hs & Hl & Ho & Hc & Hg & Hsub).
    repeat split; try done.
    rewrite Ho. case_bool_decide as Hsort.
    + apply sort_perm.
    + rewrite <- (sort_perm (occupancy w)), <- Hsort. apply sort_perm.
Qed.

Lemma passAlerts_passEvents source location clock ts :
  Forall2 (logsTransitionOf location)
    (passAlerts isoTime Platform_OS source clock ts)
    (passEvents isoTime location clock ts).
Proof.
  revert clock; induction ts as [|t ts IH]; intros clock.
  - constructor.
  - rewrite passAlerts_cons, passEvents_cons. constructor; [| apply IH].
    unfold logsTransitionOf. by repeat split.
Qed.

Lemma passAlerts_composed source clock ts zones prev location :
  ts = transitions Math zones prev location ->
  Forall (fun n => exists kind g now,
            g ∈ zones
            /\ n = contentOf Platform_OS (pointAlert source kind g now))
    (passAlerts isoTime Platform_OS source clock ts).
Proof.
  intros ->. unfold passAlerts. apply Forall_forall.
  intros n (i & [kind g] & -> & Ht%list_elem_of_lookup_2)%elem_of_lookup_imap.
  exists kind, g, (isoTime (clock + 2 * i)). split; [| done].
  unfold transitions in Ht.
  apply list_elem_of_omap in Ht as (g' & Hg' & Heq).
  destruct (transition Math prev location g'); by simplify_eq/=.
Qed.

(** C1. With zone identifiers unique in the catalog and an occupancy on
    record that names zones of the catalog (both hold of every state the
    service writes, see [occupancy_in_catalog_invariant]), the foreground
    handler run on a point dispatches alerts and logs entries such that:
    the ENTER alerts are for the identifiers of [entered = currentlyInside
    minus previouslyInside], one each; the EXIT alerts are for the
    identifiers of [exited = previouslyInside minus currentlyInside], one
    each; every alert is the one composed for a zone of the catalog;
    the log receives one entry per alert, in the same order, of the same
    direction and zone and with the observed point; and the occupancy on
    record afterwards has the members of [currentlyInside]. *)
Theorem handleLocationUpdate_diff location w :
  NoDup (DisasterGeofence.identifier <$> catalog) ->
  (forall x, x ∈ occupancy w -> x ∈ DisasterGeofence.identifier <$> catalog) ->
  let previouslyInside := occupancy w in
  let currentlyInside := currentlyInside Math catalog location in
  let entered := list_difference currentlyInside previouslyInside in
  let exited := list_difference previouslyInside currentlyInside in
  let w' :=
    exec (handleLocationUpdate Math isoTime Platform_OS catalog location) w in
  exists alerts events,
    scheduled w' = scheduled w ++ alerts
    /\ logs_of w'
       = foldl (fun logs event => log_push event logs) (logs_of w) events
    /\ alertedZones ENTER alerts = entered
    /\ NoDup (alertedZones ENTER alerts)
    /\ (forall x, x ∈ alertedZones EXIT alerts <-> x ∈ exited)
    /\ NoDup (alertedZones EXIT alerts)
    /\ Forall (fun n => exists kind g now,
                 g ∈ catalog
                 /\ n = contentOf Platform_OS
                          (pointAlert "foreground_watch" kind g now)) alerts
    /\ Forall2 (logsTransitionOf location) alerts events
    /\ occupancy w' ≡ₚ currentlyInside.
Proof.
  intros Hdup Hknown. cbn zeta.
  destruct (pointPass_exec ForegroundWatch location w)
    as (Hs & Hl & Ho & _).
  cbn [pointPass sourceOf] in *.
  eexists _, _. split; [exact Hs |]. split; [exact Hl |].
  rewrite !alertedZones_passAlerts, entered_transitions.
  split; [done |].
  split; [by apply NoDup_list_difference, currentlyInside_NoDup |].
  split.
  { intros x. rewrite exited_transitions_elem_of by done.
    rewrite list_elem_of_difference. split; [by intros [? _] |].
    intros [Hx ?]. split; [done |]. by apply Hknown. }
  split; [by apply exited_transitions_NoDup |].
  split; [by eapply passAlerts_composed |].
  split; [apply passAlerts_passEvents | exact Ho].
Qed.

(** X18. The same diff at the other call site, the initial check: with
    zone identifiers unique in the catalog and an occupancy on record that
    names zones of the catalog, the initial check at a point dispatches
    one ENTER alert per zone entered and one EXIT alert per zone left, logs
    one entry per alert, and writes the zones that contain the point, in
    catalog order. *)
Lemma checkInitialPosition_diff location w :
  NoDup (DisasterGeofence.identifier <$> catalog) ->
  (forall x, x ∈ occupancy w -> x ∈ DisasterGeofence.identifier <$> catalog) ->
  let previouslyInside := occupancy w in
  let currentlyInside := currentlyInside Math catalog location in
  let w' :=
    exec (checkInitialPosition Math isoTime Platform_OS catalog
            (PositionOk location)) w in
  exists alerts events,
    scheduled w' = scheduled w ++ alerts
    /\ logs_of w'
       = foldl (fun logs event => log_push event logs) (logs_of w) events
    /\ alertedZones ENTER alerts
       = list_difference currentlyInside previouslyInside
    /\ (forall x, x ∈ alertedZones EXIT alerts
                  <-> x ∈ list_difference previouslyInside currentlyInside)
    /\ NoDup (alertedZones EXIT alerts)
    /\ Forall2 (logsTransitionOf location) alerts events
    /\ occupancy w' = currentlyInside.
Proof.
  intros Hdup Hknown. cbn zeta.
  destruct (checkInitialPosition_exec location w) as (Hs & Hl & Ho & _).
  eexists _, _. split; [exact Hs |]. split; [exact Hl |].
  rewrite !alertedZones_passAlerts, entered_transitions.
  split; [done |].
  split.
  { intros x. rewrite exited_transitions_elem_of by done.
    rewrite list_elem_of_difference. split; [by intros [? _] |].
    intros [Hx ?]. split; [done |]. by apply Hknown. }
  split; [by apply exited_transitions_NoDup |].
  split; [apply passAlerts_passEvents | exact Ho].
Qed.

(** X19. An identifier on record that names no zone of the catalog is
    dropped from the occupancy by a point-based pass without an EXIT
    alert: the loop ranges over the catalog. *)
Lemma stale_identifier_no_alert site location w (x : string) :
  x ∉ DisasterGeofence.identifier <$> catalog ->
  let w' := exec (pointPass Math isoTime Platform_OS catalog site location) w in
  exists alerts,
    scheduled w' = scheduled w ++ alerts
    /\ (x ∉ alertedZones EXIT alerts)
    /\ (x ∉ alertedZones ENTER alerts)
    /\ (x ∉ occupancy w').
Proof.
  intros Hstale. cbn zeta.
  destruct (pointPass_exec site location w) as (Hs & _ & Ho & _).
  eexists. split; [exact Hs |].
  rewrite !alertedZones_passAlerts, exited_transitions, entered_transitions.
  rewrite Ho. repeat split.
  - intros (g & -> & [_ Hg]%list_elem_of_filter)%list_elem_of_fmap.
    by apply Hstale, list_elem_of_fmap_2.
  - intros [(g & Hg & <- & _)%currentlyInside_elem_of _]%list_elem_of_difference.
    by apply Hstale, list_elem_of_fmap_2.
  - intros (g & Hg & <- & _)%currentlyInside_elem_of.
    by apply Hstale, list_elem_of_fmap_2.
Qed.

(** C2. With zone identifiers unique in the catalog, from every world
    and for every point, a point-based pass followed at once by a second
    pass on the same point, each at either call site (the initial check or
    the foreground handler), dispatches no alert and logs no entry in the
    second pass, and leaves the members of the occupancy as the first pass
    wrote them. *)
Theorem pointPass_idempotent (first second : CallSite) location w :
  NoDup (DisasterGeofence.identifier <$> catalog) ->
  let w1 := exec (pointPass Math isoTime Platform_OS catalog first location) w in
  let w2 :=
    exec (pointPass Math isoTime Platform_OS catalog second location) w1 in
  scheduled w2 = scheduled w1
  /\ logs_of w2 = logs_of w1
  /\ occupancy w2 ≡ₚ occupancy w1.
Proof.
  intros Hdup. cbn zeta.
  destruct (pointPass_exec first location w) as (_ & _ & Ho1 & _).
  set (w1 := exec (pointPass Math isoTime Platform_OS catalog first location) w)
    in *.
  destruct (pointPass_exec second location w1) as (Hs & Hl & Ho2 & _).
  assert (Hnil : transitions Math catalog (occupancy w1) location = [])
    by (apply transitions_nil; [done | intros x; by rewrite Ho1]).
  rewrite Hnil in Hs, Hl. cbn in Hs, Hl. rewrite app_nil_r in Hs.
  split; [done |]. split; [done |]. by rewrite Ho1, Ho2.
Qed.

End Reconciliation.

(** ** The signal-based reconciliation: the background callback *)

Section Signal.

Context (isoTime : nat -> string) (Platform_OS : string).
Context (catalog : list DisasterGeofence.t).

Implicit Types (w : World) (zoneId x : string) (xs : list string).
Implicit Types (data : option GeofenceTaskData.t).
Implicit Types (error : option TaskError.t).

Lemma exec_bind {A B} (m : Async A) (k : A -> Async B) w :
  exec (m ≫= k) w = exec (k (eval m w)) (exec m w).
Proof. unfold exec, eval, mbind, Async_bind. by destruct (m w). Qed.

Lemma eval_bind {A B} (m : Async A) (k : A -> Async B) w :
  eval (m ≫= k) w = eval (k (eval m w)) (exec m w).
Proof. unfold exec, eval, mbind, Async_bind. by destruct (m w). Qed.

Lemma indexOf_None xs zoneId : indexOf xs zoneId = None <-> zoneId ∉ xs.
Proof.
  induction xs as [|y xs IH]; cbn.
  - split; [intros _; apply not_elem_of_nil | done].
  - rewrite not_elem_of_cons. case_bool_decide as Hy; [naive_solver |].
    destruct (indexOf xs zoneId); naive_solver.
Qed.

Lemma indexOf_Some xs zoneId index :
  indexOf xs zoneId = Some index -> xs !! index = Some zoneId.
Proof.
  revert index; induction xs as [|y xs IH]; intros index; cbn; [done |].
  case_bool_decide as Hy; [by intros [= <-]; subst |].
  destruct (indexOf xs zoneId); [| done].
  intros [= <-]. by apply IH.
Qed.

Lemma elem_of_delete_ne xs index zoneId x :
  xs !! index = Some zoneId -> x <> zoneId ->
  x ∈ delete index xs <-> x ∈ xs.
Proof.
  revert index; induction xs as [|y xs IH]; intros [|index]; cbn; try done.
  - intros [= ->] Hne. rewrite elem_of_cons. naive_solver.
  - intros Hlookup Hne. rewrite !elem_of_cons, IH by done. done.
Qed.

Lemma not_elem_of_delete_NoDup xs index zoneId :
  NoDup xs -> xs !! index = Some zoneId -> zoneId ∉ delete index xs.
Proof.
  revert index; induction xs as [|y xs IH]; intros [|index]; cbn; try done.
  - intros [Hy _]%NoDup_cons [= ->]. done.
  - intros [Hy Hdup]%NoDup_cons Hlookup. rewrite not_elem_of_cons.
    split; [| by apply IH].
    intros ->. apply Hy. by eapply list_elem_of_lookup_2.
Qed.

(** [addToInsideZones] pushes the identifier unless it is there, and
    leaves the rest of the world but the clock count. *)
Lemma addToInsideZones_exec zoneId w :
  let w' := exec (addToInsideZones isoTime zoneId) w in
  occupancy w'
  = (if includes (occupancy w) zoneId then occupancy w
     else occupancy w ++ [zoneId])
  /\ storedLogs w' = storedLogs w
  /\ scheduled w' = scheduled w
  /\ console w' = console w
  /\ geofencingTask w' = geofencingTask w
  /\ locationSubscription w' = locationSubscription w.
Proof.
  unfold addToInsideZones, getZoneState, occupancy, exec, gets, mbind,
    Async_bind.
  destruct (storedZoneState w) as [state|] eqn:Hstored; cbn.
  - destruct (includes (ZoneState.insideZones state) zoneId); cbn;
      rewrite ?Hstored; repeat split.
  - repeat split.
Qed.

(** [removeFromInsideZones] removes the first occurrence of the
    identifier, if there is one. *)
Lemma removeFromInsideZones_exec zoneId w :
  let w' := exec (removeFromInsideZones isoTime zoneId) w in
  occupancy w'
  = match indexOf (occupancy w) zoneId with
    | Some index => delete index (occupancy w)
    | None => occupancy w
    end
  /\ storedLogs w' = storedLogs w
  /\ scheduled w' = scheduled w
  /\ console w' = console w
  /\ geofencingTask w' = geofencingTask w
  /\ locationSubscription w' = locationSubscription w.
Proof.
  unfold removeFromInsideZones, getZoneState, Date_toISOString, Date_new,
    occupancy, exec, gets, mbind, Async_bind.
  destruct (storedZoneState w) as [state|] eqn:Hstored; cbn.
  - destruct (indexOf (ZoneState.insideZones state) zoneId); cbn;
      rewrite ?Hstored; repeat split.
  - rewrite ?Hstored. repeat split.
Qed.

Lemma sendAlertNotification_exec args w :
  let w' := exec (sendAlertNotification Platform_OS args) w in
  storedZoneState w' = storedZoneState w
  /\ storedLogs w' = storedLogs w
  /\ scheduled w' = scheduled w ++ [contentOf Platform_OS args]
  /\ console w' = console w
  /\ geofencingTask w' = geofencingTask w
  /\ locationSubscription w' = locationSubscription w.
Proof.
  unfold sendAlertNotification, ensureAndroidChannel.
  destruct (bool_decide (Platform_OS ≠ "android")); repeat split.
Qed.

Lemma logEvent_exec_fields event w :
  let w' := exec (logEvent event) w in
  storedZoneState w' = storedZoneState w
  /\ logs_of w' = log_push event (logs_of w)
  /\ scheduled w' = scheduled w
  /\ console w' = console w
  /\ geofencingTask w' = geofencingTask w
  /\ locationSubscription w' = locationSubscription w.
Proof. repeat split. Qed.

Lemma Date_new_exec_fields w :
  let w' := exec Date_new w in
  storedZoneState w' = storedZoneState w
  /\ storedLogs w' = storedLogs w
  /\ scheduled w' = scheduled w
  /\ console w' = console w
  /\ geofencingTask w' = geofencingTask w
  /\ locationSubscription w' = locationSubscription w.
Proof. repeat split. Qed.

(** The background callback on a complete signal for a zone of the
    catalog: the occupancy gains or loses the one identifier, one alert of
    that direction and zone is dispatched, one entry is logged. *)
Lemma GEOFENCE_TASK_handler_signal eventType region zoneId g w :
  LocationRegion.identifier region = Some zoneId ->
  zoneId <> "" ->
  getGeofenceDetails catalog zoneId = Some g ->
  let data :=
    Some {| GeofenceTaskData.eventType := Some eventType;
            GeofenceTaskData.region := Some region |} in
  let w' :=
    exec (GEOFENCE_TASK_handler isoTime Platform_OS catalog data None) w in
  occupancy w'
  = match eventType with
    | GeofencingEventType.Enter =>
        if includes (occupancy w) zoneId then occupancy w
        else occupancy w ++ [zoneId]
    | GeofencingEventType.Exit =>
        match indexOf (occupancy w) zoneId with
        | Some index => delete index (occupancy w)
        | None => occupancy w
        end
    end
  /\ (exists n,
        scheduled w' = scheduled w ++ [n]
        /\ alertKey n
           = (match eventType with
              | GeofencingEventType.Enter => ENTER
              | GeofencingEventType.Exit => EXIT
              end, DisasterGeofence.identifier g))
  /\ (exists e, logs_of w' = log_push e (logs_of w)
                /\ GeofenceEvent.type e
                   = match eventType with
                     | GeofencingEventType.Enter => ENTER
                     | GeofencingEventType.Exit => EXIT
                     end
                /\ GeofenceEvent.region e = Some region)
  /\ console w' = console w.
Proof.
  intros Hid Hne Hget. cbn zeta. unfold GEOFENCE_TASK_handler.
  cbn [mbind option_bind GeofenceTaskData.eventType GeofenceTaskData.region].
  rewrite Hid. destruct zoneId as [|c zoneId]; [done |]. rewrite Hget.
  set (zone := String c zoneId) in *.
  rewrite !exec_bind.
  set (w1 := exec Date_new w).
  set (w2 := exec (Date_toISOString isoTime) w1).
  set (w3 := exec Date_new w2).
  assert (Hocc3 : occupancy w3 = occupancy w) by reflexivity.
  assert (Hlogs3 : storedLogs w3 = storedLogs w) by reflexivity.
  assert (Hsched3 : scheduled w3 = scheduled w) by reflexivity.
  assert (Hcons3 : console w3 = console w) by reflexivity.
  clearbody w3.
  set (w4 := exec (if bool_decide (eventType = GeofencingEventType.Enter)
                   then addToInsideZones isoTime zone
                   else removeFromInsideZones isoTime zone) w3).
  assert (H4 : occupancy w4
               = match eventType with
                 | GeofencingEventType.Enter =>
                     if includes (occupancy w) zone then occupancy w
                     else occupancy w ++ [zone]
                 | GeofencingEventType.Exit =>
                     match indexOf (occupancy w) zone with
                     | Some index => delete index (occupancy w)
                     | None => occupancy w
                     end
                 end
               /\ storedLogs w4 = storedLogs w
               /\ scheduled w4 = scheduled w
               /\ console w4 = console w).
  { subst w4.
    destruct eventType;
      [rewrite bool_decide_eq_true_2 by done
      | rewrite bool_decide_eq_false_2 by done].
    - destruct (addToInsideZones_exec zone w3) as (Ho & Hl & Hs & Hc & _).
      cbn zeta in *. rewrite Ho, Hl, Hs, Hc, Hocc3. done.
    - destruct (removeFromInsideZones_exec zone w3) as (Ho & Hl & Hs & Hc & _).
      cbn zeta in *. rewrite Ho, Hl, Hs, Hc, Hocc3. done. }
  destruct H4 as (Hocc4 & Hlogs4 & Hsched4 & Hcons4). clearbody w4.
  match goal with
  | |- context [exec (sendAlertNotification Platform_OS ?args) w4] =>
      destruct (sendAlertNotification_exec args w4)
        as (Hz5 & Hl5 & Hs5 & Hc5 & _);
      set (w5 := exec (sendAlertNotification Platform_OS args) w4) in *
  end.
  match goal with
  | |- context [exec (logEvent ?event) w5] =>
      destruct (logEvent_exec_fields event w5)
        as (Hz6 & Hl6 & Hs6 & Hc6 & _);
      set (w6 := exec (logEvent event) w5) in *
  end.
  cbn zeta in *.
  split; [| split; [| split]].
  - unfold occupancy at 1. rewrite Hz6, Hz5. exact Hocc4.
  - eexists. rewrite Hs6, Hs5, Hsched4. split; [reflexivity |].
    by destruct eventType.
  - eexists. split; [| split].
    + rewrite Hl6. unfold logs_of. rewrite Hl5, Hlogs4. reflexivity.
    + by destruct eventType.
    + reflexivity.
  - by rewrite Hc6, Hc5.
Qed.

(** The callback that carries an error: an ENTER entry whose zone name is
    the error message goes to the event log and a line to the console;
    state and alerts are as before. *)
Lemma GEOFENCE_TASK_handler_error data (error : TaskError.t) w :
  let w' :=
    exec (GEOFENCE_TASK_handler isoTime Platform_OS catalog data (Some error))
      w in
  storedZoneState w' = storedZoneState w
  /\ scheduled w' = scheduled w
  /\ console w' = console w ++ [(Error, "Geofence task error:")]
  /\ logs_of w'
     = log_push
         {| GeofenceEvent.type := ENTER;
            GeofenceEvent.timestamp := isoTime (S (dateCalls w));
            GeofenceEvent.region := None;
            GeofenceEvent.location := None;
            GeofenceEvent.disasterType := None;
            GeofenceEvent.severity := None;
            GeofenceEvent.zoneName :=
              Some ("ERROR: " ++ TaskError.message error)%string |}
         (logs_of w).
Proof. repeat split. Qed.

(** The callback whose data lack an event type, a region or an
    identifier: one warning on the console, nothing else. *)
Lemma GEOFENCE_TASK_handler_incomplete data w :
  incomplete data = true ->
  let w' :=
    exec (GEOFENCE_TASK_handler isoTime Platform_OS catalog data None) w in
  storedZoneState w' = storedZoneState w
  /\ scheduled w' = scheduled w
  /\ storedLogs w' = storedLogs w
  /\ exists message, console w' = console w ++ [(Warn, message)].
Proof.
  unfold incomplete, signalIdentifier.
  destruct data as [[[eventType|] [[[[|c zoneId]|] ? ? ? ? ?]|]]|];
    cbn; intros Hincomplete; try done; repeat split; by eexists.
Qed.

(** The callback that names no zone of the catalog: one warning on the
    console, nothing else. *)
Lemma GEOFENCE_TASK_handler_unknown eventType region zoneId w :
  LocationRegion.identifier region = Some zoneId ->
  zoneId <> "" ->
  getGeofenceDetails catalog zoneId = None ->
  let data :=
    Some {| GeofenceTaskData.eventType := Some eventType;
            GeofenceTaskData.region := Some region |} in
  let w' :=
    exec (GEOFENCE_TASK_handler isoTime Platform_OS catalog data None) w in
  storedZoneState w' = storedZoneState w
  /\ scheduled w' = scheduled w
  /\ storedLogs w' = storedLogs w
  /\ console w' = console w ++ [(Warn, "Unknown geofence identifier:")].
Proof.
  intros Hid Hne Hget. cbn zeta. unfold GEOFENCE_TASK_handler.
  cbn [mbind option_bind GeofenceTaskData.eventType GeofenceTaskData.region].
  rewrite Hid. destruct zoneId as [|c zoneId]; [done |]. rewrite Hget.
  repeat split.
Qed.

(** The cases of a callback. *)
Lemma GEOFENCE_TASK_handler_cases data error :
  (exists e, error = Some e)
  \/ (error = None /\ incomplete data = true)
  \/ (exists eventType region zoneId,
        error = None
        /\ data = Some {| GeofenceTaskData.eventType := Some eventType;
                          GeofenceTaskData.region := Some region |}
        /\ LocationRegion.identifier region = Some zoneId
        /\ zoneId <> "").
Proof.
  destruct error as [e|]; [left; by eexists |]. right.
  unfold incomplete, signalIdentifier.
  destruct data as [[[eventType|] [[[[|c zoneId]|] ? ? ? ? ?]|]]|];
    cbn; auto.
  right. by eexists _, _, _.
Qed.

Lemma getGeofenceDetails_Some zoneId g :
  getGeofenceDetails catalog zoneId = Some g ->
  g ∈ catalog /\ DisasterGeofence.identifier g = zoneId.
Proof.
  unfold getGeofenceDetails. intros Hfind.
  apply find_some in Hfind as [Hin Heq].
  split; [by apply list_elem_of_In | by apply bool_decide_eq_true in Heq].
Qed.

(** C3. Processing a background callback changes the membership in the
    occupancy of no identifier but the one the callback names: whatever
    the data and the error, every other identifier is in the occupancy
    afterwards if and only if it was before.  For a complete signal on a
    zone of the catalog the named identifier is in the occupancy after an
    ENTER, and absent from it after an EXIT (the occupancy holding no
    identifier twice).  The callback takes no point and no [Math]: it
    evaluates no containment. *)
Theorem GEOFENCE_TASK_handler_frame data error w :
  let w' :=
    exec (GEOFENCE_TASK_handler isoTime Platform_OS catalog data error) w in
  (forall x, signalIdentifier data <> Some x ->
     x ∈ occupancy w' <-> x ∈ occupancy w)
  /\ (forall region zoneId g,
        error = None ->
        data = Some {| GeofenceTaskData.eventType :=
                         Some GeofencingEventType.Enter;
                       GeofenceTaskData.region := Some region |} ->
        LocationRegion.identifier region = Some zoneId ->
        zoneId <> "" ->
        getGeofenceDetails catalog zoneId = Some g ->
        zoneId ∈ occupancy w')
  /\ (forall region zoneId g,
        error = None ->
        data = Some {| GeofenceTaskData.eventType :=
                         Some GeofencingEventType.Exit;
                       GeofenceTaskData.region := Some region |} ->
        LocationRegion.identifier region = Some zoneId ->
        zoneId <> "" ->
        getGeofenceDetails catalog zoneId = Some g ->
        NoDup (occupancy w) ->
        zoneId ∉ occupancy w').
Proof.
  cbn zeta. split; [| split].
  - intros x Hother.
    destruct (GEOFENCE_TASK_handler_cases data error)
      as [[e ->] | [[-> Hincomplete] | (eventType & region & zoneId
                                        & -> & -> & Hid & Hne)]].
    + destruct (GEOFENCE_TASK_handler_error data e w) as (Hz & _).
      unfold occupancy. by rewrite Hz.
    + destruct (GEOFENCE_TASK_handler_incomplete data w Hincomplete)
        as (Hz & _).
      unfold occupancy. by rewrite Hz.
    + assert (Hx : x <> zoneId).
      { intros ->. apply Hother. unfold signalIdentifier. cbn. done. }
      destruct (getGeofenceDetails catalog zoneId) as [g|] eqn:Hget.
      * destruct (GEOFENCE_TASK_handler_signal eventType region zoneId g w
                    Hid Hne Hget) as (Ho & _).
        cbn zeta in Ho. rewrite Ho. destruct eventType.
        -- destruct (includes (occupancy w) zoneId); [done |].
           rewrite elem_of_app, list_elem_of_singleton. naive_solver.
        -- destruct (indexOf (occupancy w) zoneId) as [index|] eqn:Hindex;
             [| done].
           eapply elem_of_delete_ne; [by apply indexOf_Some | done].
      * destruct (GEOFENCE_TASK_handler_unknown eventType region zoneId w
                    Hid Hne Hget) as (Hz & _).
        unfold occupancy. by rewrite Hz.
  - intros region zoneId g -> -> Hid Hne Hget.
    destruct (GEOFENCE_TASK_handler_signal GeofencingEventType.Enter region
                zoneId g w Hid Hne Hget) as (Ho & _).
    cbn zeta in Ho. rewrite Ho. unfold includes. case_bool_decide; [done |].
    rewrite elem_of_app, list_elem_of_singleton. by right.
  - intros region zoneId g -> -> Hid Hne Hget Hdup.
    destruct (GEOFENCE_TASK_handler_signal GeofencingEventType.Exit region
                zoneId g w Hid Hne Hget) as (Ho & _).
    cbn zeta in Ho. rewrite Ho.
    destruct (indexOf (occupancy w) zoneId) as [index|] eqn:Hindex.
    + apply not_elem_of_delete_NoDup; [done | by apply indexOf_Some].
    + by apply indexOf_None.
Qed.

Context (Math : MathObject).

(** C8. When the positioning collaborator fails, the pass leaves the
    stored occupancy state as it was, dispatches no alert, and logs a
    diagnostic:
    - the initial check whose current-point query is rejected logs an
      error line on the console;
    - the background callback that carries an error logs an error line
      on the console and an entry whose zone name is the error message
      in the event log;
    - the background callback whose data lack an event type, a region or
      an identifier logs a warning line on the console. *)
Theorem positioning_failure_no_state_change_no_alert w :
  (forall message,
     let w' :=
       exec (checkInitialPosition Math isoTime Platform_OS catalog
               (PositionError message)) w in
     storedZoneState w' = storedZoneState w
     /\ scheduled w' = scheduled w
     /\ storedLogs w' = storedLogs w
     /\ console w'
        = console w
          ++ [(Error, (CROSS_MARK ++ " Error checking initial position:")%string)])
  /\ (forall data (error : TaskError.t),
        let w' :=
          exec (GEOFENCE_TASK_handler isoTime Platform_OS catalog data
                  (Some error)) w in
        storedZoneState w' = storedZoneState w
        /\ scheduled w' = scheduled w
        /\ console w' = console w ++ [(Error, "Geofence task error:")]
        /\ exists event,
             logs_of w' = log_push event (logs_of w)
             /\ GeofenceEvent.zoneName event
                = Some ("ERROR: " ++ TaskError.message error)%string)
  /\ (forall data,
        incomplete data = true ->
        let w' :=
          exec (GEOFENCE_TASK_handler isoTime Platform_OS catalog data None)
            w in
        storedZoneState w' = storedZoneState w
        /\ scheduled w' = scheduled w
        /\ storedLogs w' = storedLogs w
        /\ exists message, console w' = console w ++ [(Warn, message)]).
Proof.
  split; [| split].
  - intros message. repeat split.
  - intros data error.
    destruct (GEOFENCE_TASK_handler_error data error w)
      as (Hz & Hs & Hc & Hl).
    repeat split; try done. eexists. split; [exact Hl | reflexivity].
  - intros data Hincomplete.
    by apply GEOFENCE_TASK_handler_incomplete.
Qed.

End Signal.

(** ** Containment *)

Section Containment.

Context (Math : MathObject) (isoTime : nat -> string) (Platform_OS : string).
Context (catalog : list DisasterGeofence.t).

Local Open Scope float_scope.

(** [<=] on binary64 numbers holds exactly when [<] or [==] does; all
    three are false when an operand is NaN. *)
Lemma float_leb_ltb_eqb (d r : float) :
  (d <=? r) = true <-> (d <? r) = true \/ (d =? r) = true.
Proof.
  rewrite FloatAxioms.leb_spec, FloatAxioms.ltb_spec, FloatAxioms.eqb_spec.
  unfold SFleb, SFltb, SFeqb.
  destruct (SFcompare (Prim2SF d) (Prim2SF r)) as [[]|]; naive_solver.
Qed.

(** C9. With zone identifiers unique in the catalog, a point-based pass
    (at either call site) records a zone of the catalog as occupied if and
    only if the distance computed from the observed point and the centre
    of the zone is less than or equal to the radius of the zone, the
    comparison being [<=] of binary64 numbers: it holds when the distance
    is below the radius and when it equals the radius.  The distance is
    the haversine formula with the radius 6,371,000 of the Earth, its
    arguments the point first and the centre second. *)
Theorem containment_iff_haversine_le_radius
    (site : CallSite) (location : Coords.t) (w : World)
    (g : DisasterGeofence.t) :
  NoDup (DisasterGeofence.identifier <$> catalog) ->
  g ∈ catalog ->
  let distance :=
    calculateDistance Math
      (Coords.latitude location) (Coords.longitude location)
      (DisasterGeofence.latitude g) (DisasterGeofence.longitude g) in
  let w' := exec (pointPass Math isoTime Platform_OS catalog site location) w in
  (DisasterGeofence.identifier g ∈ occupancy w'
   <-> (distance <=? DisasterGeofence.radius g) = true)
  /\ ((distance <=? DisasterGeofence.radius g) = true
      <-> (distance <? DisasterGeofence.radius g) = true
          \/ (distance =? DisasterGeofence.radius g) = true)
  /\ (let toRad := fun d : float => d * Math_PI Math / 180 in
      let sin2 := fun x : float =>
        Number_exponentiate Math (Math_sin Math (x / 2)) 2 in
      let a :=
        sin2 (toRad (DisasterGeofence.latitude g - Coords.latitude location))
        + Math_cos Math (toRad (Coords.latitude location))
          * Math_cos Math (toRad (DisasterGeofence.latitude g))
          * sin2 (toRad (DisasterGeofence.longitude g
                         - Coords.longitude location)) in
      distance
      = 6371000 * 2
        * Math_atan2 Math (Math_sqrt Math a) (Math_sqrt Math (1 - a))).
Proof.
  intros Hdup Hg. cbn zeta. split; [| split].
  - destruct (pointPass_exec Math isoTime Platform_OS catalog site location w)
      as (_ & _ & Ho & _).
    rewrite Ho, currentlyInside_elem_of. unfold isInside. split.
    + intros (g' & Hg' & Heq & Hin).
      assert (g' = g) as -> by eauto using NoDup_fmap_elem_eq. done.
    + intros Hin. by exists g.
  - apply float_leb_ltb_eqb.
  - reflexivity.
Qed.

End Containment.

(** ** The notify flags *)

Section NotifyFlags.

Context (Math : MathObject) (isoTime : nat -> string) (Platform_OS : string).
Context (catalog : list DisasterGeofence.t).

Lemma for_of_Forall2 {A S} (R : A -> A -> Prop) (body : A -> S -> Async S)
    (xs ys : list A) :
  (forall x y s w, R x y -> body x s w = body y s w) ->
  Forall2 R xs ys ->
  forall s w, for_of xs body s w = for_of ys body s w.
Proof.
  intros Hbody. induction 1 as [|x y xs ys HR _ IH]; intros s w; [done |].
  cbn. unfold mbind, Async_bind. rewrite (Hbody x y s w HR).
  destruct (body y s w) as [s' w']. apply IH.
Qed.

Lemma checkInitialPosition_body_flags location state g g' acc w :
  sameButFlags g g' ->
  checkInitialPosition_body Math isoTime Platform_OS location state g acc w
  = checkInitialPosition_body Math isoTime Platform_OS location state g' acc w.
Proof.
  destruct g, g'. unfold sameButFlags. cbn.
  intros (-> & -> & -> & -> & -> & -> & ->). reflexivity.
Qed.

Lemma handleLocationUpdate_body_flags location state g g' acc w :
  sameButFlags g g' ->
  handleLocationUpdate_body Math isoTime Platform_OS location state g acc w
  = handleLocationUpdate_body Math isoTime Platform_OS location state g' acc w.
Proof.
  destruct g, g'. unfold sameButFlags. cbn.
  intros (-> & -> & -> & -> & -> & -> & ->). reflexivity.
Qed.

(** A point-based pass does the same on two catalogs that differ in the
    flags only. *)
Lemma pointPass_flags catalog' site location w :
  Forall2 sameButFlags catalog catalog' ->
  pointPass Math isoTime Platform_OS catalog site location w
  = pointPass Math isoTime Platform_OS catalog' site location w.
Proof.
  intros Hsame. destruct site; cbn [pointPass].
  - unfold checkInitialPosition, mbind, Async_bind.
    destruct (getZoneState isoTime w) as [state w1].
    by rewrite (for_of_Forall2 sameButFlags _ catalog catalog'
                  (fun g g' s w => checkInitialPosition_body_flags
                                     location state g g' s w)).
  - unfold handleLocationUpdate, mbind, Async_bind.
    destruct (getZoneState isoTime w) as [state w1].
    by rewrite (for_of_Forall2 sameButFlags _ catalog catalog'
                  (fun g g' s w => handleLocationUpdate_body_flags
                                     location state g g' s w)).
Qed.

(** C10. A point-based pass (at either call site) does not depend on the
    notify flags of the zones: it does the same on every catalog that
    differs from the given one in the flags only; in particular a zone
    with notify-on-enter off that contains the point and was not in the
    occupancy gets its ENTER alert, and a zone with notify-on-exit off
    that does not contain the point and was in the occupancy gets its EXIT
    alert.  The regions prepared for the background registration carry
    the two flags of their zones. *)
Theorem pointPass_ignores_notify_flags
    (site : CallSite) (location : Coords.t) (w : World) :
  let w' := exec (pointPass Math isoTime Platform_OS catalog site location) w in
  (forall catalog',
     Forall2 sameButFlags catalog catalog' ->
     pointPass Math isoTime Platform_OS catalog' site location w
     = pointPass Math isoTime Platform_OS catalog site location w)
  /\ (forall g,
        g ∈ catalog ->
        DisasterGeofence.notifyOnEnter g = false ->
        isInside Math location g = true ->
        DisasterGeofence.identifier g ∉ occupancy w ->
        exists alerts,
          scheduled w' = scheduled w ++ alerts
          /\ DisasterGeofence.identifier g ∈ alertedZones ENTER alerts)
  /\ (forall g,
        g ∈ catalog ->
        DisasterGeofence.notifyOnExit g = false ->
        isInside Math location g = false ->
        DisasterGeofence.identifier g ∈ occupancy w ->
        exists alerts,
          scheduled w' = scheduled w ++ alerts
          /\ DisasterGeofence.identifier g ∈ alertedZones EXIT alerts)
  /\ LocationRegion.notifyOnEnter <$> regions_of_catalog catalog
     = (fun g => Some (DisasterGeofence.notifyOnEnter g)) <$> catalog
  /\ LocationRegion.notifyOnExit <$> regions_of_catalog catalog
     = (fun g => Some (DisasterGeofence.notifyOnExit g)) <$> catalog.
Proof.
  cbn zeta.
  destruct (pointPass_exec Math isoTime Platform_OS catalog site location w)
    as (Hs & _).
  split; [intros catalog' Hsame; symmetry; by apply pointPass_flags |].
  split; [| split; [| split]].
  - intros g Hg _ Hin Hprev. eexists. split; [exact Hs |].
    rewrite alertedZones_passAlerts, entered_transitions.
    apply list_elem_of_difference. split; [| done].
    apply currentlyInside_elem_of. eauto.
  - intros g Hg _ Hout Hprev. eexists. split; [exact Hs |].
    rewrite alertedZones_passAlerts, exited_transitions.
    apply list_elem_of_fmap. exists g. split; [done |].
    by apply list_elem_of_filter.
  - unfold regions_of_catalog. rewrite <- list_fmap_compose. done.
  - unfold regions_of_catalog. rewrite <- list_fmap_compose. done.
Qed.

End NotifyFlags.

(** ** The session controller *)

Section Controller.

Context (Math : MathObject) (isoTime : nat -> string) (Platform_OS : string).
Context (catalog : list DisasterGeofence.t).

Implicit Types (w : World).

(** [stopGeofencing] on a registered background watch: the foreground
    watch is stopped, the background watch unregistered, the occupancy
    state removed. *)
Lemma stopGeofencing_registered w regions :
  geofencingTask w = Some regions ->
  let w' := exec stopGeofencing w in
  storedZoneState w' = None
  /\ occupancy w' = []
  /\ geofencingTask w' = None
  /\ locationSubscription w' = false
  /\ storedLogs w' = storedLogs w
  /\ scheduled w' = scheduled w.
Proof.
  intros Hreg. unfold stopGeofencing, stopLocationWatching,
    isTaskRegisteredAsync, occupancy, exec, gets, mbind, Async_bind.
  destruct (locationSubscription w) eqn:Hsub; cbn; rewrite Hreg; cbn;
    repeat split; done.
Qed.

(** [stopGeofencing] when the background watch is not registered: the
    function returns after stopping the foreground watch, and the stored
    occupancy state stays. *)
Lemma stopGeofencing_not_registered w :
  geofencingTask w = None ->
  let w' := exec stopGeofencing w in
  storedZoneState w' = storedZoneState w
  /\ occupancy w' = occupancy w
  /\ geofencingTask w' = None
  /\ locationSubscription w' = false
  /\ storedLogs w' = storedLogs w
  /\ scheduled w' = scheduled w.
Proof.
  intros Hreg. unfold stopGeofencing, stopLocationWatching,
    isTaskRegisteredAsync, occupancy, exec, gets, mbind, Async_bind.
  destruct (locationSubscription w) eqn:Hsub; cbn; rewrite Hreg; cbn;
    repeat split; done.
Qed.

Lemma startLocationWatching_exec w :
  exec startLocationWatching w = set_locationSubscription true w.
Proof.
  unfold startLocationWatching, exec, gets, mbind, Async_bind.
  by destruct (locationSubscription w).
Qed.

(** [startGeofencing] with a permission refused rejects and touches
    neither the occupancy, nor the registration, nor the alerts. *)
Lemma startGeofencing_denied fg bg notif debugPosition initialPosition w :
  fg <> granted \/ bg <> granted \/ notif <> granted ->
  let m :=
    startGeofencing Math isoTime Platform_OS catalog fg bg notif
      debugPosition initialPosition in
  is_Some (eval m w)
  /\ storedZoneState (exec m w) = storedZoneState w
  /\ geofencingTask (exec m w) = geofencingTask w
  /\ scheduled (exec m w) = scheduled w
  /\ storedLogs (exec m w) = storedLogs w
  /\ locationSubscription (exec m w) = locationSubscription w.
Proof.
  intros Hdenied. cbn zeta. unfold startGeofencing.
  repeat case_bool_decide; try (by repeat split); naive_solver.
Qed.

(** [startGeofencing] with the three permissions granted: the world it
    leaves is the one of the initial check, run on the world in which the
    background watch has been registered anew with the regions of the
    catalog, followed by the start of the foreground watch. *)
Lemma startGeofencing_granted debugPosition initialPosition w :
  let m :=
    startGeofencing Math isoTime Platform_OS catalog granted granted granted
      debugPosition initialPosition in
  exists w0,
    storedZoneState w0 = storedZoneState w
    /\ storedLogs w0 = storedLogs w
    /\ scheduled w0 = scheduled w
    /\ geofencingTask w0 = Some (regions_of_catalog catalog)
    /\ exec m w
       = set_locationSubscription true
           (exec (checkInitialPosition Math isoTime Platform_OS catalog
                    initialPosition) w0)
    /\ eval m w = None.
Proof.
  cbn zeta. unfold startGeofencing.
  rewrite !bool_decide_eq_false_2 by (intros H; by apply H).
  rewrite !eval_bind, !exec_bind.
  set (w0 := exec (match debugPosition with
                   | PositionOk _ => mret tt
                   | PositionError _ =>
                       console_warn
                         (WARNING_SIGN ++ " Could not get current location:")
                   end) _).
  exists w0. subst w0.
  unfold ensureAndroidChannel, isTaskRegisteredAsync.
  rewrite !eval_bind, !exec_bind.
  destruct (bool_decide (Platform_OS ≠ "android"));
    destruct (geofencingTask w) as [regions|] eqn:Hreg;
    destruct debugPosition as [location|message]; cbn;
    rewrite ?Hreg; cbn; repeat split; apply startLocationWatching_exec.
Qed.

Local Abbreviation invariant := (serviceInvariant catalog).

Lemma serviceInvariant_ext w w' :
  storedZoneState w' = storedZoneState w ->
  storedLogs w' = storedLogs w ->
  invariant w -> invariant w'.
Proof.
  unfold serviceInvariant, occupancy, logs_of. by intros -> ->.
Qed.

Lemma log_push_bounded event logs :
  length logs <= 50 -> length (log_push event logs) <= 50.
Proof.
  intros Hlen. rewrite log_push_take by done. rewrite length_take. lia.
Qed.

Lemma pointPass_invariant site location w :
  NoDup (DisasterGeofence.identifier <$> catalog) ->
  invariant w ->
  invariant (exec (pointPass Math isoTime Platform_OS catalog site location) w).
Proof.
  intros Hdup (_ & _ & Hlen).
  destruct (pointPass_exec Math isoTime Platform_OS catalog site location w)
    as (_ & Hl & Ho & _).
  split; [| split].
  - rewrite Ho. by apply currentlyInside_NoDup.
  - intros x. rewrite Ho.
    intros (g & Hg & <- & _)%currentlyInside_elem_of.
    by apply list_elem_of_fmap_2.
  - rewrite Hl, foldl_log_push by done. rewrite length_take. lia.
Qed.

Lemma checkInitialPosition_invariant position w :
  NoDup (DisasterGeofence.identifier <$> catalog) ->
  invariant w ->
  invariant (exec (checkInitialPosition Math isoTime Platform_OS catalog
                     position) w).
Proof.
  intros Hdup Hinv. destruct position as [location|message].
  - by apply (pointPass_invariant InitialCheck).
  - by apply (serviceInvariant_ext w).
Qed.

Lemma GEOFENCE_TASK_handler_invariant data error w :
  invariant w ->
  invariant (exec (GEOFENCE_TASK_handler isoTime Platform_OS catalog data
                     error) w).
Proof.
  intros (Hdup & Hknown & Hlen).
  destruct (GEOFENCE_TASK_handler_cases data error)
    as [[e ->] | [[-> Hincomplete] | (eventType & region & zoneId
                                      & -> & -> & Hid & Hne)]].
  - destruct (GEOFENCE_TASK_handler_error isoTime Platform_OS catalog data e w)
      as (Hz & _ & _ & Hl).
    unfold serviceInvariant, occupancy. rewrite Hz, Hl.
    split; [done |]. split; [done |]. by apply log_push_bounded.
  - destruct (GEOFENCE_TASK_handler_incomplete isoTime Platform_OS catalog
                data w Hincomplete) as (Hz & _ & Hl & _).
    by apply (serviceInvariant_ext w).
  - destruct (getGeofenceDetails catalog zoneId) as [g|] eqn:Hget.
    + destruct (GEOFENCE_TASK_handler_signal isoTime Platform_OS catalog
                  eventType region zoneId g w Hid Hne Hget)
        as (Ho & _ & (e & Hl & _) & _).
      cbn zeta in *. unfold serviceInvariant. rewrite Ho, Hl.
      apply getGeofenceDetails_Some in Hget as [Hg <-].
      split; [| split; [| by apply log_push_bounded]].
      * destruct eventType.
        -- unfold includes. case_bool_decide as Hin; [done |].
           apply NoDup_app. split; [done |].
           split; [| apply NoDup_singleton].
           intros x Hx ->%list_elem_of_singleton. done.
        -- destruct (indexOf (occupancy w) (DisasterGeofence.identifier g));
             [| done].
           eapply sublist_NoDup; [exact Hdup | apply sublist_delete].
      * intros x. destruct eventType.
        -- unfold includes. case_bool_decide as Hin; [by apply Hknown |].
           intros [Hx | ->%list_elem_of_singleton]%elem_of_app;
             [by apply Hknown | by apply list_elem_of_fmap_2].
        -- destruct (indexOf (occupancy w) (DisasterGeofence.identifier g));
             [| by apply Hknown].
           intros Hx. apply Hknown.
           eapply elem_of_sublist; [exact Hx | apply sublist_delete].
    + destruct (GEOFENCE_TASK_handler_unknown isoTime Platform_OS catalog
                  eventType region zoneId w Hid Hne Hget) as (Hz & _ & Hl & _).
      by apply (serviceInvariant_ext w).
Qed.

Lemma stopGeofencing_invariant w :
  invariant w -> invariant (exec stopGeofencing w).
Proof.
  intros Hinv. destruct (geofencingTask w) as [regions|] eqn:Hreg.
  - destruct (stopGeofencing_registered w regions Hreg)
      as (_ & Ho & _ & _ & Hl & _).
    destruct Hinv as (_ & _ & Hlen). unfold serviceInvariant, logs_of in *.
    rewrite Ho, Hl. split; [constructor |]. split; [| done].
    by intros x ?%elem_of_nil.
  - destruct (stopGeofencing_not_registered w Hreg)
      as (Hz & _ & _ & _ & Hl & _).
    by apply (serviceInvariant_ext w).
Qed.

Lemma startGeofencing_invariant fg bg notif debugPosition initialPosition w :
  NoDup (DisasterGeofence.identifier <$> catalog) ->
  invariant w ->
  invariant (exec (startGeofencing Math isoTime Platform_OS catalog
                     fg bg notif debugPosition initialPosition) w).
Proof.
  intros Hdup Hinv.
  destruct (decide (fg = granted /\ bg = granted /\ notif = granted))
    as [(-> & -> & ->) | Hdenied].
  - destruct (startGeofencing_granted debugPosition initialPosition w)
      as (w0 & Hz & Hl & _ & _ & -> & _).
    eapply serviceInvariant_ext; [..| apply checkInitialPosition_invariant;
      [done | by apply (serviceInvariant_ext w)]]; reflexivity.
  - destruct (startGeofencing_denied fg bg notif debugPosition initialPosition w)
      as (_ & Hz & _ & _ & Hl & _).
    { destruct (decide (fg = granted)); [| by left].
      destruct (decide (bg = granted)); [| by right; left].
      destruct (decide (notif = granted)); [| by right; right].
      by destruct Hdenied. }
    by apply (serviceInvariant_ext w).
Qed.

Lemma run_invariant (c : Call) w :
  NoDup (DisasterGeofence.identifier <$> catalog) ->
  invariant w ->
  invariant (exec (run Math isoTime Platform_OS catalog c) w).
Proof.
  intros Hdup Hinv. destruct c; cbn [run].
  - rewrite exec_bind. by apply startGeofencing_invariant.
  - by apply stopGeofencing_invariant.
  - by apply checkInitialPosition_invariant.
  - by apply GEOFENCE_TASK_handler_invariant.
  - by apply (pointPass_invariant ForegroundWatch).
  - destruct Hinv as (? & ? & _). repeat split; try done. cbn. lia.
Qed.

(** X12. With zone identifiers unique in the catalog, after every history
    of calls from the first installation the occupancy on record names
    zones of the catalog, each once, and the event log holds at most 50
    entries. *)
Lemma occupancy_in_catalog_invariant (calls : list Call) :
  NoDup (DisasterGeofence.identifier <$> catalog) ->
  invariant (runAll Math isoTime Platform_OS catalog calls).
Proof.
  intros Hdup. unfold runAll.
  induction calls as [|c calls IH] using rev_ind.
  - split; [constructor |]. split; [by intros x ?%elem_of_nil | cbn; lia].
  - rewrite foldl_app. cbn [foldl]. by apply run_invariant.
Qed.

End Controller.

(** ** The statements on the sample runs *)

Section SampleRuns.

Import Scenario.

Local Abbreviation handleLocationUpdate' :=
  (handleLocationUpdate SampleMath.Math clock OS TEST_GEOFENCES).
Local Abbreviation pointPass' :=
  (pointPass SampleMath.Math clock OS TEST_GEOFENCES).
Local Abbreviation handler' := (GEOFENCE_TASK_handler clock OS TEST_GEOFENCES).

Lemma TEST_GEOFENCES_identifiers_NoDup :
  NoDup (DisasterGeofence.identifier <$> TEST_GEOFENCES).
Proof. apply (bool_decide_unpack _). vm_compute. reflexivity. Qed.

(** The scenario of C1: from the occupancy {flood, evacuation} to a point
    inside {flood, fire}, the handler dispatches one EXIT for the
    evacuation zone and one ENTER for the fire zone, logs the two
    entries, and writes {fire, flood}. *)
Example diff_scenario :
  let w' := exec (handleLocationUpdate' southWest) afterCheckNorthWest in
  occupancy afterCheckNorthWest
  = ["flood-derby-center"; "evacuation-zone-north"]
  /\ currentlyInside SampleMath.Math TEST_GEOFENCES southWest
     = ["flood-derby-center"; "fire-risk-west"]
  /\ alertKey <$> drop (length (scheduled afterCheckNorthWest)) (scheduled w')
     = [(EXIT, "evacuation-zone-north"); (ENTER, "fire-risk-west")]
  /\ GeofenceEvent.type <$> take 2 (logs_of w') = [ENTER; EXIT]
  /\ drop 2 (logs_of w') = logs_of afterCheckNorthWest
  /\ occupancy w' = ["fire-risk-west"; "flood-derby-center"].
Proof. vm_compute. repeat split. Qed.

(** Leaving every zone: one EXIT per zone of the occupancy, in catalog
    order, and the occupancy is written empty. *)
Example leave_all_zones :
  let w' := exec (handleLocationUpdate' london) afterCheckNorthWest in
  currentlyInside SampleMath.Math TEST_GEOFENCES london = []
  /\ alertKey <$> drop (length (scheduled afterCheckNorthWest)) (scheduled w')
     = [(EXIT, "flood-derby-center"); (EXIT, "evacuation-zone-north")]
  /\ occupancy w' = [].
Proof. vm_compute. repeat split. Qed.

(** The witness of C1, on the scenario of [diff_scenario]. *)
Lemma handleLocationUpdate_diff_witness :
  exists alerts,
    scheduled (exec (handleLocationUpdate' southWest) afterCheckNorthWest)
    = scheduled afterCheckNorthWest ++ alerts
    /\ alertedZones ENTER alerts = ["fire-risk-west"]
    /\ (forall x, x ∈ alertedZones EXIT alerts
                  <-> x ∈ ["evacuation-zone-north"])
    /\ occupancy (exec (handleLocationUpdate' southWest) afterCheckNorthWest)
       ≡ₚ ["flood-derby-center"; "fire-risk-west"].
Proof.
  destruct (handleLocationUpdate_diff SampleMath.Math clock OS TEST_GEOFENCES
              southWest afterCheckNorthWest)
    as (alerts & events & Hs & _ & Henter & _ & Hexit & _ & _ & _ & Hocc).
  - apply (bool_decide_unpack _). vm_compute. reflexivity.
  - apply Forall_forall, (bool_decide_unpack _). vm_compute. reflexivity.
  - exists alerts. split; [exact Hs |]. split; [exact Henter |].
    split; [exact Hexit | exact Hocc].
Defined.

(** The witness of C2: the initial check and then the foreground handler,
    both at the centre of the flood zone, on a fresh installation. *)
Lemma pointPass_idempotent_witness :
  let w1 := exec (pointPass' InitialCheck centre) initialWorld in
  let w2 := exec (pointPass' ForegroundWatch centre) w1 in
  scheduled w2 = scheduled w1
  /\ logs_of w2 = logs_of w1
  /\ occupancy w2 ≡ₚ occupancy w1.
Proof.
  apply (pointPass_idempotent SampleMath.Math clock OS TEST_GEOFENCES
           InitialCheck ForegroundWatch centre initialWorld).
  apply (bool_decide_unpack _). vm_compute. reflexivity.
Defined.

(** The witness of C3: the callback for the fire zone leaves the flood
    zone in the occupancy. *)
Lemma GEOFENCE_TASK_handler_frame_witness :
  "flood-derby-center"
    ∈ occupancy (exec (handler' enterFire None) afterCheckNorthWest)
  <-> "flood-derby-center" ∈ occupancy afterCheckNorthWest.
Proof.
  apply (proj1 (GEOFENCE_TASK_handler_frame clock OS TEST_GEOFENCES
                  enterFire None afterCheckNorthWest) "flood-derby-center").
  vm_compute. discriminate.
Defined.

(** The witness of C5: 51 events logged on a fresh installation. *)
Lemma logEvent_bounded_witness :
  logs_of (exec (logEvents events51) initialWorld)
  = take 50 (reverse events51 ++ logs_of initialWorld)
  /\ length (logs_of (exec (logEvents events51) initialWorld)) <= 50.
Proof.
  destruct (logEvent_bounded_most_recent_first events51 initialWorld)
    as (Hlog & Hlen & _).
  - cbn. lia.
  - split; [exact Hlog | exact Hlen].
Defined.

(** After the 51 events the log holds the 50 last ones, the last first,
    and the first event is gone. *)
Example log_51_events :
  GeofenceEvent.timestamp <$> logs_of (exec (logEvents events51) initialWorld)
  = (fun n => clock (50 - n)) <$> seq 0 50.
Proof. vm_compute. reflexivity. Qed.

(** The witness of C8: a callback without a region. *)
Lemma positioning_failure_witness :
  storedZoneState (exec (handler' noRegion None) afterCheckNorthWest)
  = storedZoneState afterCheckNorthWest
  /\ scheduled (exec (handler' noRegion None) afterCheckNorthWest)
     = scheduled afterCheckNorthWest.
Proof.
  destruct (proj2 (proj2 (positioning_failure_no_state_change_no_alert
                            clock OS TEST_GEOFENCES SampleMath.Math
                            afterCheckNorthWest)) noRegion)
    as (Hz & Hs & _).
  - reflexivity.
  - split; [exact Hz | exact Hs].
Defined.

(** The witness of C9: 500 m south of the centre of the flood zone, whose
    radius is 1000 m, the zone is recorded as occupied. *)
Lemma containment_witness :
  "flood-derby-center"
    ∈ occupancy (exec (pointPass' ForegroundWatch south500) initialWorld).
Proof.
  apply (proj1 (containment_iff_haversine_le_radius SampleMath.Math clock OS
                  TEST_GEOFENCES ForegroundWatch south500 initialWorld
                  {| DisasterGeofence.identifier := "flood-derby-center";
                     DisasterGeofence.type := FLOOD;
                     DisasterGeofence.severity := HIGH;
                     DisasterGeofence.latitude := 52.9225;
                     DisasterGeofence.longitude := -1.4746;
                     DisasterGeofence.radius := 1000;
                     DisasterGeofence.notifyOnEnter := true;
                     DisasterGeofence.notifyOnExit := true;
                     DisasterGeofence.description :=
                       "Derby City Centre - High Flood Risk Zone" |}
                  TEST_GEOFENCES_identifiers_NoDup
                  ltac:(unfold TEST_GEOFENCES; left))).
  vm_compute. reflexivity.
Defined.

(** The scenario of the spec: 500 m from the centre, an empty occupancy:
    one ENTER, and the occupancy becomes the zone. *)
Example south500_scenario :
  let w' := exec (pointPass' ForegroundWatch south500) initialWorld in
  (calculateDistance SampleMath.Math 52.918 (-1.4746) 52.9225 (-1.4746)
   <=? 501)%float = true
  /\ alertKey <$> scheduled w' = [(ENTER, "flood-derby-center")]
  /\ occupancy w' = ["flood-derby-center"].
Proof. vm_compute. repeat split. Qed.

(** The witness of C10: with every notify flag off, the initial check at
    the centre of the flood zone dispatches the ENTER alert of the zone. *)
Lemma pointPass_ignores_notify_flags_witness :
  exists alerts,
    scheduled (exec (pointPass SampleMath.Math clock OS quietCatalog
                       InitialCheck centre) initialWorld)
    = scheduled initialWorld ++ alerts
    /\ "flood-derby-center" ∈ alertedZones ENTER alerts.
Proof.
  apply (proj1 (proj2 (pointPass_ignores_notify_flags SampleMath.Math clock OS
                         quietCatalog InitialCheck centre initialWorld))
           {| DisasterGeofence.identifier := "flood-derby-center";
              DisasterGeofence.type := FLOOD;
              DisasterGeofence.severity := HIGH;
              DisasterGeofence.latitude := 52.9225;
              DisasterGeofence.longitude := -1.4746;
              DisasterGeofence.radius := 1000;
              DisasterGeofence.notifyOnEnter := false;
              DisasterGeofence.notifyOnExit := false;
              DisasterGeofence.description :=
                "Derby City Centre - High Flood Risk Zone" |}).
  - vm_compute. left.
  - reflexivity.
  - vm_compute. reflexivity.
  - vm_compute. apply not_elem_of_nil.
Defined.

(** C4, as the code has it.  On the world that the exported initial
    check leaves on a fresh installation (the background watch is not
    registered, the occupancy holds two zones), [stopGeofencing] returns
    at its registration test and the stored occupancy stays; the next
    [startGeofencing] at the same place then finds the zones in the
    occupancy and dispatches no ENTER alert for them.  With the background
    watch registered the occupancy is cleared,
    [stopGeofencing_registered]. *)
Theorem stopGeofencing_not_registered_keeps_occupancy :
  let w := runAll SampleMath.Math clock OS TEST_GEOFENCES
             [CallInitialCheck (PositionOk northWest)] in
  let w' := exec stopGeofencing w in
  let w'' :=
    exec (startGeofencing SampleMath.Math clock OS TEST_GEOFENCES
            granted granted granted (PositionOk northWest)
            (PositionOk northWest)) w' in
  geofencingTask w = None
  /\ occupancy w = ["flood-derby-center"; "evacuation-zone-north"]
  /\ occupancy w' = ["flood-derby-center"; "evacuation-zone-north"]
  /\ storedZoneState w' <> None
  /\ currentlyInside SampleMath.Math TEST_GEOFENCES northWest
     = ["flood-derby-center"; "evacuation-zone-north"]
  /\ scheduled w'' = scheduled w'.
Proof. vm_compute. repeat split. discriminate. Qed.

(** The same history with the background watch registered: [stop] clears
    the occupancy and the next [start] is a cold start. *)
Example stop_then_start_registered :
  let start :=
    CallStart granted granted granted (PositionOk northWest)
      (PositionOk northWest) in
  let w' := runAll SampleMath.Math clock OS TEST_GEOFENCES [start; CallStop] in
  let w'' :=
    runAll SampleMath.Math clock OS TEST_GEOFENCES [start; CallStop; start] in
  storedZoneState w' = None
  /\ geofencingTask w' = None
  /\ locationSubscription w' = false
  /\ alertKey <$> drop (length (scheduled w')) (scheduled w'')
     = [(ENTER, "flood-derby-center"); (ENTER, "evacuation-zone-north")].
Proof. vm_compute. repeat split. Qed.

End SampleRuns.

(** * Further properties of the service *)

(** ** The lookup of a zone by its identifier *)

Section Lookup.

Context (catalog : list DisasterGeofence.t).

Lemma getGeofenceDetails_None (zoneId : string) :
  getGeofenceDetails catalog zoneId = None
  <-> zoneId ∉ DisasterGeofence.identifier <$> catalog.
Proof.
  unfold getGeofenceDetails. split.
  - intros Hfind (g & -> & Hg)%list_elem_of_fmap.
    apply list_elem_of_In in Hg.
    pose proof (find_none _ _ Hfind g Hg) as Hfalse. cbn in Hfalse.
    by rewrite bool_decide_eq_true_2 in Hfalse.
  - intros Hnot.
    destruct (find _ catalog) as [g|] eqn:Hfind; [| done].
    apply find_some in Hfind as [Hg Heq%bool_decide_eq_true].
    destruct Hnot. subst zoneId.
    by apply list_elem_of_fmap_2, list_elem_of_In.
Qed.

(** X1. [getGeofenceDetails] finds a zone exactly when the identifier is
    one of the catalog, and the zone found is a zone of the catalog with
    that identifier (the first one); with identifiers unique in the
    catalog, looking up the identifier of a zone of the catalog gives that
    very zone back. *)
Theorem getGeofenceDetails_lookup :
  (forall zoneId,
     getGeofenceDetails catalog zoneId = None
     <-> zoneId ∉ DisasterGeofence.identifier <$> catalog)
  /\ (forall zoneId g,
        getGeofenceDetails catalog zoneId = Some g ->
        g ∈ catalog /\ DisasterGeofence.identifier g = zoneId)
  /\ (NoDup (DisasterGeofence.identifier <$> catalog) ->
      forall g, g ∈ catalog ->
        getGeofenceDetails catalog (DisasterGeofence.identifier g) = Some g).
Proof.
  split; [apply getGeofenceDetails_None |].
  split; [apply getGeofenceDetails_Some |].
  intros Hdup g Hg.
  destruct (getGeofenceDetails catalog (DisasterGeofence.identifier g))
    as [g'|] eqn:Hfind.
  - apply getGeofenceDetails_Some in Hfind as [Hg' Heq].
    f_equal. by eapply NoDup_fmap_elem_eq.
  - apply getGeofenceDetails_None in Hfind. destruct Hfind.
    by apply list_elem_of_fmap_2.
Qed.

End Lookup.

(** ** The closest zone *)

Section ClosestZone.

Context (Math : MathObject) (catalog : list DisasterGeofence.t).

Local Open Scope float_scope.

(** The order of binary64 numbers, from its specification. *)
Ltac compare_cases :=
  repeat match goal with
  | |- context [Z.compare ?a ?b] => destruct (Z.compare_spec a b)
  | H : context [Z.compare ?a ?b] |- _ => destruct (Z.compare_spec a b)
  | |- context [Pos.compare_cont Eq ?a ?b] =>
      change (Pos.compare_cont Eq a b) with (Pos.compare a b) in *;
      destruct (Pos.compare_spec a b)
  | H : context [Pos.compare_cont Eq ?a ?b] |- _ =>
      change (Pos.compare_cont Eq a b) with (Pos.compare a b) in *;
      destruct (Pos.compare_spec a b)
  end.

Lemma SFleb_trans (a b c : spec_float) :
  SFleb a b = true -> SFleb b c = true -> SFleb a c = true.
Proof.
  unfold SFleb, SFcompare.
  destruct a as [[]| []| |[] m1 e1], b as [[]| []| |[] m2 e2],
    c as [[]| []| |[] m3 e3];
    cbn; try done; intros H1 H2;
    compare_cases; subst; cbn in *; try done; lia.
Qed.

Lemma SFleb_of_not_ltb (a b : spec_float) :
  SFeqb a a = true -> SFeqb b b = true ->
  SFltb a b = false -> SFleb b a = true.
Proof.
  unfold SFleb, SFltb, SFeqb, SFcompare.
  destruct a as [[]| []| |[] m1 e1], b as [[]| []| |[] m2 e2];
    cbn; try done; intros _ _ H1;
    compare_cases; subst; cbn in *; try done; lia.
Qed.

Lemma float_leb_trans (a b c : float) :
  (a <=? b) = true -> (b <=? c) = true -> (a <=? c) = true.
Proof. rewrite !FloatAxioms.leb_spec. apply SFleb_trans. Qed.

Lemma float_leb_of_not_ltb (a b : float) :
  (a =? a) = true -> (b =? b) = true -> (a <? b) = false -> (b <=? a) = true.
Proof.
  rewrite !FloatAxioms.eqb_spec, FloatAxioms.ltb_spec, FloatAxioms.leb_spec.
  apply SFleb_of_not_ltb.
Qed.

Lemma float_leb_of_ltb (a b : float) : (a <? b) = true -> (a <=? b) = true.
Proof. intros H. apply float_leb_ltb_eqb. by left. Qed.

Lemma float_leb_refl (a : float) : (a =? a) = true -> (a <=? a) = true.
Proof. intros H. apply float_leb_ltb_eqb. by right. Qed.

(** What the loop keeps, from any zone kept so far: a zone is kept as
    soon as one was seen; the zone kept is the former one or a zone of the
    list, with its distance; and when the distances are numbers, the
    distance kept is at most the former one and at most the distance of
    every zone of the list. *)
Lemma closest_loop latitude longitude (zones : list DisasterGeofence.t)
    (acc : option Closest.t) :
  let r := foldl (closestStep Math latitude longitude) acc zones in
  (r = None <-> acc = None /\ zones = [])
  /\ (forall c, r = Some c ->
        acc = Some c
        \/ (Closest.geofence c ∈ zones
            /\ Closest.distance c
               = distanceTo Math latitude longitude (Closest.geofence c)))
  /\ (forall c, r = Some c ->
        (forall a, acc = Some a ->
           (Closest.distance a =? Closest.distance a) = true) ->
        (forall g, g ∈ zones ->
           (distanceTo Math latitude longitude g =? distanceTo Math latitude longitude g)
           = true) ->
        (forall a, acc = Some a ->
           (Closest.distance c <=? Closest.distance a) = true)
        /\ (forall g, g ∈ zones ->
              (Closest.distance c <=? distanceTo Math latitude longitude g) = true)).
Proof.
  revert acc; induction zones as [|g zones IH]; intros acc; cbn zeta.
  - cbn [foldl]. split; [naive_solver |]. split; [by left |].
    intros c -> Hacc _. split; [| by intros g ?%elem_of_nil].
    intros a [= <-]. by apply float_leb_refl, Hacc.
  - cbn [foldl].
    destruct (IH (closestStep Math latitude longitude acc g))
      as (Hnone & Hsome & Hmin). cbn zeta in *.
    set (r := foldl (closestStep Math latitude longitude)
                (closestStep Math latitude longitude acc g) zones) in *.
    split; [| split].
    + split; [| by intros [_ ?]].
      intros [Hstep _]%Hnone. unfold closestStep in Hstep.
      destruct acc as [a|]; [| done].
      by destruct (distanceTo Math latitude longitude g <? Closest.distance a).
    + intros c Hr. destruct (Hsome c Hr) as [Hstep | [Hin Hd]].
      * unfold closestStep in Hstep. destruct acc as [a|].
        -- destruct (distanceTo Math latitude longitude g <? Closest.distance a);
             simplify_eq/=; [right; split; [left | done] | by left].
        -- simplify_eq/=. right. split; [left | done].
      * right. split; [by right | done].
    + intros c Hr Hacc Hzones.
      assert (Hg : (distanceTo Math latitude longitude g
                    =? distanceTo Math latitude longitude g) = true)
        by (apply Hzones; left).
      destruct (Hmin c Hr) as [Hstep Hrest].
      { intros a Ha. unfold closestStep in Ha. destruct acc as [a0|].
        - destruct (distanceTo Math latitude longitude g <? Closest.distance a0);
            simplify_eq/=; [done | by apply Hacc].
        - by simplify_eq/=. }
      { intros g' Hg'. apply Hzones. by right. }
      split.
      * intros a ->. unfold closestStep in Hstep.
        destruct (distanceTo Math latitude longitude g <? Closest.distance a)
          eqn:Hlt.
        -- eapply float_leb_trans; [exact (Hstep _ eq_refl) |].
           by apply float_leb_of_ltb.
        -- exact (Hstep _ eq_refl).
      * intros g' [-> | Hg']%elem_of_cons; [| by apply Hrest].
        unfold closestStep in Hstep. destruct acc as [a|].
        -- destruct (distanceTo Math latitude longitude g <? Closest.distance a)
             eqn:Hlt.
           ++ exact (Hstep _ eq_refl).
           ++ eapply float_leb_trans; [exact (Hstep _ eq_refl) |].
              apply float_leb_of_not_ltb; [done | by apply Hacc | done].
        -- exact (Hstep _ eq_refl).
Qed.

(** X2. [getClosestGeofence] answers null exactly for an empty catalog;
    otherwise it answers a zone of the catalog together with the distance
    computed for that zone, and when the distances computed for the zones
    are numbers (none is NaN) no zone of the catalog is closer than the
    one answered. *)
Theorem getClosestGeofence_closest (latitude longitude : float) :
  (getClosestGeofence Math catalog latitude longitude = None
   <-> catalog = [])
  /\ (forall c,
        getClosestGeofence Math catalog latitude longitude = Some c ->
        Closest.geofence c ∈ catalog
        /\ Closest.distance c
           = calculateDistance Math latitude longitude
               (DisasterGeofence.latitude (Closest.geofence c))
               (DisasterGeofence.longitude (Closest.geofence c)))
  /\ (forall c,
        getClosestGeofence Math catalog latitude longitude = Some c ->
        (forall g, g ∈ catalog ->
           let d := calculateDistance Math latitude longitude
                      (DisasterGeofence.latitude g)
                      (DisasterGeofence.longitude g) in
           (d =? d) = true) ->
        forall g, g ∈ catalog ->
          (Closest.distance c
           <=? calculateDistance Math latitude longitude
                 (DisasterGeofence.latitude g)
                 (DisasterGeofence.longitude g)) = true).
Proof.
  change (getClosestGeofence Math catalog latitude longitude)
    with (foldl (closestStep Math latitude longitude) None catalog).
  destruct (closest_loop latitude longitude catalog None)
    as (Hnone & Hsome & Hmin). cbn zeta in *.
  split; [| split].
  - rewrite Hnone. naive_solver.
  - intros c Hr. by destruct (Hsome c Hr) as [? | ?].
  - intros c Hr Hnum g Hg. by apply (Hmin c Hr).
Qed.

End ClosestZone.

(** ** The zone state store *)

Section ZoneStore.

Context (isoTime : nat -> string).

Implicit Types (w : World) (zoneId : string).

Lemma occupancy_stored w zoneId :
  zoneId ∈ occupancy w -> is_Some (storedZoneState w).
Proof.
  unfold occupancy. destruct (storedZoneState w); [by eexists |].
  by intros ?%elem_of_nil.
Qed.

(** Adding an identifier that is there changes nothing at all. *)
Lemma addToInsideZones_included zoneId w :
  zoneId ∈ occupancy w -> exec (addToInsideZones isoTime zoneId) w = w.
Proof.
  intros Hin. destruct (occupancy_stored w zoneId Hin) as [state Hstored].
  unfold addToInsideZones, getZoneState, exec, gets, mbind, Async_bind.
  unfold occupancy in Hin. rewrite Hstored in *. cbn.
  unfold includes. by rewrite bool_decide_eq_true_2.
Qed.

(** Removing an identifier that is not there leaves the stored state. *)
Lemma removeFromInsideZones_absent zoneId w :
  zoneId ∉ occupancy w ->
  storedZoneState (exec (removeFromInsideZones isoTime zoneId) w)
  = storedZoneState w.
Proof.
  intros Hout. apply (indexOf_None isoTime) in Hout.
  unfold removeFromInsideZones, getZoneState, Date_toISOString, Date_new,
    exec, gets, mbind, Async_bind.
  unfold occupancy in Hout.
  destruct (storedZoneState w) as [state|] eqn:Hstored; cbn.
  - by rewrite Hout.
  - done.
Qed.

Lemma isInsideZone_eval zoneId w :
  eval (isInsideZone isoTime zoneId) w = includes (occupancy w) zoneId.
Proof.
  unfold isInsideZone, getZoneState, occupancy, eval, gets, mbind, Async_bind.
  by destruct (storedZoneState w).
Qed.

(** X3. The zone state store: reading a store that holds no state
    answers "not inside" and does not create the state; after
    [addToInsideZones] the identifier is inside and every other identifier
    is as before; after [removeFromInsideZones], on an occupancy that
    holds no identifier twice, it is not inside and every other identifier
    is as before; adding an identifier that is already inside changes
    nothing, not even the time of the last update. *)
Theorem zone_state_store_round_trip zoneId w :
  (storedZoneState w = None ->
   eval (isInsideZone isoTime zoneId) w = false
   /\ storedZoneState (exec (isInsideZone isoTime zoneId) w) = None)
  /\ eval (isInsideZone isoTime zoneId)
       (exec (addToInsideZones isoTime zoneId) w) = true
  /\ (NoDup (occupancy w) ->
      eval (isInsideZone isoTime zoneId)
        (exec (removeFromInsideZones isoTime zoneId) w) = false)
  /\ (forall other, other <> zoneId ->
        eval (isInsideZone isoTime other)
          (exec (addToInsideZones isoTime zoneId) w)
        = eval (isInsideZone isoTime other) w
        /\ eval (isInsideZone isoTime other)
             (exec (removeFromInsideZones isoTime zoneId) w)
           = eval (isInsideZone isoTime other) w)
  /\ (zoneId ∈ occupancy w ->
      exec (addToInsideZones isoTime zoneId) w = w).
Proof.
  destruct (addToInsideZones_exec isoTime zoneId w) as (Hadd & _).
  destruct (removeFromInsideZones_exec isoTime zoneId w) as (Hremove & _).
  cbn zeta in *.
  split; [| split; [| split; [| split]]].
  - intros Hnone. split.
    + rewrite isInsideZone_eval. unfold occupancy. by rewrite Hnone.
    + unfold isInsideZone, getZoneState, Date_toISOString, Date_new, exec,
        gets, mbind, Async_bind. by rewrite Hnone.
  - rewrite isInsideZone_eval, Hadd. unfold includes.
    apply bool_decide_eq_true_2. case_bool_decide as Hin; [done |].
    apply elem_of_app. right. by apply list_elem_of_singleton.
  - intros Hdup. rewrite isInsideZone_eval, Hremove.
    apply bool_decide_eq_false_2.
    destruct (indexOf (occupancy w) zoneId) as [index|] eqn:Hindex.
    + apply not_elem_of_delete_NoDup; [done | by apply indexOf_Some].
    + by apply indexOf_None.
  - intros other Hother. rewrite !isInsideZone_eval, Hadd, Hremove.
    unfold includes. split; apply bool_decide_ext.
    + case_bool_decide; [done |].
      rewrite elem_of_app, list_elem_of_singleton. naive_solver.
    + destruct (indexOf (occupancy w) zoneId) as [index|] eqn:Hindex;
        [| done].
      eapply elem_of_delete_ne; [by apply indexOf_Some | done].
  - apply addToInsideZones_included.
Qed.

End ZoneStore.

(** ** The background callback, alert by alert *)

Section BackgroundCallback.

Context (isoTime : nat -> string) (Platform_OS : string).
Context (catalog : list DisasterGeofence.t).

Implicit Types (w : World) (zoneId : string).

(** The callback on a complete signal for a zone of the catalog, step by
    step: three readings of the clock, the update of the occupancy, the
    alert, the log entry; alert and log entry share the timestamp, the
    second reading of the clock. *)
Lemma GEOFENCE_TASK_handler_signal_steps eventType region zoneId g w :
  LocationRegion.identifier region = Some zoneId ->
  zoneId <> "" ->
  getGeofenceDetails catalog zoneId = Some g ->
  let data :=
    Some {| GeofenceTaskData.eventType := Some eventType;
            GeofenceTaskData.region := Some region |} in
  let isEntering := bool_decide (eventType = GeofencingEventType.Enter) in
  let timestamp := isoTime (S (dateCalls w)) in
  exec (GEOFENCE_TASK_handler isoTime Platform_OS catalog data None) w
  = exec (logEvent (signalEvent isEntering region g timestamp))
      (exec (sendAlertNotification Platform_OS
               (signalAlert isEntering g timestamp))
         (exec (if isEntering then addToInsideZones isoTime zoneId
                else removeFromInsideZones isoTime zoneId)
            (set_dateCalls (S (S (S (dateCalls w)))) w))).
Proof.
  intros Hid Hne Hget. cbn zeta. unfold GEOFENCE_TASK_handler.
  cbn [mbind option_bind GeofenceTaskData.eventType GeofenceTaskData.region].
  rewrite Hid. destruct zoneId as [|c zoneId]; [done |]. rewrite Hget.
  rewrite !exec_bind. reflexivity.
Qed.

Lemma GEOFENCE_TASK_handler_signal_effect eventType region zoneId g w :
  LocationRegion.identifier region = Some zoneId ->
  zoneId <> "" ->
  getGeofenceDetails catalog zoneId = Some g ->
  let data :=
    Some {| GeofenceTaskData.eventType := Some eventType;
            GeofenceTaskData.region := Some region |} in
  let isEntering := bool_decide (eventType = GeofencingEventType.Enter) in
  let timestamp := isoTime (S (dateCalls w)) in
  let w' :=
    exec (GEOFENCE_TASK_handler isoTime Platform_OS catalog data None) w in
  scheduled w'
  = scheduled w
    ++ [contentOf Platform_OS (signalAlert isEntering g timestamp)]
  /\ logs_of w' = log_push (signalEvent isEntering region g timestamp) (logs_of w)
  /\ console w' = console w
  /\ geofencingTask w' = geofencingTask w
  /\ storedZoneState w'
     = storedZoneState
         (exec (if isEntering then addToInsideZones isoTime zoneId
                else removeFromInsideZones isoTime zoneId)
            (set_dateCalls (S (S (S (dateCalls w)))) w)).
Proof.
  intros Hid Hne Hget. cbn zeta.
  rewrite (GEOFENCE_TASK_handler_signal_steps eventType region zoneId g w)
    by done.
  set (w3 := set_dateCalls (S (S (S (dateCalls w)))) w).
  set (m := if bool_decide (eventType = GeofencingEventType.Enter)
            then addToInsideZones isoTime zoneId
            else removeFromInsideZones isoTime zoneId).
  assert (H4 : storedLogs (exec m w3) = storedLogs w
               /\ scheduled (exec m w3) = scheduled w
               /\ console (exec m w3) = console w
               /\ geofencingTask (exec m w3) = geofencingTask w).
  { subst m. case_bool_decide.
    - by destruct (addToInsideZones_exec isoTime zoneId w3)
        as (_ & -> & -> & -> & -> & _).
    - by destruct (removeFromInsideZones_exec isoTime zoneId w3)
        as (_ & -> & -> & -> & -> & _). }
  destruct H4 as (Hl4 & Hs4 & Hc4 & Hg4).
  match goal with
  | |- context [exec (sendAlertNotification Platform_OS ?args) ?w4] =>
      destruct (sendAlertNotification_exec Platform_OS args w4)
        as (Hz5 & Hl5 & Hs5 & Hc5 & Hg5 & _)
  end.
  cbn zeta in *. rewrite logs_of_logEvent.
  change (scheduled (exec (logEvent ?e) ?w5)) with (scheduled w5).
  change (console (exec (logEvent ?e) ?w5)) with (console w5).
  change (geofencingTask (exec (logEvent ?e) ?w5)) with (geofencingTask w5).
  change (storedZoneState (exec (logEvent ?e) ?w5)) with (storedZoneState w5).
  unfold logs_of at 1. rewrite Hs5, Hl5, Hc5, Hg5, Hz5, Hs4, Hl4, Hc4, Hg4.
  repeat split.
Qed.

(** X4. A background callback with a complete signal for a zone of the
    catalog dispatches exactly one alert and logs exactly one entry, and
    writes nothing to the console.  The alert names the zone, has the
    source [background_geofence] and the direction of the signal; for an
    entry its title, body and priority are those the composer gives for
    the category and severity of the zone (the title after the warning
    sign), for an exit it has the default priority and its body starts
    with the description of the zone left.  The log entry carries the
    region of the signal, no point, the description of the zone, and the
    timestamp of the alert. *)
Theorem GEOFENCE_TASK_handler_alert eventType region zoneId g w :
  LocationRegion.identifier region = Some zoneId ->
  zoneId <> "" ->
  getGeofenceDetails catalog zoneId = Some g ->
  let data :=
    Some {| GeofenceTaskData.eventType := Some eventType;
            GeofenceTaskData.region := Some region |} in
  let kind :=
    match eventType with
    | GeofencingEventType.Enter => ENTER
    | GeofencingEventType.Exit => EXIT
    end in
  let w' :=
    exec (GEOFENCE_TASK_handler isoTime Platform_OS catalog data None) w in
  exists n e,
    scheduled w' = scheduled w ++ [n]
    /\ logs_of w' = log_push e (logs_of w)
    /\ console w' = console w
    /\ alertKey n = (kind, zoneId)
    /\ AlertData.source (NotificationContent.data n) = "background_geofence"
    /\ (eventType = GeofencingEventType.Enter ->
        let composed :=
          getDisasterAlertContent (DisasterGeofence.type g)
            (DisasterGeofence.severity g) true in
        NotificationContent.title n
        = (WARNING_SIGN ++ " " ++ AlertContent.title composed)%string
        /\ NotificationContent.body n = AlertContent.body composed
        /\ NotificationContent.priority n = AlertContent.priority composed)
    /\ (eventType = GeofencingEventType.Exit ->
        NotificationContent.priority n = AndroidNotificationPriority.DEFAULT
        /\ exists rest,
             NotificationContent.body n
             = ("You have left " ++ DisasterGeofence.description g
                ++ ". " ++ rest)%string)
    /\ GeofenceEvent.type e = kind
    /\ GeofenceEvent.region e = Some region
    /\ GeofenceEvent.location e = None
    /\ GeofenceEvent.zoneName e = Some (DisasterGeofence.description g)
    /\ GeofenceEvent.timestamp e
       = AlertData.timestamp (NotificationContent.data n).
Proof.
  intros Hid Hne Hget. cbn zeta.
  destruct (GEOFENCE_TASK_handler_signal_effect eventType region zoneId g w
              Hid Hne Hget) as (Hs & Hl & Hc & _).
  cbn zeta in *. eexists _, _.
  split; [exact Hs |]. split; [exact Hl |]. split; [exact Hc |].
  apply (getGeofenceDetails_Some catalog) in Hget as [_ <-].
  destruct eventType;
    [rewrite bool_decide_eq_true_2 by done
    | rewrite bool_decide_eq_false_2 by done];
    repeat split; try done.
  by eexists.
Qed.

(** X5. The callback does not look at the occupancy before it alerts: an
    ENTER signal for a zone that is already in the occupancy, and an EXIT
    signal for a zone that is not in it, leave the stored occupancy state
    untouched and still dispatch one alert and log one entry. *)
Theorem GEOFENCE_TASK_handler_repeats_alert eventType region zoneId g w :
  LocationRegion.identifier region = Some zoneId ->
  zoneId <> "" ->
  getGeofenceDetails catalog zoneId = Some g ->
  match eventType with
  | GeofencingEventType.Enter => zoneId ∈ occupancy w
  | GeofencingEventType.Exit => zoneId ∉ occupancy w
  end ->
  let data :=
    Some {| GeofenceTaskData.eventType := Some eventType;
            GeofenceTaskData.region := Some region |} in
  let w' :=
    exec (GEOFENCE_TASK_handler isoTime Platform_OS catalog data None) w in
  storedZoneState w' = storedZoneState w
  /\ length (scheduled w') = S (length (scheduled w))
  /\ (exists n, last (scheduled w') = Some n
                /\ alertKey n
                   = (match eventType with
                      | GeofencingEventType.Enter => ENTER
                      | GeofencingEventType.Exit => EXIT
                      end, zoneId))
  /\ exists e, logs_of w' = log_push e (logs_of w).
Proof.
  intros Hid Hne Hget Hocc. cbn zeta.
  destruct (GEOFENCE_TASK_handler_signal_effect eventType region zoneId g w
              Hid Hne Hget) as (Hs & Hl & _ & _ & Hz).
  cbn zeta in *. rewrite Hs, Hl, Hz.
  apply (getGeofenceDetails_Some catalog) in Hget as [_ <-].
  split; [| split; [| split]].
  - destruct eventType;
      [rewrite bool_decide_eq_true_2 by done
      | rewrite bool_decide_eq_false_2 by done].
    + by rewrite addToInsideZones_included.
    + by rewrite removeFromInsideZones_absent.
  - rewrite length_app. cbn. lia.
  - eexists. rewrite last_snoc. split; [done |]. by destruct eventType.
  - by eexists.
Qed.

Lemma GEOFENCE_TASK_handler_unknown_fields eventType region zoneId w :
  LocationRegion.identifier region = Some zoneId ->
  zoneId <> "" ->
  getGeofenceDetails catalog zoneId = None ->
  let data :=
    Some {| GeofenceTaskData.eventType := Some eventType;
            GeofenceTaskData.region := Some region |} in
  let w' :=
    exec (GEOFENCE_TASK_handler isoTime Platform_OS catalog data None) w in
  storedZoneState w' = storedZoneState w
  /\ scheduled w' = scheduled w
  /\ storedLogs w' = storedLogs w
  /\ geofencingTask w' = geofencingTask w
  /\ console w' = console w ++ [(Warn, "Unknown geofence identifier:")].
Proof.
  intros Hid Hne Hunknown. cbn zeta. unfold GEOFENCE_TASK_handler.
  cbn [mbind option_bind GeofenceTaskData.eventType GeofenceTaskData.region].
  rewrite Hid. destruct zoneId as [|c zoneId]; [done |]. rewrite Hunknown.
  repeat split.
Qed.

(** X6. A background callback whose region names no zone of the catalog
    is dropped: no alert, no log entry, the stored occupancy state as
    before, and one warning on the console. *)
Theorem GEOFENCE_TASK_handler_unknown_zone eventType region zoneId w :
  LocationRegion.identifier region = Some zoneId ->
  zoneId <> "" ->
  zoneId ∉ DisasterGeofence.identifier <$> catalog ->
  let data :=
    Some {| GeofenceTaskData.eventType := Some eventType;
            GeofenceTaskData.region := Some region |} in
  let w' :=
    exec (GEOFENCE_TASK_handler isoTime Platform_OS catalog data None) w in
  storedZoneState w' = storedZoneState w
  /\ scheduled w' = scheduled w
  /\ storedLogs w' = storedLogs w
  /\ geofencingTask w' = geofencingTask w
  /\ console w' = console w ++ [(Warn, "Unknown geofence identifier:")].
Proof.
  intros Hid Hne Hunknown%getGeofenceDetails_None.
  exact (GEOFENCE_TASK_handler_unknown_fields eventType region zoneId w
           Hid Hne Hunknown).
Qed.

End BackgroundCallback.

(** ** Starting and stopping *)

Section StartStop.

Context (Math : MathObject) (isoTime : nat -> string) (Platform_OS : string).
Context (catalog : list DisasterGeofence.t).

Implicit Types (w : World).

Local Abbreviation start :=
  (startGeofencing Math isoTime Platform_OS catalog).


Lemma regions_of_catalog_geometry :
  LocationRegion.identifier <$> regions_of_catalog catalog
  = (fun g => Some (DisasterGeofence.identifier g)) <$> catalog
  /\ LocationRegion.latitude <$> regions_of_catalog catalog
     = DisasterGeofence.latitude <$> catalog
  /\ LocationRegion.longitude <$> regions_of_catalog catalog
     = DisasterGeofence.longitude <$> catalog
  /\ LocationRegion.radius <$> regions_of_catalog catalog
     = DisasterGeofence.radius <$> catalog.
Proof.
  unfold regions_of_catalog. rewrite <- !list_fmap_compose. done.
Qed.

Lemma list_difference_nil_r (xs : list string) : list_difference xs [] = xs.
Proof.
  induction xs as [|x xs IH]; [done |]. cbn [list_difference].
  destruct (decide_rel elem_of x []) as [Hx | _].
  - by apply elem_of_nil in Hx.
  - by rewrite IH.
Qed.

Lemma filter_none {A} (P : A -> Prop) `{forall x, Decision (P x)}
    (xs : list A) :
  (forall x, ~ P x) -> filter P xs = [].
Proof.
  intros Hnone. induction xs as [|x xs IH]; [done |].
  rewrite filter_cons. by destruct (decide (P x)) as [?%Hnone |].
Qed.

(** X8. A granted [startGeofencing] on an empty occupancy (a fresh
    installation, or after a stop that cleared it), the current point
    being known: it resolves; the background watch is registered with one
    region per zone of the catalog, in order, with the identifier, centre
    and radius of the zone, whatever was registered before; the
    foreground subscription is on; one ENTER alert is dispatched for each
    zone that contains the point and no EXIT alert, though no boundary
    was crossed; and the occupancy is written as those zones. *)
Theorem startGeofencing_cold_start debugPosition location w :
  occupancy w = [] ->
  let m := start granted granted granted debugPosition (PositionOk location) in
  let w' := exec m w in
  eval m w = None
  /\ geofencingTask w' = Some (regions_of_catalog catalog)
  /\ LocationRegion.identifier <$> regions_of_catalog catalog
     = (fun g => Some (DisasterGeofence.identifier g)) <$> catalog
  /\ LocationRegion.latitude <$> regions_of_catalog catalog
     = DisasterGeofence.latitude <$> catalog
  /\ LocationRegion.longitude <$> regions_of_catalog catalog
     = DisasterGeofence.longitude <$> catalog
  /\ LocationRegion.radius <$> regions_of_catalog catalog
     = DisasterGeofence.radius <$> catalog
  /\ locationSubscription w' = true
  /\ occupancy w' = currentlyInside Math catalog location
  /\ exists alerts,
       scheduled w' = scheduled w ++ alerts
       /\ alertedZones ENTER alerts = currentlyInside Math catalog location
       /\ alertedZones EXIT alerts = [].
Proof.
  intros Hempty. cbn zeta.
  destruct (startGeofencing_granted Math isoTime Platform_OS catalog
              debugPosition (PositionOk location) w)
    as (w0 & Hz0 & Hl0 & Hs0 & Hg0 & Hexec & Hnone).
  cbn zeta in *. rewrite Hexec.
  destruct (checkInitialPosition_exec Math isoTime Platform_OS catalog
              location w0) as (Hs & _ & Ho & _ & Hg & _).
  cbn zeta in *.
  assert (Hocc0 : occupancy w0 = []) by (unfold occupancy; by rewrite Hz0).
  destruct regions_of_catalog_geometry as (Hid & Hlat & Hlon & Hrad).
  unfold occupancy at 1.
  cbn [set_locationSubscription storedZoneState scheduled geofencingTask
       locationSubscription].
  fold (occupancy (exec (checkInitialPosition Math isoTime Platform_OS catalog
                           (PositionOk location)) w0)).
  split; [done |]. split; [by rewrite Hg |].
  split; [done |]. split; [done |]. split; [done |]. split; [done |].
  split; [done |]. split; [exact Ho |].
  eexists. split; [rewrite Hs, Hs0; reflexivity |].
  rewrite !alertedZones_passAlerts, entered_transitions, exited_transitions.
  rewrite Hocc0. split.
  - apply list_difference_nil_r.
  - rewrite filter_none; [done |].
    intros g [_ Hin]. by apply elem_of_nil in Hin.
Qed.

(** X9. A granted [startGeofencing] whose initial check cannot get the
    current point still resolves, with the background watch registered
    and the foreground subscription on; it dispatches no alert, leaves
    the stored occupancy state and the event log as they were, and the
    last line of the console is the error of the initial check. *)
Theorem startGeofencing_without_position debugPosition message w :
  let m :=
    start granted granted granted debugPosition (PositionError message) in
  let w' := exec m w in
  eval m w = None
  /\ geofencingTask w' = Some (regions_of_catalog catalog)
  /\ locationSubscription w' = true
  /\ scheduled w' = scheduled w
  /\ storedZoneState w' = storedZoneState w
  /\ storedLogs w' = storedLogs w
  /\ last (console w')
     = Some (Error,
             (CROSS_MARK ++ " Error checking initial position:")%string).
Proof.
  cbn zeta.
  destruct (startGeofencing_granted Math isoTime Platform_OS catalog
              debugPosition (PositionError message) w)
    as (w0 & Hz0 & Hl0 & Hs0 & Hg0 & Hexec & Hnone).
  cbn zeta in *. rewrite Hexec. cbn.
  rewrite last_snoc. by repeat split.
Qed.

Lemma stopGeofencing_fixed w :
  geofencingTask w = None -> locationSubscription w = false ->
  exec stopGeofencing w = w.
Proof.
  intros Hreg Hsub. unfold stopGeofencing, stopLocationWatching,
    isTaskRegisteredAsync, exec, gets, mbind, Async_bind.
  rewrite Hsub. cbn. by rewrite Hreg.
Qed.

(** X10. [stopGeofencing] with the background watch registered stops the
    foreground subscription, unregisters the watch and removes the stored
    occupancy state, and keeps the event log and the alerts dispatched;
    whatever the world, a second stop right after a stop changes
    nothing. *)
Theorem stopGeofencing_clears_and_is_idempotent w :
  (is_Some (geofencingTask w) ->
   let w' := exec stopGeofencing w in
   storedZoneState w' = None
   /\ geofencingTask w' = None
   /\ locationSubscription w' = false
   /\ storedLogs w' = storedLogs w
   /\ scheduled w' = scheduled w
   /\ console w' = console w)
  /\ exec stopGeofencing (exec stopGeofencing w) = exec stopGeofencing w.
Proof.
  split.
  - intros [regions Hreg]. cbn zeta.
    unfold stopGeofencing, stopLocationWatching, isTaskRegisteredAsync,
      exec, gets, mbind, Async_bind.
    destruct (locationSubscription w) eqn:Hsub; cbn; rewrite Hreg; cbn;
      by repeat split.
  - apply stopGeofencing_fixed.
    + destruct (geofencingTask w) as [regions|] eqn:Hreg.
      * by destruct (stopGeofencing_registered w regions Hreg)
          as (_ & _ & ? & _).
      * by destruct (stopGeofencing_not_registered w Hreg)
          as (_ & _ & ? & _).
    + destruct (geofencingTask w) as [regions|] eqn:Hreg.
      * by destruct (stopGeofencing_registered w regions Hreg)
          as (_ & _ & _ & ? & _).
      * by destruct (stopGeofencing_not_registered w Hreg)
          as (_ & _ & _ & ? & _).
Qed.


End StartStop.

(** ** Containment when a number is missing *)

Section NotANumber.

Context (Math : MathObject) (isoTime : nat -> string) (Platform_OS : string).
Context (catalog : list DisasterGeofence.t).

Local Open Scope float_scope.

Lemma SFeqb_self_false (a : spec_float) : SFeqb a a = false -> a = S754_nan.
Proof.
  unfold SFeqb, SFcompare.
  destruct a as [[]| []| |[] m e]; cbn; try done;
    rewrite Z.compare_refl;
    change (Pos.compare_cont Eq m m) with (Pos.compare m m);
    by rewrite Pos.compare_refl.
Qed.

(** A comparison [<=] with NaN on either side is false. *)
Lemma float_leb_nan (d r : float) :
  (d =? d) = false \/ (r =? r) = false -> (d <=? r) = false.
Proof.
  rewrite !FloatAxioms.eqb_spec, FloatAxioms.leb_spec.
  intros [Hnan%SFeqb_self_false | Hnan%SFeqb_self_false]; rewrite Hnan.
  - done.
  - unfold SFleb, SFcompare. by destruct (Prim2SF d) as [[]| []| |[] m e].
Qed.

(** X13. A zone whose computed distance is NaN, or whose radius is NaN,
    is never recorded as occupied by a point-based pass (identifiers
    being unique in the catalog); if its identifier was in the occupancy,
    the pass dispatches an EXIT alert for it. *)
Theorem pointPass_outside_when_not_a_number
    (site : CallSite) (location : Coords.t) (w : World)
    (g : DisasterGeofence.t) :
  NoDup (DisasterGeofence.identifier <$> catalog) ->
  g ∈ catalog ->
  (let distance :=
     calculateDistance Math
       (Coords.latitude location) (Coords.longitude location)
       (DisasterGeofence.latitude g) (DisasterGeofence.longitude g) in
   (distance =? distance) = false
   \/ (DisasterGeofence.radius g =? DisasterGeofence.radius g) = false) ->
  let w' := exec (pointPass Math isoTime Platform_OS catalog site location) w in
  (DisasterGeofence.identifier g ∉ occupancy w')
  /\ (DisasterGeofence.identifier g ∈ occupancy w ->
      exists alerts,
        scheduled w' = scheduled w ++ alerts
        /\ DisasterGeofence.identifier g ∈ alertedZones EXIT alerts).
Proof.
  intros Hdup Hg Hnan%float_leb_nan. cbn zeta.
  destruct (pointPass_exec Math isoTime Platform_OS catalog site location w)
    as (Hs & _ & Ho & _).
  assert (Hout : isInside Math location g = false) by exact Hnan.
  split.
  - rewrite Ho.
    intros (g' & Hg' & Heq & Hin)%currentlyInside_elem_of.
    assert (g' = g) as -> by eauto using NoDup_fmap_elem_eq.
    congruence.
  - intros Hprev. eexists. split; [exact Hs |].
    rewrite alertedZones_passAlerts, exited_transitions.
    apply list_elem_of_fmap. exists g. split; [done |].
    by apply list_elem_of_filter.
Qed.

End NotANumber.

(** ** What the foreground handler writes, and when *)

Section SortedWrite.

Context (Math : MathObject) (isoTime : nat -> string) (Platform_OS : string).
Context (catalog : list DisasterGeofence.t).

(** The order of [sort], as a relation. *)
Local Abbreviation ascending :=
  (fun a b : string => codeUnitLeb a b = true) (only parsing).

Lemma codeUnitRank_inj (x y : Ascii.ascii) :
  codeUnitRank x = codeUnitRank y -> x = y.
Proof.
  unfold codeUnitRank. cbn zeta.
  pose proof (Ascii.N_ascii_bounded x) as Hx.
  pose proof (Ascii.N_ascii_bounded y) as Hy.
  intros Heq.
  rewrite <- (Ascii.ascii_N_embedding x), <- (Ascii.ascii_N_embedding y).
  f_equal.
  destruct (N.ltb_spec (Ascii.N_of_ascii x) 238),
    (N.ltb_spec (Ascii.N_of_ascii x) 240),
    (N.ltb_spec (Ascii.N_of_ascii y) 238),
    (N.ltb_spec (Ascii.N_of_ascii y) 240); lia.
Qed.

Lemma codeUnitCompare_eq (a b : string) :
  codeUnitCompare a b = Eq -> a = b.
Proof.
  revert b. induction a as [|x a IH]; intros [|y b]; cbn; try done.
  destruct (N.compare_spec (codeUnitRank x) (codeUnitRank y)) as [Heq| |];
    try done.
  intros Hrest. apply codeUnitRank_inj in Heq. f_equal; [done | by apply IH].
Qed.

Lemma codeUnitCompare_antisym (a b : string) :
  codeUnitCompare b a = CompOpp (codeUnitCompare a b).
Proof.
  revert b. induction a as [|x a IH]; intros [|y b]; cbn; try done.
  rewrite (N.compare_antisym (codeUnitRank x) (codeUnitRank y)).
  destruct (N.compare (codeUnitRank x) (codeUnitRank y)); cbn; [apply IH | done..].
Qed.

Lemma codeUnitCompare_trans (a b c : string) :
  codeUnitCompare a b <> Gt -> codeUnitCompare b c <> Gt ->
  codeUnitCompare a c <> Gt.
Proof.
  revert b c. induction a as [|x a IH]; intros [|y b] [|z c]; cbn; try done.
  destruct (N.compare_spec (codeUnitRank x) (codeUnitRank y)),
    (N.compare_spec (codeUnitRank y) (codeUnitRank z)),
    (N.compare_spec (codeUnitRank x) (codeUnitRank z));
    try done; try lia.
  apply IH.
Qed.

Lemma codeUnitLeb_compare (a b : string) :
  codeUnitLeb a b = true <-> codeUnitCompare a b <> Gt.
Proof. unfold codeUnitLeb. by destruct (codeUnitCompare a b). Qed.

Lemma codeUnitLeb_trans (a b c : string) :
  codeUnitLeb a b = true -> codeUnitLeb b c = true -> codeUnitLeb a c = true.
Proof. rewrite !codeUnitLeb_compare. apply codeUnitCompare_trans. Qed.

Lemma codeUnitLeb_total (a b : string) :
  codeUnitLeb a b = true \/ codeUnitLeb b a = true.
Proof.
  unfold codeUnitLeb. rewrite (codeUnitCompare_antisym a b).
  destruct (codeUnitCompare a b); cbn; auto.
Qed.

Lemma codeUnitLeb_antisym (a b : string) :
  codeUnitLeb a b = true -> codeUnitLeb b a = true -> a = b.
Proof.
  unfold codeUnitLeb. rewrite (codeUnitCompare_antisym a b).
  destruct (codeUnitCompare a b) eqn:Hab; cbn; try done.
  intros _ _. by apply codeUnitCompare_eq.
Qed.

Lemma sort_insert_sorted (x : string) (xs : list string) :
  StronglySorted ascending xs -> StronglySorted ascending (sort_insert x xs).
Proof.
  induction 1 as [|y xs Hsorted IH Hall]; cbn.
  - by repeat constructor.
  - destruct (codeUnitLeb x y) eqn:Hxy.
    + constructor; [by constructor |].
      constructor; [done |].
      eapply Forall_impl; [exact Hall |].
      intros z Hyz. by apply (codeUnitLeb_trans x y z).
    + constructor; [done |].
      rewrite sort_insert_perm. constructor; [| done].
      destruct (codeUnitLeb_total x y); congruence.
Qed.

Lemma sort_sorted (xs : list string) : StronglySorted ascending (sort xs).
Proof.
  induction xs as [|x xs IH]; cbn; [constructor |].
  by apply sort_insert_sorted.
Qed.

(** Two arrays sort to the same array exactly when they hold the same
    identifiers with the same multiplicities. *)
Lemma sort_eq_iff_perm (xs ys : list string) : sort xs = sort ys <-> xs ≡ₚ ys.
Proof.
  split.
  - intros Heq. by rewrite <- (sort_perm xs), Heq, sort_perm.
  - intros Hperm.
    apply (StronglySorted_unique_strong ascending);
      [| apply sort_sorted | apply sort_sorted | by rewrite !sort_perm].
    intros a b _ _ Hab Hba. by apply codeUnitLeb_antisym.
Qed.

(** The stored state after a location update. *)
Lemma handleLocationUpdate_store location w :
  let prev := occupancy w in
  let cur := currentlyInside Math catalog location in
  let ts := transitions Math catalog prev location in
  let w' :=
    exec (handleLocationUpdate Math isoTime Platform_OS catalog location) w in
  storedZoneState w'
  = (if bool_decide (sort cur ≠ sort prev)
     then Some {| ZoneState.insideZones := sort cur;
                  ZoneState.lastUpdated :=
                    isoTime (clockAfterRead w + 2 * length ts) |}
     else storedZoneState w).
Proof.
  cbn zeta. unfold handleLocationUpdate, exec, mbind, Async_bind.
  destruct (getZoneState isoTime w) as [state w1] eqn:Hget.
  apply getZoneState_spec in Hget
    as (Hprev & Hz1 & Hl1 & Hs1 & Hc1 & Hg1 & Hsub1 & Hd1).
  rewrite (for_of_ext _ _ _
             (handleLocationUpdate_body_reconcile Math isoTime Platform_OS
                location state)).
  rewrite for_of_reconcile_zone, Hprev. cbn [app].
  destruct (emitAll_exec isoTime Platform_OS "foreground_watch" location
              (transitions Math catalog (occupancy w) location) w1)
    as (Hz & Hc & Hg & Hsub & Hd & Hs & Hlog).
  cbn zeta in *.
  set (w2 := exec (emitAll isoTime Platform_OS "foreground_watch" location
                     (transitions Math catalog (occupancy w) location)) w1) in *.
  case_bool_decide;
    unfold Date_toISOString, Date_new, setZoneState, modify, mbind, Async_bind;
    cbn; rewrite ?Hd, ?Hd1, ?Hz, ?Hz1; done.
Qed.

(** X14. The foreground handler leaves the stored state (timestamp
    included) untouched when the zones containing the point are the
    occupancy on record up to order, and otherwise writes them sorted in
    ascending order with a fresh timestamp; the initial check always
    writes them, in catalog order. *)
Theorem handleLocationUpdate_writes_sorted_on_change
    (location : Coords.t) (w : World) :
  let cur := currentlyInside Math catalog location in
  let w' :=
    exec (handleLocationUpdate Math isoTime Platform_OS catalog location) w in
  (occupancy w ≡ₚ cur -> storedZoneState w' = storedZoneState w)
  /\ (~ occupancy w ≡ₚ cur ->
      exists now,
        storedZoneState w'
        = Some {| ZoneState.insideZones := sort cur;
                  ZoneState.lastUpdated := now |})
  /\ sort cur ≡ₚ cur
  /\ StronglySorted (fun a b => codeUnitLeb a b = true) (sort cur)
  /\ (exists now,
        storedZoneState
          (exec (checkInitialPosition Math isoTime Platform_OS catalog
                   (PositionOk location)) w)
        = Some {| ZoneState.insideZones := cur;
                  ZoneState.lastUpdated := now |}).
Proof.
  cbn zeta. pose proof (handleLocationUpdate_store location w) as Hstore.
  cbn zeta in Hstore. rewrite Hstore.
  split; [| split; [| split; [| split]]].
  - intros Hperm. rewrite bool_decide_eq_false_2; [done |].
    intros Hne. apply Hne. by apply sort_eq_iff_perm.
  - intros Hperm. rewrite bool_decide_eq_true_2; [by eexists |].
    intros Heq%sort_eq_iff_perm. by apply Hperm.
  - apply sort_perm.
  - apply sort_sorted.
  - unfold checkInitialPosition, exec, mbind, Async_bind.
    destruct (getZoneState isoTime w) as [state w1] eqn:Hget.
    apply getZoneState_spec in Hget as (Hprev & _).
    rewrite (for_of_ext _ _ _
               (checkInitialPosition_body_reconcile Math isoTime Platform_OS
                  location state)).
    rewrite for_of_reconcile_zone, Hprev. cbn [app].
    unfold Date_toISOString, Date_new, setZoneState, modify, mbind, Async_bind.
    cbn. by eexists.
Qed.

End SortedWrite.

(** ** The exported text *)

Section CsvExport.

Context (toLocaleDateString toLocaleTimeString : string -> string).

Local Abbreviation csvRow' := (csvRow toLocaleDateString toLocaleTimeString).
Local Abbreviation export :=
  (exportLogsAsCSV toLocaleDateString toLocaleTimeString).
Local Abbreviation plain := (plainEntry toLocaleDateString toLocaleTimeString).

Lemma occurrences_app (c : Ascii.ascii) (s t : string) :
  occurrences c (s ++ t)%string = occurrences c s + occurrences c t.
Proof.
  induction s as [|x s IH]; [done |].
  change (String x s ++ t)%string with (String x (s ++ t)%string).
  cbn [occurrences]. rewrite IH. by destruct (Ascii.eqb c x).
Qed.

(** The loop of [exportLogsAsCSV] appends the rows in the order of the
    log and touches nothing. *)
Lemma exportLogsAsCSV_loop (logs : list GeofenceEvent.t) (csv : string)
    (w : World) :
  for_of logs (fun log csv => mret (csv ++ csvRow' log)%string) csv w
  = (foldl (fun csv log => (csv ++ csvRow' log)%string) csv logs, w).
Proof.
  revert csv. induction logs as [|log logs IH]; intros csv; [done |].
  cbn [for_of foldl]. unfold mbind at 1, Async_bind at 1.
  cbn [mret Async_ret]. apply IH.
Qed.

Lemma exportLogsAsCSV_run (w : World) :
  export w
  = (foldl (fun csv log => (csv ++ csvRow' log)%string) CSV_HEADER (logs_of w),
     w).
Proof.
  unfold exportLogsAsCSV, getLogs, gets, mbind, Async_bind. cbn [mret Async_ret].
  apply exportLogsAsCSV_loop.
Qed.

(** The separators of one row: six commas and one line feed, and those
    of the four texts printed as they are. *)
Lemma csvRow_separators (log : GeofenceEvent.t) :
  let texts c :=
    occurrences c (GeofenceEvent.timestamp log)
    + occurrences c (toLocaleDateString (GeofenceEvent.timestamp log))
    + occurrences c (toLocaleTimeString (GeofenceEvent.timestamp log))
    + occurrences c (orNA id (GeofenceEvent.zoneName log)) in
  occurrences COMMA (csvRow' log) = 6 + texts COMMA
  /\ occurrences LF (csvRow' log) = 1 + texts LF.
Proof.
  cbn zeta. unfold csvRow. rewrite !occurrences_app.
  change (occurrences COMMA LINE_FEED) with 0.
  change (occurrences LF LINE_FEED) with 1.
  destruct (GeofenceEvent.type log),
    (GeofenceEvent.disasterType log) as [[]|],
    (GeofenceEvent.severity log) as [[]|]; cbn; lia.
Qed.

Lemma plainEntry_separators (log : GeofenceEvent.t) :
  plain log = true ->
  occurrences COMMA (csvRow' log) = 6 /\ occurrences LF (csvRow' log) = 1.
Proof.
  unfold plainEntry, plainText. rewrite !andb_true_iff, !bool_decide_eq_true.
  destruct (csvRow_separators log) as [-> ->]. lia.
Qed.

Lemma exportLogsAsCSV_count (c : Ascii.ascii) (k : nat)
    (logs : list GeofenceEvent.t) (csv : string) :
  Forall (fun log => occurrences c (csvRow' log) = k) logs ->
  occurrences c (foldl (fun csv log => (csv ++ csvRow' log)%string) csv logs)
  = occurrences c csv + k * length logs.
Proof.
  intros Hall. revert csv.
  induction Hall as [|log logs Hlog _ IH]; intros csv; cbn [foldl length];
    [lia |].
  rewrite IH, occurrences_app, Hlog. lia.
Qed.

(** X15. [exportLogsAsCSV] changes nothing; on a cleared log it answers
    the header line alone; when no text of an entry holds a comma or a
    line feed, the answer has one line per entry after the header and six
    commas on every line.  A text is copied as it is: a row has the commas
    of its texts on top of its six. *)
Theorem exportLogsAsCSV_one_line_per_entry (w : World) :
  let csv := eval export w in
  exec export w = w
  /\ eval export (exec clearLogs w) = CSV_HEADER
  /\ (Forall (fun log => plain log = true) (logs_of w) ->
      occurrences LF csv = S (length (logs_of w))
      /\ occurrences COMMA csv = 6 * S (length (logs_of w)))
  /\ (forall log : GeofenceEvent.t,
        occurrences COMMA (csvRow' log)
        = 6 + occurrences COMMA (GeofenceEvent.timestamp log)
          + occurrences COMMA
              (toLocaleDateString (GeofenceEvent.timestamp log))
          + occurrences COMMA
              (toLocaleTimeString (GeofenceEvent.timestamp log))
          + occurrences COMMA (orNA id (GeofenceEvent.zoneName log))).
Proof.
  cbn zeta. unfold eval, exec. rewrite !exportLogsAsCSV_run. cbn [fst snd].
  split; [done |]. split; [done |]. split.
  - intros Hplain. split.
    + rewrite (exportLogsAsCSV_count LF 1);
        [change (occurrences LF CSV_HEADER) with 1; lia |].
      eapply Forall_impl; [exact Hplain |].
      by intros log [_ ?]%plainEntry_separators.
    + rewrite (exportLogsAsCSV_count COMMA 6);
        [change (occurrences COMMA CSV_HEADER) with 6; lia |].
      eapply Forall_impl; [exact Hplain |].
      by intros log [? _]%plainEntry_separators.
  - intros log. destruct (csvRow_separators log) as [-> _]. lia.
Qed.

End CsvExport.

(** ** The alerts of every history *)

Section DispatchedAlerts.

Context (Math : MathObject) (isoTime : nat -> string) (Platform_OS : string).
Context (catalog : list DisasterGeofence.t).

Implicit Types (w : World) (g : DisasterGeofence.t).

Local Abbreviation known :=
  (Forall (fun n => exists g, g ∈ catalog /\ alertFor Platform_OS g n)).

Lemma pointAlert_alertFor (site : CallSite) kind g now :
  alertFor Platform_OS g
    (contentOf Platform_OS (pointAlert (sourceOf site) kind g now)).
Proof.
  unfold alertFor. cbn.
  destruct site, kind, (DisasterGeofence.type g), (DisasterGeofence.severity g);
    repeat split; cbn; repeat constructor.
Qed.

Lemma signalAlert_alertFor (isEntering : bool) g timestamp :
  alertFor Platform_OS g
    (contentOf Platform_OS (signalAlert isEntering g timestamp)).
Proof.
  unfold alertFor. cbn.
  destruct isEntering, (DisasterGeofence.type g), (DisasterGeofence.severity g);
    repeat split; cbn; repeat constructor.
Qed.

Lemma pointPass_known site location w :
  known (scheduled w) ->
  known (scheduled
           (exec (pointPass Math isoTime Platform_OS catalog site location) w)).
Proof.
  intros Hknown.
  destruct (pointPass_exec Math isoTime Platform_OS catalog site location w)
    as (-> & _).
  apply Forall_app. split; [done |].
  eapply Forall_impl; [by eapply passAlerts_composed |].
  intros n (kind & g & now & Hg & ->). exists g. split; [done |].
  apply pointAlert_alertFor.
Qed.

Lemma checkInitialPosition_known position w :
  known (scheduled w) ->
  known (scheduled
           (exec (checkInitialPosition Math isoTime Platform_OS catalog
                    position) w)).
Proof.
  destruct position as [location|message]; [| done].
  apply (pointPass_known InitialCheck).
Qed.

Lemma GEOFENCE_TASK_handler_known data error w :
  known (scheduled w) ->
  known (scheduled
           (exec (GEOFENCE_TASK_handler isoTime Platform_OS catalog data error)
              w)).
Proof.
  intros Hknown.
  destruct (GEOFENCE_TASK_handler_cases data error)
    as [[e ->] | [[-> Hincomplete] | (eventType & region & zoneId
                                      & -> & -> & Hid & Hne)]].
  - by destruct (GEOFENCE_TASK_handler_error isoTime Platform_OS catalog
                   data e w) as (_ & -> & _).
  - by destruct (GEOFENCE_TASK_handler_incomplete isoTime Platform_OS catalog
                   data w Hincomplete) as (_ & -> & _).
  - destruct (getGeofenceDetails catalog zoneId) as [g|] eqn:Hget.
    + destruct (GEOFENCE_TASK_handler_signal_effect isoTime Platform_OS catalog
                  eventType region zoneId g w Hid Hne Hget) as (-> & _).
      apply Forall_app. split; [done |]. constructor; [| constructor].
      exists g. split; [| apply signalAlert_alertFor].
      by apply getGeofenceDetails_Some in Hget as [? _].
    + by destruct (GEOFENCE_TASK_handler_unknown isoTime Platform_OS catalog
                     eventType region zoneId w Hid Hne Hget) as (_ & -> & _).
Qed.

Lemma startGeofencing_known fg bg notif debugPosition initialPosition w :
  known (scheduled w) ->
  known (scheduled
           (exec (startGeofencing Math isoTime Platform_OS catalog
                    fg bg notif debugPosition initialPosition) w)).
Proof.
  intros Hknown.
  destruct (decide (fg = granted /\ bg = granted /\ notif = granted))
    as [(-> & -> & ->) | Hdenied].
  - destruct (startGeofencing_granted Math isoTime Platform_OS catalog
                debugPosition initialPosition w)
      as (w0 & _ & _ & Hs & _ & -> & _).
    apply (checkInitialPosition_known initialPosition w0). by rewrite Hs.
  - destruct (startGeofencing_denied Math isoTime Platform_OS catalog
                fg bg notif debugPosition initialPosition w)
      as (_ & _ & _ & -> & _); [| done].
    destruct (decide (fg = granted)); [| by left].
    destruct (decide (bg = granted)); [| by right; left].
    destruct (decide (notif = granted)); [| by right; right].
    by destruct Hdenied.
Qed.

Lemma stopGeofencing_known w :
  known (scheduled w) -> known (scheduled (exec stopGeofencing w)).
Proof.
  destruct (geofencingTask w) as [regions|] eqn:Hreg.
  - by destruct (stopGeofencing_registered w regions Hreg)
      as (_ & _ & _ & _ & _ & ->).
  - by destruct (stopGeofencing_not_registered w Hreg)
      as (_ & _ & _ & _ & _ & ->).
Qed.

(** X16. After every history of calls from the first installation, every
    alert that was dispatched is the alert of a zone of the catalog: it
    names the zone, carries its category, severity and description, has
    the action text and the priority the composer gives for the zone and
    the direction, plays a sound, is on the channel of the platform, and
    comes from one of the three call sites. *)
Theorem dispatched_alerts_are_catalog_alerts (calls : list Call) :
  Forall (fun n => exists g, g ∈ catalog /\ alertFor Platform_OS g n)
    (scheduled (runAll Math isoTime Platform_OS catalog calls)).
Proof.
  unfold runAll. induction calls as [|c calls IH] using rev_ind.
  - constructor.
  - rewrite foldl_app. cbn [foldl]. destruct c; cbn [run].
    + rewrite exec_bind. by apply startGeofencing_known.
    + by apply stopGeofencing_known.
    + by apply checkInitialPosition_known.
    + by apply GEOFENCE_TASK_handler_known.
    + by apply (pointPass_known ForegroundWatch).
    + done.
Qed.

End DispatchedAlerts.

(** ** The notification channel *)

Section Channel.

Context (Math : MathObject) (isoTime : nat -> string) (Platform_OS : string).
Context (catalog : list DisasterGeofence.t).

Implicit Types (w : World).

(** What a call does to the channel: on Android the channel is set up, or
    the call leaves the channel and the alerts as they are; elsewhere the
    channel is left as it is. *)
Local Abbreviation channelStep w w' :=
  (if bool_decide (Platform_OS = "android")
   then androidChannel w' = true
        \/ (androidChannel w' = androidChannel w
            /\ scheduled w' = scheduled w)
   else androidChannel w' = androidChannel w) (only parsing).

(** A call that touches neither the channel nor the alerts. *)
Local Ltac quiet_step :=
  destruct (bool_decide (Platform_OS = "android")); [right; split |];
  reflexivity.

Lemma channelStep_refl w : channelStep w w.
Proof. case_bool_decide; auto. Qed.

Lemma channelStep_trans w w1 w2 :
  channelStep w w1 -> channelStep w1 w2 -> channelStep w w2.
Proof.
  case_bool_decide; [| congruence].
  intros [H1 | [H1 S1]] [H2 | [H2 S2]]; auto; [left | right; split];
    congruence.
Qed.

Lemma emit_channel source location t w :
  channelStep w (exec (emit isoTime Platform_OS source location t) w).
Proof.
  unfold emit, sendAlertNotification, ensureAndroidChannel.
  repeat case_bool_decide; try done; cbn; auto.
Qed.

Lemma emitAll_channel source location ts w :
  channelStep w (exec (emitAll isoTime Platform_OS source location ts) w).
Proof.
  revert w. induction ts as [|t ts IH]; intros w.
  - apply channelStep_refl.
  - rewrite emitAll_cons.
    eapply channelStep_trans; [apply emit_channel | apply IH].
Qed.

Lemma getZoneState_channel w state w1 :
  getZoneState isoTime w = (state, w1) ->
  androidChannel w1 = androidChannel w /\ scheduled w1 = scheduled w.
Proof.
  unfold getZoneState, gets, mbind, Async_bind.
  destruct (storedZoneState w); cbn; by intros [= <- <-].
Qed.

Lemma pointPass_channel site location w :
  channelStep w
    (exec (pointPass Math isoTime Platform_OS catalog site location) w).
Proof.
  destruct site; cbn [pointPass];
    unfold checkInitialPosition, handleLocationUpdate, exec, mbind, Async_bind;
    destruct (getZoneState isoTime w) as [state w1] eqn:Hget;
    pose proof Hget as [Hc1 Hs1]%getZoneState_channel;
    apply getZoneState_spec in Hget as (Hprev & _).
  - rewrite (for_of_ext _ _ _
               (checkInitialPosition_body_reconcile Math isoTime Platform_OS
                  location state)).
    rewrite for_of_reconcile_zone, Hprev. cbn [app].
    pose proof (emitAll_channel "initial_check" location
                  (transitions Math catalog (occupancy w) location) w1) as Hstep.
    unfold Date_toISOString, Date_new, setZoneState, modify, mbind, Async_bind.
    cbn. rewrite <- Hc1, <- Hs1. exact Hstep.
  - rewrite (for_of_ext _ _ _
               (handleLocationUpdate_body_reconcile Math isoTime Platform_OS
                  location state)).
    rewrite for_of_reconcile_zone, Hprev. cbn [app].
    pose proof (emitAll_channel "foreground_watch" location
                  (transitions Math catalog (occupancy w) location) w1) as Hstep.
    destruct (bool_decide (sort _ ≠ sort _));
      unfold Date_toISOString, Date_new, setZoneState, modify, mbind,
        Async_bind;
      cbn; rewrite <- Hc1, <- Hs1; exact Hstep.
Qed.

Lemma checkInitialPosition_channel position w :
  channelStep w
    (exec (checkInitialPosition Math isoTime Platform_OS catalog position) w).
Proof.
  destruct position as [location|message].
  - apply (pointPass_channel InitialCheck).
  - quiet_step.
Qed.

Lemma GEOFENCE_TASK_handler_channel data error w :
  channelStep w
    (exec (GEOFENCE_TASK_handler isoTime Platform_OS catalog data error) w).
Proof.
  destruct (GEOFENCE_TASK_handler_cases data error)
    as [[e ->] | [[-> Hincomplete] | (eventType & region & zoneId
                                      & -> & -> & Hid & Hne)]].
  - quiet_step.
  - unfold incomplete, signalIdentifier in Hincomplete.
    destruct data as [[[eventType|] [[[[|c zoneId]|] ? ? ? ? ?]|]]|];
      cbn in Hincomplete; try done; quiet_step.
  - destruct (getGeofenceDetails catalog zoneId) as [g|] eqn:Hget.
    + rewrite (GEOFENCE_TASK_handler_signal_steps isoTime Platform_OS catalog
                 eventType region zoneId g w) by done.
      set (w3 := set_dateCalls (S (S (S (dateCalls w)))) w).
      set (m := if bool_decide (eventType = GeofencingEventType.Enter)
                then addToInsideZones isoTime zoneId
                else removeFromInsideZones isoTime zoneId).
      assert (Hm : androidChannel (exec m w3) = androidChannel w
                   /\ scheduled (exec m w3) = scheduled w).
      { subst m. case_bool_decide.
        - unfold addToInsideZones, exec, mbind, Async_bind.
          destruct (getZoneState isoTime w3) as [state w4] eqn:Hread.
          apply getZoneState_channel in Hread as [Hc4 Hs4].
          by destruct (negb _).
        - unfold removeFromInsideZones, exec, mbind, Async_bind.
          destruct (getZoneState isoTime w3) as [state w4] eqn:Hread.
          apply getZoneState_channel in Hread as [Hc4 Hs4].
          by destruct (indexOf _ _). }
      destruct Hm as [Hcm Hsm].
      unfold sendAlertNotification, ensureAndroidChannel.
      repeat case_bool_decide; try done; cbn; auto.
    + unfold GEOFENCE_TASK_handler.
      cbn [mbind option_bind GeofenceTaskData.eventType
             GeofenceTaskData.region].
      rewrite Hid. destruct zoneId as [|c zoneId]; [done |]. rewrite Hget.
      quiet_step.
Qed.

Lemma startGeofencing_channel fg bg notif debugPosition initialPosition w :
  channelStep w
    (exec (startGeofencing Math isoTime Platform_OS catalog fg bg notif
             debugPosition initialPosition) w).
Proof.
  unfold startGeofencing.
  destruct (bool_decide (fg ≠ granted)); [quiet_step |].
  destruct (bool_decide (bg ≠ granted)); [quiet_step |].
  destruct (bool_decide (notif ≠ granted)); [quiet_step |].
  rewrite !exec_bind.
  match goal with
  | |- context [exec (checkInitialPosition _ _ _ _ _) ?w0] =>
      eapply (channelStep_trans w w0);
        [| eapply channelStep_trans;
           [apply (checkInitialPosition_channel initialPosition w0) |]]
  end.
  - unfold ensureAndroidChannel, isTaskRegisteredAsync.
    rewrite ?eval_bind, ?exec_bind.
    destruct (geofencingTask w) as [regions|] eqn:Hreg;
      destruct debugPosition as [location|message]; cbn; rewrite ?Hreg; cbn;
      repeat case_bool_decide; try done; cbn; auto.
  - rewrite startLocationWatching_exec. quiet_step.
Qed.

Lemma stopGeofencing_channel w : channelStep w (exec stopGeofencing w).
Proof.
  unfold stopGeofencing, stopLocationWatching, isTaskRegisteredAsync, exec,
    gets, mbind, Async_bind.
  destruct (locationSubscription w), (geofencingTask w) eqn:Hreg; cbn;
    rewrite ?Hreg; cbn; quiet_step.
Qed.

Lemma run_channel (c : Call) w :
  channelStep w (exec (run Math isoTime Platform_OS catalog c) w).
Proof.
  destruct c; cbn [run].
  - rewrite exec_bind. apply startGeofencing_channel.
  - apply stopGeofencing_channel.
  - apply checkInitialPosition_channel.
  - apply GEOFENCE_TASK_handler_channel.
  - apply (pointPass_channel ForegroundWatch).
  - quiet_step.
Qed.

(** X17. After every history of calls from the first installation: on
    Android, if an alert has been dispatched the notification channel has
    been set up; on another platform the channel is never set up. *)
Theorem androidChannel_before_first_alert (calls : list Call) :
  let w := runAll Math isoTime Platform_OS catalog calls in
  (Platform_OS = "android" -> scheduled w <> [] -> androidChannel w = true)
  /\ (Platform_OS <> "android" -> androidChannel w = false).
Proof.
  cbn zeta. unfold runAll.
  induction calls as [|c calls [IHa IHn]] using rev_ind; [done |].
  rewrite foldl_app. cbn [foldl].
  set (w := foldl _ initialWorld calls) in *.
  pose proof (run_channel c w) as Hstep.
  case_bool_decide as Hos.
  - split; [| done]. intros _ Hsched.
    destruct Hstep as [H | [Hc Hs]]; [done |].
    rewrite Hc. apply IHa; [done |]. by rewrite <- Hs.
  - split; [done |]. intros _. rewrite Hstep. by apply IHn.
Qed.

End Channel.

(** ** The colour of a severity *)

(** X20. [getSeverityColor] gives different severities different colours,
    each a text of seven characters that starts with a number sign. *)
Theorem getSeverityColor_distinct (s1 s2 : SeverityLevel) :
  s1 <> s2 ->
  getSeverityColor s1 <> getSeverityColor s2
  /\ String.length (getSeverityColor s1) = 7
  /\ String.get 0 (getSeverityColor s1) = String.get 0 "#".
Proof. intros Hne. by destruct s1, s2. Qed.

(** ** A point-based pass after a background callback *)

Section AfterSignal.

Context (Math : MathObject) (isoTime : nat -> string) (Platform_OS : string).
Context (catalog : list DisasterGeofence.t).

(** X21. The two mechanisms share the occupancy.  After a background
    callback told the entry into a zone of the catalog, the next
    point-based pass dispatches no ENTER alert for that zone, and
    dispatches its EXIT alert when the point is outside the zone.  After a
    background callback told the exit from the zone (the occupancy holding
    no identifier twice), the next pass dispatches no EXIT alert for that
    zone, and dispatches its ENTER alert when the point is inside. *)
Theorem pointPass_after_background_signal
    eventType region zoneId g (site : CallSite) (location : Coords.t)
    (w : World) :
  LocationRegion.identifier region = Some zoneId ->
  zoneId <> "" ->
  getGeofenceDetails catalog zoneId = Some g ->
  let data :=
    Some {| GeofenceTaskData.eventType := Some eventType;
            GeofenceTaskData.region := Some region |} in
  let w1 :=
    exec (GEOFENCE_TASK_handler isoTime Platform_OS catalog data None) w in
  let w2 :=
    exec (pointPass Math isoTime Platform_OS catalog site location) w1 in
  exists alerts,
    scheduled w2 = scheduled w1 ++ alerts
    /\ match eventType with
       | GeofencingEventType.Enter =>
           (zoneId ∉ alertedZones ENTER alerts)
           /\ (isInside Math location g = false ->
               zoneId ∈ alertedZones EXIT alerts)
       | GeofencingEventType.Exit =>
           NoDup (occupancy w) ->
           (zoneId ∉ alertedZones EXIT alerts)
           /\ (isInside Math location g = true ->
               zoneId ∈ alertedZones ENTER alerts)
       end.
Proof.
  intros Hid Hne Hget. cbn zeta.
  destruct (GEOFENCE_TASK_handler_signal isoTime Platform_OS catalog
              eventType region zoneId g w Hid Hne Hget) as (Ho & _).
  cbn zeta in Ho.
  set (w1 := exec (GEOFENCE_TASK_handler _ _ _ _ _) w) in *.
  destruct (pointPass_exec Math isoTime Platform_OS catalog site location w1)
    as (Hs & _).
  apply getGeofenceDetails_Some in Hget as [Hg Hidg].
  eexists. split; [exact Hs |].
  rewrite !alertedZones_passAlerts, exited_transitions, entered_transitions.
  destruct eventType.
  - assert (Hin : zoneId ∈ occupancy w1).
    { rewrite Ho. unfold includes. case_bool_decide; [done |].
      apply elem_of_app. right. by left. }
    split.
    + by intros [_ ?]%list_elem_of_difference.
    + intros Hout. apply list_elem_of_fmap. exists g. split; [done |].
      apply list_elem_of_filter. by rewrite Hidg.
  - intros Hdup.
    assert (Hout : zoneId ∉ occupancy w1).
    { rewrite Ho. destruct (indexOf (occupancy w) zoneId) as [index|] eqn:Hix.
      - eapply not_elem_of_delete_NoDup; [done |]. by eapply indexOf_Some.
      - by eapply indexOf_None. }
    split.
    + by intros (g' & -> & [[_ Hprev] _]%list_elem_of_filter)%list_elem_of_fmap.
    + intros Hinside. apply list_elem_of_difference. split; [| done].
      apply currentlyInside_elem_of. by exists g.
Qed.

End AfterSignal.

(** ** The further properties on the sample runs *)

Section FurtherSampleRuns.

Import Scenario.

Local Abbreviation handler' := (GEOFENCE_TASK_handler clock OS TEST_GEOFENCES).
Local Abbreviation start' :=
  (startGeofencing SampleMath.Math clock OS TEST_GEOFENCES).
Local Abbreviation runAll' := (runAll SampleMath.Math clock OS TEST_GEOFENCES).

Lemma floodZone_in_catalog : floodZone ∈ TEST_GEOFENCES.
Proof. unfold TEST_GEOFENCES. left. Qed.

(** The witness of X1: the flood zone is found by its identifier. *)
Lemma getGeofenceDetails_lookup_witness :
  getGeofenceDetails TEST_GEOFENCES "flood-derby-center" = Some floodZone.
Proof.
  apply (proj2 (proj2 (getGeofenceDetails_lookup TEST_GEOFENCES))
           TEST_GEOFENCES_identifiers_NoDup floodZone floodZone_in_catalog).
Defined.

(** The witness of X2: from the centre of the flood zone, the zone
    answered is at most as far as the flood zone. *)
Lemma getClosestGeofence_closest_witness :
  exists c,
    getClosestGeofence SampleMath.Math TEST_GEOFENCES
      52.9225%float (-1.4746)%float = Some c
    /\ (Closest.distance c
        <=? calculateDistance SampleMath.Math 52.9225 (-1.4746)
              (DisasterGeofence.latitude floodZone)
              (DisasterGeofence.longitude floodZone))%float = true.
Proof.
  destruct (getClosestGeofence SampleMath.Math TEST_GEOFENCES
              52.9225%float (-1.4746)%float) as [c|] eqn:Hclosest.
  - exists c. split; [reflexivity |].
    apply (proj2 (proj2 (getClosestGeofence_closest SampleMath.Math
                           TEST_GEOFENCES 52.9225%float (-1.4746)%float))
             c Hclosest).
    + intros g Hg. apply list_elem_of_In in Hg.
      repeat (destruct Hg as [<- | Hg]; [vm_compute; reflexivity |]).
      destruct Hg.
    + exact floodZone_in_catalog.
  - vm_compute in Hclosest. discriminate.
Defined.

(** The witness of X3: after the removal of the flood zone from the
    occupancy {flood, evacuation}, the zone is not inside. *)
Lemma zone_state_store_round_trip_witness :
  eval (isInsideZone clock "flood-derby-center")
    (exec (removeFromInsideZones clock "flood-derby-center")
       afterCheckNorthWest) = false.
Proof.
  apply (proj1 (proj2 (proj2 (zone_state_store_round_trip clock
                                "flood-derby-center" afterCheckNorthWest)))).
  apply (bool_decide_unpack _). vm_compute. reflexivity.
Defined.

(** The witness of X4: the callback for the entry into the fire zone. *)
Lemma GEOFENCE_TASK_handler_alert_witness :
  exists n,
    scheduled (exec (handler' enterFire None) afterCheckNorthWest)
    = scheduled afterCheckNorthWest ++ [n]
    /\ alertKey n = (ENTER, "fire-risk-west")
    /\ AlertData.source (NotificationContent.data n) = "background_geofence".
Proof.
  destruct (GEOFENCE_TASK_handler_alert clock OS TEST_GEOFENCES
              GeofencingEventType.Enter (regionOf "fire-risk-west" fireZone)
              "fire-risk-west" fireZone afterCheckNorthWest)
    as (n & e & Hs & _ & _ & Hkey & Hsource & _).
  - reflexivity.
  - discriminate.
  - vm_compute. reflexivity.
  - exists n. split; [exact Hs |]. split; [exact Hkey | exact Hsource].
Defined.

(** The witness of X5: the callback for the entry into the flood zone,
    which the occupancy holds already. *)
Lemma GEOFENCE_TASK_handler_repeats_alert_witness :
  let data :=
    Some {| GeofenceTaskData.eventType := Some GeofencingEventType.Enter;
            GeofenceTaskData.region :=
              Some (regionOf "flood-derby-center" floodZone) |} in
  storedZoneState (exec (handler' data None) afterCheckNorthWest)
  = storedZoneState afterCheckNorthWest
  /\ length (scheduled (exec (handler' data None) afterCheckNorthWest))
     = S (length (scheduled afterCheckNorthWest)).
Proof.
  destruct (GEOFENCE_TASK_handler_repeats_alert clock OS TEST_GEOFENCES
              GeofencingEventType.Enter
              (regionOf "flood-derby-center" floodZone)
              "flood-derby-center" floodZone afterCheckNorthWest)
    as (Hz & Hlen & _).
  - reflexivity.
  - discriminate.
  - vm_compute. reflexivity.
  - apply (bool_decide_unpack _). vm_compute. reflexivity.
  - split; [exact Hz | exact Hlen].
Defined.

(** The witness of X6: a callback for an identifier that names no zone. *)
Lemma GEOFENCE_TASK_handler_unknown_zone_witness :
  let data :=
    Some {| GeofenceTaskData.eventType := Some GeofencingEventType.Exit;
            GeofenceTaskData.region :=
              Some (regionOf "retired-zone" floodZone) |} in
  storedZoneState (exec (handler' data None) afterCheckNorthWest)
  = storedZoneState afterCheckNorthWest
  /\ scheduled (exec (handler' data None) afterCheckNorthWest)
     = scheduled afterCheckNorthWest.
Proof.
  destruct (GEOFENCE_TASK_handler_unknown_zone clock OS TEST_GEOFENCES
              GeofencingEventType.Exit (regionOf "retired-zone" floodZone)
              "retired-zone" afterCheckNorthWest)
    as (Hz & Hs & _).
  - reflexivity.
  - discriminate.
  - apply (bool_decide_unpack _). vm_compute. reflexivity.
  - split; [exact Hz | exact Hs].
Defined.


(** The witness of X8: the first start, at a point inside the flood and
    evacuation zones. *)
Lemma startGeofencing_cold_start_witness :
  let w' :=
    exec (start' granted granted granted (PositionOk northWest)
            (PositionOk northWest)) initialWorld in
  locationSubscription w' = true
  /\ occupancy w' = currentlyInside SampleMath.Math TEST_GEOFENCES northWest.
Proof.
  destruct (startGeofencing_cold_start SampleMath.Math clock OS TEST_GEOFENCES
              (PositionOk northWest) northWest initialWorld)
    as (_ & _ & _ & _ & _ & _ & Hsub & Hocc & _).
  - reflexivity.
  - split; [exact Hsub | exact Hocc].
Defined.

(** The witness of X10: a stop after a start. *)
Lemma stopGeofencing_clears_witness :
  let w :=
    exec (start' granted granted granted (PositionOk northWest)
            (PositionOk northWest)) initialWorld in
  storedZoneState (exec stopGeofencing w) = None
  /\ geofencingTask (exec stopGeofencing w) = None.
Proof.
  destruct (proj1 (stopGeofencing_clears_and_is_idempotent
                     (exec (start' granted granted granted
                              (PositionOk northWest) (PositionOk northWest))
                        initialWorld)))
    as (Hz & Hg & _).
  - vm_compute. by eexists.
  - split; [exact Hz | exact Hg].
Defined.


(** The witness of X12: a history of an initial check, a location update
    and a callback. *)
Lemma occupancy_in_catalog_invariant_witness :
  serviceInvariant TEST_GEOFENCES
    (runAll' [CallInitialCheck (PositionOk northWest);
              CallLocation southWest;
              CallBackground enterFire None]).
Proof.
  apply (occupancy_in_catalog_invariant SampleMath.Math clock OS TEST_GEOFENCES).
  apply (bool_decide_unpack _). vm_compute. reflexivity.
Defined.

(** The witness of X13: a flood zone whose radius is not a number, and a
    point at its centre. *)
Lemma pointPass_outside_when_not_a_number_witness :
  "flood-derby-center"
    ∉ occupancy (exec (pointPass SampleMath.Math clock OS [floodZoneNaN]
                         ForegroundWatch centre) initialWorld).
Proof.
  apply (proj1 (pointPass_outside_when_not_a_number SampleMath.Math clock OS
                  [floodZoneNaN] ForegroundWatch centre initialWorld
                  floodZoneNaN
                  ltac:(apply (bool_decide_unpack _); vm_compute; reflexivity)
                  ltac:(left)
                  ltac:(right; vm_compute; reflexivity))).
Defined.

(** The witness of X14: a location update at the centre of the flood zone
    after the initial check made there. *)
Lemma handleLocationUpdate_writes_sorted_witness :
  let w :=
    exec (checkInitialPosition SampleMath.Math clock OS TEST_GEOFENCES
            (PositionOk centre)) initialWorld in
  storedZoneState
    (exec (handleLocationUpdate SampleMath.Math clock OS TEST_GEOFENCES centre)
       w)
  = storedZoneState w.
Proof.
  apply (proj1 (handleLocationUpdate_writes_sorted_on_change SampleMath.Math
                  clock OS TEST_GEOFENCES centre
                  (exec (checkInitialPosition SampleMath.Math clock OS
                           TEST_GEOFENCES (PositionOk centre)) initialWorld))).
  vm_compute. reflexivity.
Defined.

(** The witness of X15: the export of the log of two entries. *)
Lemma exportLogsAsCSV_one_line_per_entry_witness :
  let csv := eval (exportLogsAsCSV localeDate localeTime) afterCheckNorthWest in
  occurrences LF csv = 3 /\ occurrences COMMA csv = 18.
Proof.
  apply (proj1 (proj2 (proj2 (exportLogsAsCSV_one_line_per_entry
                                localeDate localeTime afterCheckNorthWest)))).
  vm_compute. repeat constructor.
Defined.

(** The witness of X17: on Android, after an initial check inside the
    flood zone. *)
Lemma androidChannel_before_first_alert_witness :
  androidChannel (runAll' [CallInitialCheck (PositionOk centre)]) = true.
Proof.
  apply (proj1 (androidChannel_before_first_alert SampleMath.Math clock OS
                  TEST_GEOFENCES [CallInitialCheck (PositionOk centre)])).
  - reflexivity.
  - vm_compute. discriminate.
Defined.

(** The witness of X18: the initial check at a point inside the flood and
    fire zones, from the occupancy {flood, evacuation}. *)
Lemma checkInitialPosition_diff_witness :
  exists alerts,
    scheduled (exec (checkInitialPosition SampleMath.Math clock OS
                       TEST_GEOFENCES (PositionOk southWest))
                 afterCheckNorthWest)
    = scheduled afterCheckNorthWest ++ alerts
    /\ alertedZones ENTER alerts = ["fire-risk-west"].
Proof.
  destruct (checkInitialPosition_diff SampleMath.Math clock OS TEST_GEOFENCES
              southWest afterCheckNorthWest)
    as (alerts & events & Hs & _ & Henter & _).
  - apply (bool_decide_unpack _). vm_compute. reflexivity.
  - apply Forall_forall, (bool_decide_unpack _). vm_compute. reflexivity.
  - exists alerts. split; [exact Hs | exact Henter].
Defined.

(** The witness of X19: an occupancy that names a zone since removed from
    the catalog, and a location update far from every zone. *)
Lemma stale_identifier_no_alert_witness :
  exists alerts,
    scheduled (exec (pointPass SampleMath.Math clock OS TEST_GEOFENCES
                       ForegroundWatch london) staleWorld)
    = scheduled staleWorld ++ alerts
    /\ "retired-zone" ∉ alertedZones EXIT alerts.
Proof.
  destruct (stale_identifier_no_alert SampleMath.Math clock OS TEST_GEOFENCES
              ForegroundWatch london staleWorld "retired-zone")
    as (alerts & Hs & Hexit & _).
  - apply (bool_decide_unpack _). vm_compute. reflexivity.
  - exists alerts. split; [exact Hs | exact Hexit].
Defined.

(** The witness of X20: the colours of WARNING and HIGH. *)
Lemma getSeverityColor_distinct_witness :
  getSeverityColor WARNING <> getSeverityColor HIGH.
Proof.
  apply (proj1 (getSeverityColor_distinct WARNING HIGH
                  ltac:(discriminate))).
Defined.

(** The witness of X21: the callback for the entry into the fire zone,
    then a location update far from every zone. *)
Lemma pointPass_after_background_signal_witness :
  exists alerts,
    scheduled (exec (pointPass SampleMath.Math clock OS TEST_GEOFENCES
                       ForegroundWatch london)
                 (exec (handler' enterFire None) afterCheckNorthWest))
    = scheduled (exec (handler' enterFire None) afterCheckNorthWest) ++ alerts
    /\ ("fire-risk-west" ∉ alertedZones ENTER alerts)
    /\ ("fire-risk-west" ∈ alertedZones EXIT alerts).
Proof.
  destruct (pointPass_after_background_signal SampleMath.Math clock OS
              TEST_GEOFENCES GeofencingEventType.Enter
              (regionOf "fire-risk-west" fireZone) "fire-risk-west" fireZone
              ForegroundWatch london afterCheckNorthWest)
    as (alerts & Hs & Henter & Hexit).
  - reflexivity.
  - discriminate.
  - vm_compute. reflexivity.
  - exists alerts. split; [exact Hs |]. split; [exact Henter |].
    apply Hexit. vm_compute. reflexivity.
Defined.

End FurtherSampleRuns.
